(** * Stelo finance server: asset ledger, transfer engine and asset valuation

    A shallow embedding of the request handlers of the server
    (validateAssets, the wallet, warehouse, transfer and user routes) as
    functions over an explicit database state, and the properties of the
    ledger specification checked against them.

    Conventions of the embedding.
    - JavaScript numbers are integers ([Z]); the engine only ever adds,
      subtracts, multiplies and compares quantities and collateral, and unit
      prices are taken as integers. The code computes with IEEE doubles, which
      agree with the integers while operands and results are safe integers
      (at most 2^53 - 1 in absolute value): a property whose statement fixes
      the value of a sum or of a balance carries that bound as a hypothesis
      ([Props.exact_total], [Props.exact_on]).
    - A lookup [key in obj] is a lookup among the entries of [obj]; the names
      that every JavaScript object inherits ("constructor", ...) are set
      apart by [Props.plain_lookup] where a statement depends on them.
    - A JSON object that the code walks with [for (const key in obj)] is an
      association list in iteration order.
    - A MongoDB collection is a [gmap] from document ids to records; a
      multi-document transaction runs on the state and is committed only when
      the callback did not abort.
    - Everything the outside world decides (the clock, the content of the
      Redis hash "assets", the answer of a webhook) is an argument. *)

From Stdlib Require Import ZArith Lia Ascii.
From stdpp Require Import gmap strings list fin_maps.

Open Scope Z_scope.

(** ** JSON request objects *)

(** A value of the request's [assets] object: an integer number, or any other
    JSON value (fraction, string, boolean, null, array, object). *)
Inductive jsvalue : Type :=
  | JInt (z : Z)
  | JNonInt.

Definition Number_isInteger (v : jsvalue) : bool :=
  match v with JInt _ => true | JNonInt => false end.

Definition num (v : jsvalue) : Z :=
  match v with JInt z => z | JNonInt => 0 end.

(** [obj[key]] on an association list (a parsed object has every key once). *)
Fixpoint obj_get {A : Type} (obj : list (string * A)) (key : string) : option A :=
  match obj with
  | [] => None
  | (k, v) :: rest => if String.eqb k key then Some v else obj_get rest key
  end.

Definition keys {A : Type} (obj : list (string * A)) : list string := obj.*1.

(** ** Asset valuation (tools/assetValidation.ts) *)

Module Valuation.

Record PriceEntry : Type := mkPrice { value : Z; updatedAt : Z }.

(** The two application settings ["assets"] and ["assetsCheckedAt"]. *)
Record Cache : Type := mkCache {
  assets : gmap string PriceEntry;
  assetsCheckedAt : Z
}.

(** Calls made to the price source (the Redis hash "assets"). *)
Inductive redis_call : Type :=
  | HGETALL
  | HMGET (fields : list string).

Definition thirtyMinutes : Z := 1000 * 60 * 30.

(** The object built from a whole-table load. *)
Definition assetValueObject (redis : gmap string Z) (currentDateTime : Z)
  : gmap string PriceEntry :=
  (fun v => mkPrice v currentDateTime) <$> redis.

(** Local variables of the scanning loop. [installed] is the pair set with
    [app.set] by a whole-table load: the local [globalAssetObject] keeps
    pointing to the object read at the start of the call. *)
Record scan : Type := mkScan {
  totalCollateral : Z;
  outdatedAssets : list string;
  installed : option Cache;
  calls : list redis_call
}.

Definition add_collateral (d : Z) (st : scan) : scan :=
  mkScan (totalCollateral st + d) (outdatedAssets st) (installed st) (calls st).

Definition push_outdated (key : string) (st : scan) : scan :=
  mkScan (totalCollateral st) (outdatedAssets st ++ [key]) (installed st) (calls st).

Definition log_call (c : redis_call) (st : scan) : scan :=
  mkScan (totalCollateral st) (outdatedAssets st) (installed st) (calls st ++ [c]).

Definition install (c : Cache) (st : scan) : scan :=
  mkScan (totalCollateral st) (outdatedAssets st) (Some c) (calls st).

(** The [for (const key in assetsToCheck)] loop. The boolean is [false] when
    the loop left the function with [return -1]. *)
Fixpoint scan_assets (globalAssetObject : gmap string PriceEntry)
    (globalAssetsUpdatedAt currentDateTime : Z) (redis : gmap string Z)
    (steloAllowed : bool) (assetsToCheck : list (string * jsvalue)) (st : scan)
  : bool * scan :=
  match assetsToCheck with
  | [] => (true, st)
  | (key, v) :: rest =>
    let continue := scan_assets globalAssetObject globalAssetsUpdatedAt
                      currentDateTime redis steloAllowed rest in
    if Number_isInteger v && (1 <=? num v) then
      match globalAssetObject !! key with
      | Some entry =>
        if updatedAt entry <? currentDateTime - thirtyMinutes
        then continue (push_outdated key st)
        else continue (add_collateral (value entry * num v) st)
      | None =>
        if String.eqb key "stelo" then
          if negb steloAllowed then (false, st) else continue st
        else if globalAssetsUpdatedAt <? currentDateTime - thirtyMinutes * 2 then
          let st1 := log_call HGETALL st in
          if Z.of_nat (size redis) <? 1 then (false, st1)
          else
            let st2 :=
              install (mkCache (assetValueObject redis currentDateTime)
                               currentDateTime) st1 in
            match redis !! key with
            | Some price => continue (add_collateral (price * num v) st2)
            | None => (false, st2)
            end
        else (false, st)
      end
    else (false, st)
  end.

(** The loop over [updatedAssets], the answer of HMGET for the outdated
    keys: a [null] answer evicts the entry and returns -1. *)
Fixpoint refresh_outdated (currentDateTime : Z)
    (assetsToCheck : list (string * jsvalue))
    (updated : list (string * option Z))
    (globalAssetObject : gmap string PriceEntry) (total : Z)
  : Z * gmap string PriceEntry :=
  match updated with
  | [] => (total, globalAssetObject)
  | (key, None) :: _ => (-1, delete key globalAssetObject)
  | (key, Some price) :: rest =>
    refresh_outdated currentDateTime assetsToCheck rest
      (<[key := mkPrice price currentDateTime]> globalAssetObject)
      (total + price * default 0 (num <$> obj_get assetsToCheck key))
  end.

(** What the application settings hold when the call returns: the installed
    pair if a whole-table load replaced them, else the (mutated) object read
    at the start together with the unchanged timestamp. *)
Definition settings_after (st : scan) (globalAssetObject : gmap string PriceEntry)
    (globalAssetsUpdatedAt : Z) : Cache :=
  match installed st with
  | Some c => c
  | None => mkCache globalAssetObject globalAssetsUpdatedAt
  end.

Record outcome : Type := mkOutcome {
  result : Z;
  cache_after : Cache;
  redis_calls : list redis_call
}.

Definition validateAssets (assetsToCheck : list (string * jsvalue))
    (steloAllowed : bool) (currentDateTime : Z) (redis : gmap string Z)
    (app : Cache) : outcome :=
  let globalAssetObject := assets app in
  let globalAssetsUpdatedAt := assetsCheckedAt app in
  let '(completed, st) :=
    scan_assets globalAssetObject globalAssetsUpdatedAt currentDateTime redis
      steloAllowed assetsToCheck (mkScan 0 [] None []) in
  if negb completed then
    mkOutcome (-1) (settings_after st globalAssetObject globalAssetsUpdatedAt)
      (calls st)
  else if (1 <=? length (outdatedAssets st))%nat then
    let updatedAssets :=
      (fun key => (key, redis !! key)) <$> outdatedAssets st in
    let '(total, obj) :=
      refresh_outdated currentDateTime assetsToCheck updatedAssets
        globalAssetObject (totalCollateral st) in
    mkOutcome total (settings_after st obj globalAssetsUpdatedAt)
      (calls st ++ [HMGET (outdatedAssets st)])
  else
    mkOutcome (totalCollateral st)
      (settings_after st globalAssetObject globalAssetsUpdatedAt) (calls st).

End Valuation.

(** ** Documents and collections *)

Abbreviation ObjectId := N (only parsing).

(** A document of the [wallets] collection. [w_collateralAvailable] is the
    top-level field [collateralAvailable], absent until an update creates it. *)
Record Wallet : Type := mkWallet {
  username : option string;
  address : option string;
  webhook : option string;
  w_assets : gmap string Z;
  w_collateralAvailable : option Z
}.

Record Warehouse : Type := mkWarehouse {
  ownerId : ObjectId;
  workers : list ObjectId;
  collateral : Z;
  collateralAvailable : Z;
  h_assets : gmap string Z
}.

(** A document of [warehouseAccounts]: the [warehouseId]s of its
    [warehouses] array. *)
Record WarehouseAccount : Type := mkAccount {
  assigned : list ObjectId
}.

Inductive Status : Type := pending | sent | received.

Record Transfer : Type := mkTransfer {
  status : Status;
  collateralUsed : Z;
  receivingWarehouse : ObjectId;
  sendingWarehouse : ObjectId;
  t_assets : list (string * Z)
}.

Record State : Type := mkState {
  wallets : gmap N Wallet;
  warehouses : gmap N Warehouse;
  warehouseAccounts : gmap N WarehouseAccount;
  transfers : gmap N Transfer;
  app : Valuation.Cache
}.

Inductive Response : Type :=
  | Success (http : Z)
  | Failure (http : Z) (code : string).

#[global] Instance Status_eq_dec : EqDecision Status.
Proof. solve_decision. Defined.

(** *** Field updates *)

Definition with_w_assets (a : gmap string Z) (w : Wallet) : Wallet :=
  mkWallet (username w) (address w) (webhook w) a (w_collateralAvailable w).

Definition with_w_collateralAvailable (c : option Z) (w : Wallet) : Wallet :=
  mkWallet (username w) (address w) (webhook w) (w_assets w) c.

Definition with_h_assets (a : gmap string Z) (h : Warehouse) : Warehouse :=
  mkWarehouse (ownerId h) (workers h) (collateral h) (collateralAvailable h) a.

Definition with_collateral (c : Z) (h : Warehouse) : Warehouse :=
  mkWarehouse (ownerId h) (workers h) c (collateralAvailable h) (h_assets h).

Definition with_collateralAvailable (c : Z) (h : Warehouse) : Warehouse :=
  mkWarehouse (ownerId h) (workers h) (collateral h) c (h_assets h).

Definition with_status (st : Status) (t : Transfer) : Transfer :=
  mkTransfer st (collateralUsed t) (receivingWarehouse t) (sendingWarehouse t)
    (t_assets t).

Definition with_wallets (ws : gmap N Wallet) (s : State) : State :=
  mkState ws (warehouses s) (warehouseAccounts s) (transfers s) (app s).

Definition with_warehouses (hs : gmap N Warehouse) (s : State) : State :=
  mkState (wallets s) hs (warehouseAccounts s) (transfers s) (app s).

Definition with_transfers (ts : gmap N Transfer) (s : State) : State :=
  mkState (wallets s) (warehouses s) (warehouseAccounts s) ts (app s).

Definition with_app (c : Valuation.Cache) (s : State) : State :=
  mkState (wallets s) (warehouses s) (warehouseAccounts s) (transfers s) c.

(** *** MongoDB update and filter operators on an [assets] sub-document *)

(** The quantity read for a symbol; a missing field counts as 0 for [$inc]. *)
Definition balance (a : gmap string Z) (key : string) : Z := default 0 (a !! key).

(** [{$inc: {"assets.key": d}}]: creates the field when it is missing. *)
Definition inc (key : string) (d : Z) (a : gmap string Z) : gmap string Z :=
  <[key := balance a key + d]> a.

Definition inc_all (upd : list (string * Z)) (a : gmap string Z) : gmap string Z :=
  foldl (fun acc kd => inc kd.1 kd.2 acc) a upd.

(** [{"assets.key": {$gte: q}}] for every entry: a missing field never matches. *)
Definition gte_all (upd : list (string * Z)) (a : gmap string Z) : bool :=
  forallb (fun kq => match a !! kq.1 with
                     | Some b => kq.2 <=? b
                     | None => false
                     end) upd.

(** The numbers of a request's [assets] object, as the [for ... in] loops copy
    them into an update document. *)
Definition quantities (obj : list (string * jsvalue)) : list (string * Z) :=
  (fun kv => (kv.1, num kv.2)) <$> obj.

Definition negated (upd : list (string * Z)) : list (string * Z) :=
  (fun kq => (kq.1, - kq.2)) <$> upd.

(** [$inc] on the optional top-level field of a wallet. *)
Definition inc_field (d : Z) (f : option Z) : option Z := Some (default 0 f + d).

(** [findOne]/[findOneAndUpdate] by a filter that is not the id: the first
    matching document of the collection. *)
Definition find_doc {A : Type} (p : A -> bool) (c : gmap N A) : option (N * A) :=
  head (filter (fun kv => Is_true (p kv.2)) (map_to_list c)).

(** [updateOne({_id: id}, u)] without a check of the result. *)
Definition update_by_id {A : Type} (id : N) (u : A -> A) (c : gmap N A) : gmap N A :=
  match c !! id with
  | Some d => <[id := u d]> c
  | None => c
  end.

(** JavaScript truthiness of an optional string field. *)
Definition truthy (f : option string) : bool :=
  match f with
  | Some s => negb (String.eqb s "")
  | None => false
  end.

(** [String.prototype.toLowerCase] on the letters A-Z; the two agree on the
    strings made of ASCII characters ([Props.ascii_only]). *)
Definition toLowerCase_ascii (c : ascii) : ascii :=
  let n := nat_of_ascii c in
  if ((65 <=? n) && (n <=? 90))%nat then ascii_of_nat (n + 32) else c.

Fixpoint toLowerCase (s : string) : string :=
  match s with
  | EmptyString => EmptyString
  | String c rest => String (toLowerCase_ascii c) (toLowerCase rest)
  end.

(** [session.withTransaction]: the callback's writes are kept only when it
    did not abort. *)
Definition withTransaction {F S : Type} (body : S -> F * option S) (s : S) : F * S :=
  match body s with
  | (flags, Some s') => (flags, s')
  | (flags, None) => (flags, s)
  end.

(** [updateOne({_id: id, ...filter}, u)]: [None] when no document was
    modified. *)
Definition update_if {A : Type} (id : N) (p : A -> bool) (u : A -> A)
    (c : gmap N A) : option (gmap N A) :=
  match c !! id with
  | Some d => if p d then Some (<[id := u d]> c) else None
  | None => None
  end.

Definition bad_request : Response := Failure 400 "G0000".

(** ** Peer transaction: POST /wallet/transactions (api/wallet.ts) *)

Record send_flags : Type := mkSendFlags {
  hasFunds : bool;
  recipientFound : bool;
  webhookFailed : bool
}.

(** The recipient filter: ["#address"] or a user name. *)
Definition recipient_filter (recipient : string) (w : Wallet) : bool :=
  match recipient with
  | String "#" rest => bool_decide (address w = Some (toLowerCase rest))
  | _ => bool_decide (username w = Some recipient)
  end.

(** The callback of the transaction. [webhook_ok] tells whether the POST to
    the recipient's webhook resolved with a response. *)
Definition send_transaction (walletId : N) (recipient : string)
    (upd : list (string * Z)) (webhook_ok : bool) (ws : gmap N Wallet)
  : send_flags * option (gmap N Wallet) :=
  match find_doc (recipient_filter recipient) ws with
  | None => (mkSendFlags true false false, None)
  | Some (recipientId, r) =>
    let ws1 := <[recipientId := with_w_assets (inc_all upd (w_assets r)) r]> ws in
    if truthy (webhook r) && negb webhook_ok then
      (mkSendFlags true true true, None)
    else
      match update_if walletId (fun w => gte_all upd (w_assets w))
              (fun w => with_w_assets (inc_all (negated upd) (w_assets w)) w)
              ws1 with
      | Some ws2 => (mkSendFlags true true false, Some ws2)
      | None => (mkSendFlags false true false, None)
      end
  end.

Definition send_response (f : send_flags) : Response :=
  if negb (hasFunds f) then Failure 400 "W0002"
  else if negb (recipientFound f) then Failure 404 "W0003"
  else if webhookFailed f then Failure 400 "W0004"
  else Success 201.

Definition post_wallet_transactions (walletId : N) (recipient : string)
    (assetsReq : list (string * jsvalue)) (webhook_ok : bool)
    (now : Z) (redis : gmap string Z) (s : State) : Response * State :=
  if (length assetsReq <? 1)%nat then (bad_request, s) else
  let v := Valuation.validateAssets assetsReq true now redis (app s) in
  let s0 := with_app (Valuation.cache_after v) s in
  if Valuation.result v <? 0 then (bad_request, s0) else
  let '(flags, ws) :=
    withTransaction
      (send_transaction walletId recipient (quantities assetsReq) webhook_ok)
      (wallets s0) in
  (send_response flags, with_wallets ws s0).

(** ** Warehouses (api/warehouses.ts) *)

(** The middleware [assignedToWarehouse(isOwner)]: the projection stored in
    [req.warehouse], or [None] for the 403 answer. *)
Definition assignedToWarehouse (isOwner : bool) (warehouseAccountId warehouseId : N)
    (hs : gmap N Warehouse) : option Warehouse :=
  match hs !! warehouseId with
  | Some h =>
    if isOwner then
      if N.eqb (ownerId h) warehouseAccountId then Some h else None
    else if existsb (N.eqb warehouseAccountId) (workers h)
            || N.eqb (ownerId h) warehouseAccountId
    then Some h else None
  | None => None
  end.

Definition add_both (d : Z) (h : Warehouse) : Warehouse :=
  with_collateralAvailable (collateralAvailable h + d)
    (with_collateral (collateral h + d) h).

Record collateral_flags : Type := mkCollateralFlags {
  c_hasFunds : bool;
  availableCollateral : bool;
  walletFound : bool
}.

(** PATCH /:warehouseId/collateral, the callback of the transaction. *)
Definition collateral_transaction (walletId warehouseId : N) (balance_ : Z)
    (addingCollateral : bool) (s : State) : collateral_flags * option State :=
  if addingCollateral then
    match update_if walletId
            (fun w => match w_assets w !! "stelo" with
                      | Some b => balance_ <=? b
                      | None => false
                      end)
            (fun w => with_w_assets (inc "stelo" (- balance_) (w_assets w)) w)
            (wallets s) with
    | None => (mkCollateralFlags false true true, None)
    | Some ws =>
      (mkCollateralFlags true true true,
       Some (with_warehouses
               (update_by_id warehouseId (add_both balance_) (warehouses s))
               (with_wallets ws s)))
    end
  else
    match update_if warehouseId
            (fun h => Z.abs balance_ <=? collateralAvailable h)
            (add_both balance_) (warehouses s) with
    | None => (mkCollateralFlags true false true, None)
    | Some hs =>
      match update_if walletId (fun _ => true)
              (fun w => with_w_assets (inc "stelo" (Z.abs balance_) (w_assets w)) w)
              (wallets s) with
      | None => (mkCollateralFlags true true false, None)
      | Some ws =>
        (mkCollateralFlags true true true,
         Some (with_warehouses hs (with_wallets ws s)))
      end
    end.

Definition collateral_response (f : collateral_flags) : Response :=
  if negb (c_hasFunds f) then Failure 400 "W0002"
  else if negb (availableCollateral f) then Failure 400 "H0000"
  else if negb (walletFound f) then Failure 400 "W0001"
  else Success 200.

Definition patch_warehouse_collateral (warehouseAccountId walletId warehouseId : N)
    (balance_ : Z) (s : State) : Response * State :=
  match assignedToWarehouse true warehouseAccountId warehouseId (warehouses s) with
  | None => (Failure 403 "A0012", s)
  | Some req_warehouse =>
    if balance_ =? 0 then (bad_request, s) else
    if (balance_ <? 0) && (Z.abs balance_ >? collateralAvailable req_warehouse)
    then (Failure 400 "H0000", s) else
    let '(flags, s1) :=
      withTransaction
        (collateral_transaction walletId warehouseId balance_ (negb (balance_ <? 0)))
        s in
    (collateral_response flags, s1)
  end.

(** POST /:warehouseId/assets (deposit). One update document, [queryUpdate],
    is applied to the warehouse and then to the depositor's wallet. *)
Record deposit_flags : Type := mkDepositFlags {
  d_recipientFound : bool;
  d_collateralAvailable : bool
}.

Definition deposit_transaction (warehouseId : N) (depositor : string)
    (collateralNeeded : Z) (upd : list (string * Z)) (s : State)
  : deposit_flags * option State :=
  match update_if warehouseId
          (fun h => collateralNeeded <=? collateralAvailable h)
          (fun h => with_h_assets (inc_all upd (h_assets h))
                      (with_collateralAvailable
                         (collateralAvailable h + - collateralNeeded) h))
          (warehouses s) with
  | None => (mkDepositFlags true false, None)
  | Some hs =>
    match find_doc (fun w => bool_decide (username w = Some depositor)) (wallets s) with
    | None => (mkDepositFlags false true, None)
    | Some (recipientId, w) =>
      let w' :=
        with_w_assets (inc_all upd (w_assets w))
          (with_w_collateralAvailable
             (inc_field (- collateralNeeded) (w_collateralAvailable w)) w) in
      (mkDepositFlags true true,
       Some (with_wallets (<[recipientId := w']> (wallets s)) (with_warehouses hs s)))
    end
  end.

Definition deposit_response (f : deposit_flags) : Response :=
  if negb (d_recipientFound f) then Failure 404 "W0003"
  else if negb (d_collateralAvailable f) then Failure 400 "H0000"
  else Success 200.

Definition post_warehouse_assets (warehouseAccountId warehouseId : N)
    (depositor : string) (assetsReq : list (string * jsvalue))
    (now : Z) (redis : gmap string Z) (s : State) : Response * State :=
  match assignedToWarehouse false warehouseAccountId warehouseId (warehouses s) with
  | None => (Failure 403 "A0011", s)
  | Some req_warehouse =>
    if (length assetsReq <? 1)%nat then (bad_request, s) else
    let v := Valuation.validateAssets assetsReq false now redis (app s) in
    let s0 := with_app (Valuation.cache_after v) s in
    if Valuation.result v <? 0 then (bad_request, s0) else
    let collateralNeeded := Valuation.result v in
    if collateralAvailable req_warehouse <? collateralNeeded
    then (Failure 400 "H0000", s0) else
    let '(flags, s1) :=
      withTransaction
        (deposit_transaction warehouseId depositor collateralNeeded
           (quantities assetsReq)) s0 in
    (deposit_response flags, s1)
  end.

(** DELETE /:warehouseId/assets (withdrawal). *)

(** "Test if collateral will overflow, if so scoop off the top". *)
Definition clamp_collateral (req_warehouse : Warehouse) (collateralToReturn : Z) : Z :=
  if collateralAvailable req_warehouse + collateralToReturn >? collateral req_warehouse
  then collateralToReturn
       - (collateralAvailable req_warehouse - collateral req_warehouse
          + collateralToReturn)
  else collateralToReturn.

Record withdraw_flags : Type := mkWithdrawFlags {
  userHasFunds : bool;
  warehouseHasFunds : bool
}.

Definition withdraw_transaction (warehouseId : N) (withdrawer : string)
    (collateralToReturn : Z) (upd : list (string * Z)) (s : State)
  : withdraw_flags * option State :=
  match update_if warehouseId
          (fun h => gte_all upd (h_assets h))
          (fun h => with_h_assets (inc_all (negated upd) (h_assets h))
                      (with_collateralAvailable
                         (collateralAvailable h + collateralToReturn) h))
          (warehouses s) with
  | None => (mkWithdrawFlags true false, None)
  | Some hs =>
    match find_doc (fun w => gte_all upd (w_assets w)
                             && bool_decide (username w = Some withdrawer))
            (wallets s) with
    | None => (mkWithdrawFlags false true, None)
    | Some (withdrawerId, w) =>
      let w' :=
        with_w_assets (inc_all (negated upd) (w_assets w))
          (with_w_collateralAvailable
             (inc_field collateralToReturn (w_collateralAvailable w)) w) in
      (mkWithdrawFlags true true,
       Some (with_wallets (<[withdrawerId := w']> (wallets s)) (with_warehouses hs s)))
    end
  end.

Definition withdraw_response (f : withdraw_flags) : Response :=
  if negb (userHasFunds f) then Failure 400 "W0002"
  else if negb (warehouseHasFunds f) then Failure 400 "H0001"
  else Success 200.

(** The handler behind the middleware. [req_warehouse] is the projection
    that [assignedToWarehouse] stored in [req.warehouse] when it ran; the
    handler awaits several times before its transaction, so that [s], the
    state that the transaction meets, may hold newer figures for the
    warehouse. The clamp is computed from [req_warehouse] and applied by an
    unconditional [$inc]. *)
Definition delete_warehouse_assets_handler (req_warehouse : Warehouse)
    (warehouseId : N) (withdrawer : string) (assetsReq : list (string * jsvalue))
    (now : Z) (redis : gmap string Z) (s : State) : Response * State :=
  if (length assetsReq <? 1)%nat then (bad_request, s) else
  let v := Valuation.validateAssets assetsReq false now redis (app s) in
  let s0 := with_app (Valuation.cache_after v) s in
  if Valuation.result v <? 0 then (bad_request, s0) else
  let collateralToReturn := clamp_collateral req_warehouse (Valuation.result v) in
  let '(flags, s1) :=
    withTransaction
      (withdraw_transaction warehouseId withdrawer collateralToReturn
         (quantities assetsReq)) s0 in
  (withdraw_response flags, s1).

(** A withdrawal that no other request interrupts: the middleware and the
    handler meet the same state. *)
Definition delete_warehouse_assets (warehouseAccountId warehouseId : N)
    (withdrawer : string) (assetsReq : list (string * jsvalue))
    (now : Z) (redis : gmap string Z) (s : State) : Response * State :=
  match assignedToWarehouse false warehouseAccountId warehouseId (warehouses s) with
  | None => (Failure 403 "A0011", s)
  | Some req_warehouse =>
    delete_warehouse_assets_handler req_warehouse warehouseId withdrawer assetsReq
      now redis s
  end.

(** ** Warehouse transfers (api/transfers.ts) *)

Record create_flags : Type := mkCreateFlags {
  t_warehouseHasFunds : bool;
  warehouseHasCollateral : bool
}.

(** POST /transfers, the callback of the transaction. The collateral update
    only increments [collateralAvailable], so an increment of 0 modifies
    nothing and [modifiedCount] is 0. *)
Definition create_transaction (receiving sending : N) (collateralNeeded : Z)
    (upd : list (string * Z)) (s : State) : create_flags * option State :=
  match update_if receiving
          (fun h => (collateralNeeded <=? collateralAvailable h)
                    && negb (collateralNeeded =? 0))
          (fun h => with_collateralAvailable
                      (collateralAvailable h + - collateralNeeded) h)
          (warehouses s) with
  | None => (mkCreateFlags true false, None)
  | Some hs1 =>
    match update_if sending
            (fun h => gte_all upd (h_assets h))
            (fun h => with_h_assets (inc_all (negated upd) (h_assets h)) h)
            hs1 with
    | None => (mkCreateFlags false true, None)
    | Some hs2 =>
      let transferId := fresh (dom (transfers s)) in
      (mkCreateFlags true true,
       Some (with_transfers
               (<[transferId := mkTransfer pending collateralNeeded receiving
                                  sending upd]> (transfers s))
               (with_warehouses hs2 s)))
    end
  end.

Definition create_response (f : create_flags) : Response :=
  if negb (t_warehouseHasFunds f) then Failure 400 "H0001"
  else if negb (warehouseHasCollateral f) then Failure 400 "H0000"
  else Success 201.

Definition post_transfers (warehouseAccountId receiving sending : N)
    (assetsReq : list (string * jsvalue)) (now : Z) (redis : gmap string Z)
    (s : State) : Response * State :=
  if (length assetsReq <? 1)%nat then (bad_request, s) else
  let v := Valuation.validateAssets assetsReq false now redis (app s) in
  let s0 := with_app (Valuation.cache_after v) s in
  if Valuation.result v <? 0 then (bad_request, s0) else
  let collateralNeeded := Valuation.result v in
  match assignedToWarehouse false warehouseAccountId receiving (warehouses s0) with
  | None => (Failure 403 "A0011", s0)
  | Some result =>
    if collateralAvailable result <? collateralNeeded
    then (Failure 400 "H0000", s0) else
    let '(flags, s1) :=
      withTransaction
        (create_transaction receiving sending collateralNeeded
           (quantities assetsReq)) s0 in
    (create_response flags, s1)
  end.

(** The [warehouseAccounts.findOne] with [$elemMatch] on [warehouses]. *)
Definition requester_assigned (warehouseAccountId : N) (warehouseIds : list N)
    (s : State) : bool :=
  match warehouseAccounts s !! warehouseAccountId with
  | Some a =>
    existsb (fun id => existsb (N.eqb id) (assigned a)) warehouseIds
  | None => false
  end.

Record transfer_flags : Type := mkTransferFlags {
  tranferFound : bool;
  assignedToTransfer : bool
}.

Definition add_collateralAvailable (d : Z) (h : Warehouse) : Warehouse :=
  with_collateralAvailable (collateralAvailable h + d) h.

Definition add_assets (upd : list (string * Z)) (h : Warehouse) : Warehouse :=
  with_h_assets (inc_all upd (h_assets h)) h.

(** [findOneAndDelete({_id, status})] / [findOneAndUpdate({_id, status}, ...)]:
    the document, if it has that status. *)
Definition find_with_status (transferId : N) (st : Status) (s : State)
  : option Transfer :=
  match transfers s !! transferId with
  | Some t => if bool_decide (status t = st) then Some t else None
  | None => None
  end.

(** DELETE /transfers/:transferId (cancel). *)
Definition cancel_transaction (warehouseAccountId transferId : N) (s : State)
  : transfer_flags * option State :=
  match find_with_status transferId pending s with
  | None => (mkTransferFlags false true, None)
  | Some t =>
    if negb (requester_assigned warehouseAccountId
               [receivingWarehouse t; sendingWarehouse t] s)
    then (mkTransferFlags true false, None)
    else
      let hs1 := update_by_id (sendingWarehouse t) (add_assets (t_assets t))
                   (warehouses s) in
      let hs2 := update_by_id (receivingWarehouse t)
                   (add_collateralAvailable (collateralUsed t)) hs1 in
      (mkTransferFlags true true,
       Some (with_warehouses hs2
               (with_transfers (delete transferId (transfers s)) s)))
  end.

Definition transfer_response (f : transfer_flags) (ok : Response) : Response :=
  if negb (assignedToTransfer f) then Failure 403 "T0002"
  else if negb (tranferFound f) then Failure 404 "T0001"
  else ok.

Definition delete_transfer (warehouseAccountId transferId : N) (s : State)
  : Response * State :=
  let '(flags, s1) :=
    withTransaction (cancel_transaction warehouseAccountId transferId) s in
  (transfer_response flags (Success 200), s1).

(** PUT /transfers/:transferId/status with status "sent". *)
Definition sent_transaction (warehouseAccountId transferId : N) (s : State)
  : transfer_flags * option State :=
  match find_with_status transferId pending s with
  | None => (mkTransferFlags false true, None)
  | Some t =>
    if negb (requester_assigned warehouseAccountId [sendingWarehouse t] s)
    then (mkTransferFlags true false, None)
    else
      (mkTransferFlags true true,
       Some (with_transfers (<[transferId := with_status sent t]> (transfers s)) s))
  end.

(** PUT /transfers/:transferId/status with status "received": the assets go
    to the receiving warehouse, the collateral to the sending warehouse. *)
Definition received_transaction (warehouseAccountId transferId : N) (s : State)
  : transfer_flags * option State :=
  match find_with_status transferId sent s with
  | None => (mkTransferFlags false true, None)
  | Some t =>
    if negb (requester_assigned warehouseAccountId [receivingWarehouse t] s)
    then (mkTransferFlags true false, None)
    else
      let hs1 := update_by_id (receivingWarehouse t) (add_assets (t_assets t))
                   (warehouses s) in
      let hs2 := update_by_id (sendingWarehouse t)
                   (add_collateralAvailable (collateralUsed t)) hs1 in
      (mkTransferFlags true true,
       Some (with_warehouses hs2
               (with_transfers (delete transferId (transfers s)) s)))
  end.

Definition put_transfer_status (warehouseAccountId transferId : N)
    (requested : Status) (s : State) : Response * State :=
  match requested with
  | pending => (bad_request, s)
  | sent =>
    let '(flags, s1) :=
      withTransaction (sent_transaction warehouseAccountId transferId) s in
    (transfer_response flags (Success 200), s1)
  | received =>
    let '(flags, s1) :=
      withTransaction (received_transaction warehouseAccountId transferId) s in
    (transfer_response flags (Success 200), s1)
  end.

(** ** Account confirmation with distribution: PUT /users/:username
    (api/users.ts) *)

(** [Math.floor(250000000 + stelo * 0.0015)], with 0.0015 read as 15/10000. *)
Definition freeStelo (stelo : Z) : Z := 250000000 + (stelo * 15) / 10000.

Record distribution_flags : Type := mkDistributionFlags {
  g_hasFunds : bool;
  distributionFound : bool;
  alreadyTaken : bool
}.

Definition new_user (name : string) (a : gmap string Z) : Wallet :=
  mkWallet (Some name) None None a None.

Definition username_taken (name : string) (ws : gmap N Wallet) : bool :=
  bool_decide (is_Some (find_doc (fun w => bool_decide (username w = Some name)) ws)).

(** The callback of the distribution transaction. The result is [None] when
    the distribution wallet has no [assets.stelo] field: the handler then
    computes with [undefined], outside the integers. *)
Definition distribution_transaction (name : string) (ws : gmap N Wallet)
  : option (distribution_flags * option (gmap N Wallet)) :=
  match find_doc (fun w => bool_decide (address w = Some "genesisdistribution")) ws with
  | None => Some (mkDistributionFlags true false false, None)
  | Some (distributionId, distribution) =>
    match w_assets distribution !! "stelo" with
    | None => None
    | Some stelo =>
      if stelo <=? 500 then Some (mkDistributionFlags false true false, None)
      else
        let free := freeStelo stelo in
        if username_taken name ws
        then Some (mkDistributionFlags true true true, None)
        else
          let ws1 := <[fresh (dom ws) := new_user name {["stelo" := free]}]> ws in
          Some (mkDistributionFlags true true false,
                Some (update_by_id distributionId
                        (fun w => with_w_assets (inc "stelo" (- free) (w_assets w)) w)
                        ws1))
    end
  end.

Definition distribution_response (f : distribution_flags) : Response :=
  if negb (distributionFound f) then Failure 500 "S0000"
  else if negb (g_hasFunds f) then Failure 500 "S0001"
  else if alreadyTaken f then Failure 400 "U0000"
  else Success 201.

(** [registered] tells whether the registration is cached in Redis. *)
Definition put_users_username (name : string) (registered distribution : bool)
    (s : State) : option (Response * State) :=
  if negb registered then Some (Failure 404 "U0001", s) else
  if distribution then
    match distribution_transaction name (wallets s) with
    | None => None
    | Some (flags, Some ws) => Some (distribution_response flags, with_wallets ws s)
    | Some (flags, None) => Some (distribution_response flags, s)
    end
  else if username_taken name (wallets s) then Some (Failure 400 "U0000", s)
  else
    Some (Success 201,
          with_wallets (<[fresh (dom (wallets s)) := new_user name ∅]> (wallets s)) s).

(** ** Sequences of requests *)

Inductive request : Type :=
  | AdjustCollateral (warehouseAccountId walletId warehouseId : N) (balance_ : Z)
  | Deposit (warehouseAccountId warehouseId : N) (depositor : string)
      (assetsReq : list (string * jsvalue)) (now : Z) (redis : gmap string Z)
  | Withdraw (warehouseAccountId warehouseId : N) (withdrawer : string)
      (assetsReq : list (string * jsvalue)) (now : Z) (redis : gmap string Z)
  | TransferCreate (warehouseAccountId receiving sending : N)
      (assetsReq : list (string * jsvalue)) (now : Z) (redis : gmap string Z)
  | TransferCancel (warehouseAccountId transferId : N)
  | TransferStatus (warehouseAccountId transferId : N) (requested : Status)
  | Send (walletId : N) (recipient : string)
      (assetsReq : list (string * jsvalue)) (webhook_ok : bool)
      (now : Z) (redis : gmap string Z).

Definition handle (r : request) (s : State) : Response * State :=
  match r with
  | AdjustCollateral a w h b => patch_warehouse_collateral a w h b s
  | Deposit a h d req now redis => post_warehouse_assets a h d req now redis s
  | Withdraw a h d req now redis => delete_warehouse_assets a h d req now redis s
  | TransferCreate a r0 s0 req now redis => post_transfers a r0 s0 req now redis s
  | TransferCancel a t => delete_transfer a t s
  | TransferStatus a t st => put_transfer_status a t st s
  | Send w r0 req ok now redis => post_wallet_transactions w r0 req ok now redis s
  end.

Definition run (rs : list request) (s : State) : State :=
  foldl (fun acc r => (handle r acc).2) s rs.

(** ** Vocabulary of the properties *)

Module Props.
Import Valuation.

(** A well-formed quantity: an integer number that is at least 1. *)
Definition positive_quantity (kv : string * jsvalue) : Prop :=
  exists z, kv.2 = JInt z /\ 1 <= z.

(** The snapshot entry of [key] is older than thirty minutes. *)
Definition is_stale (prices : gmap string PriceEntry) (now : Z) (key : string) : bool :=
  match prices !! key with
  | Some e => updatedAt e <? now - thirtyMinutes
  | None => false
  end.

(** The requested symbols whose snapshot entry is stale, in request order. *)
Definition stale_requested (prices : gmap string PriceEntry) (now : Z)
    (l : list (string * jsvalue)) : list string :=
  filter (fun key => Is_true (is_stale prices now key)) (keys l).

(** The scanning loop of a valuation call runs to its end: no entry of the
    request makes it return -1. *)
Definition accepted_by_scan (l : list (string * jsvalue)) (steloAllowed : bool)
    (now : Z) (redis : gmap string Z) (c : Cache) : Prop :=
  (scan_assets (assets c) (assetsCheckedAt c) now redis steloAllowed l
     (mkScan 0 [] None [])).1 = true.

(** The symbols asked from the price source by the targeted reads. *)
Definition hmget_fields (cs : list redis_call) : list string :=
  concat ((fun c => match c with HMGET fs => fs | HGETALL => [] end) <$> cs).

(** Value of one entry at the snapshot price; nothing for a symbol that the
    snapshot does not price. *)
Definition priced_value (prices : gmap string PriceEntry) (kv : string * jsvalue) : Z :=
  match prices !! kv.1 with
  | Some e => value e * num kv.2
  | None => 0
  end.

Definition collateral_value (prices : gmap string PriceEntry)
    (l : list (string * jsvalue)) : Z :=
  foldr (fun kv acc => priced_value prices kv + acc) 0 l.

(** The entries of a request other than the reserve asset. *)
Definition non_reserve (l : list (string * jsvalue)) : list (string * jsvalue) :=
  filter (fun kv => kv.1 <> "stelo") l.

(** The symbol of an entry, unless it is the reserve asset, has a snapshot
    entry that is not older than thirty minutes. *)
Definition resolves_fresh (prices : gmap string PriceEntry) (now : Z)
    (kv : string * jsvalue) : Prop :=
  kv.1 <> "stelo" ->
  exists e, prices !! kv.1 = Some e /\ ~ updatedAt e < now - thirtyMinutes.

(** The valuation in the words of the specification: unit value times
    quantity for every entry, the reserve asset at face value 1. *)
Definition unit_value (prices : gmap string PriceEntry) (key : string) : Z :=
  if String.eqb key "stelo" then 1
  else match prices !! key with Some e => value e | None => 0 end.

Definition face_value_sum (prices : gmap string PriceEntry)
    (l : list (string * jsvalue)) : Z :=
  foldr (fun kv acc => unit_value prices kv.1 * num kv.2 + acc) 0 l.

(** The quantity that an update document names for a symbol (0 when the
    symbol does not occur). *)
Definition delta (upd : list (string * Z)) (key : string) : Z :=
  foldr (fun kq acc => (if String.eqb kq.1 key then kq.2 else 0) + acc) 0 upd.

(** The safe integers of JavaScript: the doubles of the code add, subtract
    and multiply them exactly as long as the result is one of them. *)
Definition MAX_SAFE_INTEGER : Z := 2 ^ 53 - 1.

Definition safe_integer (z : Z) : Prop :=
  Z.abs z <= MAX_SAFE_INTEGER.

(** A total of price times quantity whose products and partial sums, in any
    order, are safe integers. *)
Definition exact_total (price : string -> Z) (l : list (string * jsvalue)) : Prop :=
  foldr (fun kv acc => Z.abs (price kv.1 * num kv.2) + acc) 0 l <= MAX_SAFE_INTEGER.

(** The price of a symbol in the snapshot (0 without an entry). *)
Definition snapshot_price (prices : gmap string PriceEntry) (key : string) : Z :=
  match prices !! key with Some e => value e | None => 0 end.

(** The increments of [upd] and the matching decrements are exact on the
    balances [a]: the quantity, the balance and their sum are safe integers
    for every symbol that [upd] names. *)
Definition exact_on (upd : list (string * Z)) (a : gmap string Z) : Prop :=
  forall key, key ∈ upd.*1 ->
    safe_integer (delta upd key) /\ safe_integer (balance a key)
    /\ safe_integer (balance a key + delta upd key).

Definition exact_increments (upd : list (string * Z)) (ws : gmap N Wallet) : Prop :=
  forall id w, ws !! id = Some w -> exact_on upd (w_assets w).

(** The property names that every object inherits from [Object.prototype]:
    [key in obj] holds for them whatever [obj] holds. *)
Definition inherited_names : list string :=
  [ "constructor"; "__proto__"; "hasOwnProperty"; "isPrototypeOf";
    "propertyIsEnumerable"; "toLocaleString"; "toString"; "valueOf";
    "__defineGetter__"; "__defineSetter__"; "__lookupGetter__";
    "__lookupSetter__" ].

(** [key in globalAssetObject] is decided by the entries of the snapshot:
    [key] is not an inherited name, and no entry named "__proto__" gave the
    snapshot another prototype. *)
Definition plain_lookup (prices : gmap string PriceEntry) (key : string) : Prop :=
  (key ∉ inherited_names) /\ prices !! "__proto__" = None.

(** A string of ASCII characters. *)
Definition ascii_only (s : string) : Prop :=
  forallb (fun c => (nat_of_ascii c <? 128)%nat) (String.list_ascii_of_string s)
  = true.

(** At most one of the three failure conditions of a peer transaction is
    recorded. *)
Definition at_most_one_failure (f : send_flags) : Prop :=
  (hasFunds f = false -> recipientFound f = true /\ webhookFailed f = false)
  /\ (recipientFound f = false -> hasFunds f = true /\ webhookFailed f = false)
  /\ (webhookFailed f = true -> hasFunds f = true /\ recipientFound f = true).

(** The collateral bound of a warehouse. *)
Definition collateral_bound (h : Warehouse) : Prop :=
  0 <= collateralAvailable h <= collateral h.

Definition collateral_invariant (s : State) : Prop :=
  forall id h, warehouses s !! id = Some h -> collateral_bound h.

(** No stored quantity is negative. *)
Definition nonneg_assets (a : gmap string Z) : Prop :=
  forall key q, a !! key = Some q -> 0 <= q.

Definition no_negative_balance (s : State) : Prop :=
  (forall id w, wallets s !! id = Some w -> nonneg_assets (w_assets w))
  /\ (forall id h, warehouses s !! id = Some h -> nonneg_assets (h_assets h)).

(** A request names every symbol once (it is a parsed JSON object). *)
Definition well_formed (r : request) : Prop :=
  match r with
  | Deposit _ _ _ req _ _ | Withdraw _ _ _ req _ _
  | TransferCreate _ _ _ req _ _ | Send _ _ req _ _ _ => NoDup (keys req)
  | _ => True
  end.

(** The quantities held by the transfers in flight are not negative. *)
Definition nonneg_transfers (s : State) : Prop :=
  forall id t, transfers s !! id = Some t -> Forall (fun kq => 0 <= kq.2) (t_assets t).

End Props.

(** ** Sample data *)

Module Sample.
Import Valuation.

Definition cache0 : Cache :=
  mkCache {[ "wood" := mkPrice 20 0; "iron" := mkPrice 7 0 ]} 0.

Definition redis0 : gmap string Z := {[ "wood" := 30; "iron" := 7 ]}.

Definition later : Z := thirtyMinutes + 1.

Definition alice : Wallet :=
  mkWallet (Some "alice") None None {[ "stelo" := 5000; "gold" := 8 ]} None.

Definition shop : Wallet :=
  mkWallet None (Some "shop") (Some "http://shop.example/hook") {[ "gold" := 3 ]} None.

Definition genesis : Wallet :=
  mkWallet None (Some "genesisdistribution") None {[ "stelo" := 1000 ]} None.

(** Warehouse 10 is "A", warehouse 11 is "B"; account 100 owns both. *)
Definition s0 : State :=
  mkState {[ 1%N := alice; 2%N := shop; 3%N := genesis ]}
          {[ 10%N := mkWarehouse 100 [] 0 0 ∅; 11%N := mkWarehouse 100 [] 0 0 ∅ ]}
          {[ 100%N := mkAccount [10%N; 11%N] ]}
          ∅ cache0.

(** The lifecycle of the specification: A and B pledge 1000 each, 50 wood
    (worth 20 each) are deposited in B, A requests 10 wood from B, B marks the
    transfer sent. *)
Definition lifecycle : list request :=
  [ AdjustCollateral 100 1 10 1000;
    AdjustCollateral 100 1 11 1000;
    Deposit 100 11 "alice" [("wood", JInt 50)] 100 redis0;
    TransferCreate 100 10 11 [("wood", JInt 10)] 200 redis0;
    TransferStatus 100 0 sent ].

(** B pledges 200 and receives 10 wood at price 20; after the price moved to
    30, A requests the wood and the transfer is confirmed. *)
Definition price_change : list request :=
  [ AdjustCollateral 100 1 10 1000;
    AdjustCollateral 100 1 11 200;
    Deposit 100 11 "alice" [("wood", JInt 10)] 100 redis0;
    TransferCreate 100 10 11 [("wood", JInt 10)] later redis0;
    TransferStatus 100 0 sent;
    TransferStatus 100 0 received ].

(** The state of the lifecycle before the confirmation, and its documents. *)
Definition sent_state : State := run lifecycle s0.

Definition transfer0 : Transfer := mkTransfer sent 200 10 11 [("wood", 10)].

Definition warehouseA : Warehouse := mkWarehouse 100 [] 1000 800 ∅.

Definition warehouseB : Warehouse := mkWarehouse 100 [] 1000 0 {[ "wood" := 40 ]}.

(** The state after the deposit of the lifecycle, and warehouse B in it. *)
Definition deposited_state : State := run (take 3 lifecycle) s0.

Definition warehouseB_full : Warehouse :=
  mkWarehouse 100 [] 1000 0 {[ "wood" := 50 ]}.

Definition warehouse_view (id : N) (s : State) : option (Z * Z * Z) :=
  (fun h => (collateral h, collateralAvailable h, balance (h_assets h) "wood"))
    <$> warehouses s !! id.

End Sample.


(** ** Start of the application (app.ts) *)

(** The first load of the price table: [None] when the hash is empty and the
    process exits. *)
Definition app_start (redis : gmap string Z) (currentDateTime : Z)
  : option Valuation.Cache :=
  if Z.of_nat (size redis) <? 1 then None
  else Some (Valuation.mkCache (Valuation.assetValueObject redis currentDateTime)
               currentDateTime).

#[global] Instance redis_call_eq_dec : EqDecision Valuation.redis_call.
Proof. solve_decision. Defined.

(** ** Session middlewares (handlers/auth.ts) *)

Module Auth.

(** The fields of [req.session]; a guest has no [walletId]. *)
Record Session : Type := mkSession {
  walletId : option N;
  isUser : bool;
  warehouseAccountId : option N;
  createdAt : Z
}.

(** The session after [req.session.destroy]. *)
Definition destroyed : Session := mkSession None false None 0.

Inductive verdict : Type :=
  | Next
  | Refused (http : Z) (code : string).

Definition SESSION_ABSOLUTE_TIMEOUT : Z := 1000 * 60 * 60 * 6.

Definition isGuest (session : Session) : verdict :=
  match walletId session with
  | Some _ => Refused 400 "A0000"
  | None => Next
  end.

(** [isLoggedIn(isUser?, hasWarehouseAccount)]: [requireUser] is [None] when
    the first argument is left out. *)
Definition isLoggedIn (requireUser : option bool) (hasWarehouseAccount : bool)
    (now : Z) (session : Session) : verdict * Session :=
  match walletId session with
  | Some _ =>
    if createdAt session + SESSION_ABSOLUTE_TIMEOUT <? now then
      (Refused 400 "A0001", destroyed)
    else if bool_decide (requireUser = Some true) && negb (isUser session) then
      (Refused 400 "A0002", session)
    else if bool_decide (requireUser = Some false) && isUser session then
      (Refused 400 "A0003", session)
    else if hasWarehouseAccount
            && negb (bool_decide (is_Some (warehouseAccountId session))) then
      (Refused 400 "A0008", session)
    else (Next, session)
  | None => (Refused 400 "A0004", session)
  end.

End Auth.

(** ** Workers of a warehouse (api/warehouses.ts) *)

Definition with_warehouseAccounts (accs : gmap N WarehouseAccount) (s : State) : State :=
  mkState (wallets s) (warehouses s) accs (transfers s) (app s).

Definition with_workers (l : list N) (h : Warehouse) : Warehouse :=
  mkWarehouse (ownerId h) l (collateral h) (collateralAvailable h) (h_assets h).

(** POST /:warehouseId/workers: the account gets an entry for the warehouse
    unless it has one, then the warehouse lists the account. *)
Definition post_warehouse_workers (caller warehouseId newWorker : N) (s : State)
  : Response * State :=
  match assignedToWarehouse true caller warehouseId (warehouses s) with
  | None => (Failure 403 "A0012", s)
  | Some _ =>
    match update_if newWorker
            (fun a => negb (existsb (N.eqb warehouseId) (assigned a)))
            (fun a => mkAccount (assigned a ++ [warehouseId]))
            (warehouseAccounts s) with
    | None => (Failure 400 "U0006", s)
    | Some accs =>
      (Success 200,
       with_warehouses
         (update_by_id warehouseId (fun h => with_workers (workers h ++ [newWorker]) h)
            (warehouses s))
         (with_warehouseAccounts accs s))
    end
  end.

(** [$pull]: every matching element leaves the array. *)
Definition pull (id : N) (l : list N) : list N :=
  filter (fun x => x <> id) l.

(** DELETE /:warehouseId/workers/:warehouseAccountId: nothing is modified
    when the account has no entry for the warehouse. *)
Definition delete_warehouse_worker (caller warehouseId worker : N) (s : State)
  : Response * State :=
  match assignedToWarehouse true caller warehouseId (warehouses s) with
  | None => (Failure 403 "A0012", s)
  | Some _ =>
    match update_if worker
            (fun a => existsb (N.eqb warehouseId) (assigned a))
            (fun a => mkAccount (pull warehouseId (assigned a)))
            (warehouseAccounts s) with
    | None => (Failure 400 "U0006", s)
    | Some accs =>
      (Success 200,
       with_warehouses
         (update_by_id warehouseId (fun h => with_workers (pull worker (workers h)) h)
            (warehouses s))
         (with_warehouseAccounts accs s))
    end
  end.

(** ** Peer transaction with a wallet key: POST /wallets/:address/transactions
    (api/wallets.ts) *)

(** The same callback as [send_transaction], but the sender is selected by
    its address together with the balance guards. *)
Definition send_transaction_by_address (address_ : string) (recipient : string)
    (upd : list (string * Z)) (webhook_ok : bool) (ws : gmap N Wallet)
  : send_flags * option (gmap N Wallet) :=
  match find_doc (recipient_filter recipient) ws with
  | None => (mkSendFlags true false false, None)
  | Some (recipientId, r) =>
    let ws1 := <[recipientId := with_w_assets (inc_all upd (w_assets r)) r]> ws in
    if truthy (webhook r) && negb webhook_ok then
      (mkSendFlags true true true, None)
    else
      match find_doc (fun w => bool_decide (address w = Some address_)
                               && gte_all upd (w_assets w)) ws1 with
      | Some (senderId, sender) =>
        (mkSendFlags true true false,
         Some (<[senderId := with_w_assets (inc_all (negated upd) (w_assets sender))
                               sender]> ws1))
      | None => (mkSendFlags false true false, None)
      end
  end.

Definition post_wallets_address_transactions (address_ : string) (recipient : string)
    (assetsReq : list (string * jsvalue)) (webhook_ok : bool)
    (now : Z) (redis : gmap string Z) (s : State) : Response * State :=
  if (length assetsReq <? 1)%nat then (bad_request, s) else
  let v := Valuation.validateAssets assetsReq true now redis (app s) in
  let s0 := with_app (Valuation.cache_after v) s in
  if Valuation.result v <? 0 then (bad_request, s0) else
  let '(flags, ws) :=
    withTransaction
      (send_transaction_by_address address_ recipient (quantities assetsReq)
         webhook_ok)
      (wallets s0) in
  (send_response flags, with_wallets ws s0).

(** ** Deletion of a wallet: DELETE /wallets/:address *)

Record wallet_delete_flags : Type := mkWalletDeleteFlags {
  wd_userFound : bool;
  wd_walletFound : bool
}.

(** The update document built from a stored [assets] sub-document. *)
Definition all_assets (a : gmap string Z) : list (string * Z) := map_to_list a.

(** The callback: the wallet is deleted and its assets are added to the
    wallet of the session. [req_wallet_id] and [req_wallet_ownerId] are the
    fields that the middleware [validWalletKey] stored in [req.wallet]. An
    update document without fields (a wallet without assets) modifies
    nothing and is accepted. *)
Definition wallet_delete_transaction (req_wallet_id session_walletId : N)
    (ws : gmap N Wallet) : wallet_delete_flags * option (gmap N Wallet) :=
  match ws !! req_wallet_id with
  | None => (mkWalletDeleteFlags true false, None)
  | Some w =>
    match update_if session_walletId (fun _ => true)
            (fun u => with_w_assets (inc_all (all_assets (w_assets w)) (w_assets u)) u)
            (delete req_wallet_id ws) with
    | None => (mkWalletDeleteFlags false true, None)
    | Some ws' => (mkWalletDeleteFlags true true, Some ws')
    end
  end.

Definition wallet_delete_response (f : wallet_delete_flags) : Response :=
  if negb (wd_walletFound f) then Failure 404 "W0001"
  else if negb (wd_userFound f) then Failure 404 "U0001"
  else Success 200.

Definition delete_wallet (req_wallet_id req_wallet_ownerId session_walletId : N)
    (s : State) : Response * State :=
  if negb (N.eqb req_wallet_ownerId session_walletId) then (Failure 403 "W0006", s)
  else
    let '(flags, ws) :=
      withTransaction (wallet_delete_transaction req_wallet_id session_walletId)
        (wallets s) in
    (wallet_delete_response flags, with_wallets ws s).

(** ** Deletion of an account: DELETE /user (api/user.ts) *)

Record user_delete_flags : Type := mkUserDeleteFlags {
  ud_recipientFound : bool;
  ud_treasuryFound : bool
}.

(** The callback: the user's wallet is deleted and its assets are added to
    the wallet with address "stelotreasury". *)
Definition user_delete_transaction (session_walletId : N) (ws : gmap N Wallet)
  : user_delete_flags * option (gmap N Wallet) :=
  match ws !! session_walletId with
  | None => (mkUserDeleteFlags false true, None)
  | Some w =>
    let ws1 := delete session_walletId ws in
    match find_doc (fun t => bool_decide (address t = Some "stelotreasury")) ws1 with
    | None => (mkUserDeleteFlags true false, None)
    | Some (treasuryId, t) =>
      (mkUserDeleteFlags true true,
       Some (<[treasuryId := with_w_assets
                               (inc_all (all_assets (w_assets w)) (w_assets t)) t]> ws1))
    end
  end.

Definition user_delete_response (f : user_delete_flags) : Response :=
  if negb (ud_recipientFound f) then Failure 404 "U0001"
  else if negb (ud_treasuryFound f) then Failure 404 "S0000"
  else Success 200.

(** [ownsWallets] tells whether some wallet names the user as its owner and
    [validPassword] whether the password matches. *)
Definition delete_user (session_walletId : N) (ownsWallets validPassword : bool)
    (s : State) : Response * State :=
  if ownsWallets then (Failure 400 "U0004", s)
  else match wallets s !! session_walletId with
       | None => (Failure 404 "U0001", s)
       | Some _ =>
         if negb validPassword then (Failure 400 "U0003", s)
         else
           let '(flags, ws) :=
             withTransaction (user_delete_transaction session_walletId) (wallets s) in
           (user_delete_response flags, with_wallets ws s)
       end.

(** ** Recent transactions of a wallet (Redis lists) *)

Record Activity : Type := mkActivity {
  a_type : string;
  interactant : string;
  a_assets : list (string * jsvalue);
  a_memo : option string
}.

(** [lPush] followed by [lTrim 0 9] on the list of a wallet. *)
Definition lPush_lTrim (id : N) (entry : Activity) (lists : gmap N (list Activity))
  : gmap N (list Activity) :=
  <[id := take 10 (entry :: default [] (lists !! id))]> lists.

(** The lists after POST /wallet/transactions: nothing is written unless the
    transaction committed. [sender] is the name shown for the session
    (its address, with "#" for a wallet session); a memo is kept when it is
    truthy. *)
Definition post_wallet_transactions_lists (walletId : N) (sender recipient : string)
    (memo : option string)
    (assetsReq : list (string * jsvalue)) (webhook_ok : bool)
    (now : Z) (redis : gmap string Z) (s : State)
    (lists : gmap N (list Activity)) : gmap N (list Activity) :=
  match (post_wallet_transactions walletId recipient assetsReq webhook_ok now redis s).1,
        find_doc (recipient_filter recipient) (wallets s) with
  | Success _, Some (recipientId, _) =>
    let kept := if truthy memo then memo else None in
    lPush_lTrim recipientId (mkActivity "receive" sender assetsReq kept)
      (lPush_lTrim walletId (mkActivity "send" recipient assetsReq kept) lists)
  | _, _ => lists
  end.

(** ** Vocabulary of the further properties *)

Module More.
Import Valuation.

(** The price that a valuation call uses for a symbol: the snapshot value of
    a fresh entry, the price source's value for a stale or unknown symbol,
    nothing for the unpriced reserve asset. *)
Definition price_used (prices : gmap string PriceEntry) (now : Z)
    (redis : gmap string Z) (key : string) : Z :=
  match prices !! key with
  | Some e => if updatedAt e <? now - thirtyMinutes
              then default 0 (redis !! key) else value e
  | None => if String.eqb key "stelo" then 0 else default 0 (redis !! key)
  end.

Definition valuation_sum (prices : gmap string PriceEntry) (now : Z)
    (redis : gmap string Z) (l : list (string * jsvalue)) : Z :=
  foldr (fun kv acc => price_used prices now redis kv.1 * num kv.2 + acc) 0 l.

(** The sum of a symbol's balance over all wallets. *)
Definition total_balance (ws : gmap N Wallet) (key : string) : Z :=
  map_fold (fun _ w acc => balance (w_assets w) key + acc) 0 ws.

(** At most one wallet has the address. *)
Definition unique_address (ws : gmap N Wallet) (a : string) (id : N) : Prop :=
  forall id' w', ws !! id' = Some w' -> address w' = Some a -> id' = id.

End More.

(** ** Further sample data *)

Module Scenes.
Import Valuation Sample.

(** A price source that also knows coal, and one that lost wood. *)
Definition redis_coal : gmap string Z := {[ "wood" := 30; "iron" := 7; "coal" := 4 ]}.

Definition redis_no_wood : gmap string Z := {[ "iron" := 7 ]}.

(** More than sixty minutes after the snapshot of [cache0]. *)
Definition hour_later : Z := 2 * thirtyMinutes + 1.

(** The lifecycle up to the pledges, and up to the creation of the transfer. *)
Definition pledged_state : State := run (take 2 lifecycle) s0.

Definition created_state : State := run (take 4 lifecycle) s0.

(** Warehouse B pledged 1000 and received 10 wood at price 20. *)
Definition priced_up_state : State :=
  run [ AdjustCollateral 100 1 11 1000;
        Deposit 100 11 "alice" [("wood", JInt 10)] 100 redis0 ] s0.

Definition warehouseB_low : Warehouse :=
  mkWarehouse 100 [] 1000 800 {[ "wood" := 10 ]}.

Definition transfer_pending : Transfer :=
  mkTransfer pending 200 10 11 [("wood", 10)].

(** A second warehouse account, without any warehouse. *)
Definition hiring_state : State :=
  with_warehouseAccounts (<[101%N := mkAccount []]> (warehouseAccounts s0)) s0.

Definition treasury : Wallet :=
  mkWallet None (Some "stelotreasury") None {[ "stelo" := 10 ]} None.

Definition bot : Wallet :=
  mkWallet None (Some "bot") None {[ "gold" := 2; "stelo" := 40 ]} None.

(** The wallets of [s0] with the treasury and a wallet of alice's. *)
Definition bank_state : State :=
  with_wallets (<[4%N := treasury]> (<[5%N := bot]> (wallets s0))) s0.

Definition user_session : Auth.Session := Auth.mkSession (Some 1%N) true (Some 100%N) 0.

End Scenes.
(** * Properties of the asset valuation *)

Section ValuationFacts.
Import Valuation Props.

Lemma is_stale_Some (m : gmap string PriceEntry) t key e :
  m !! key = Some e -> is_stale m t key = (updatedAt e <? t - thirtyMinutes).
Proof. intros H. unfold is_stale. by rewrite H. Qed.

Lemma is_stale_None (m : gmap string PriceEntry) t key :
  m !! key = None -> is_stale m t key = false.
Proof. intros H. unfold is_stale. by rewrite H. Qed.

Variables (prices : gmap string PriceEntry) (checkedAt now : Z)
          (redis : gmap string Z) (steloAllowed : bool).

Let scan_from := scan_assets prices checkedAt now redis steloAllowed.

(** The scan only appends to the list of outdated keys and to the calls. *)
Lemma scan_outdated_completed l st st' :
  scan_from l st = (true, st') ->
  outdatedAssets st' = outdatedAssets st ++ stale_requested prices now l.
Proof.
  subst scan_from. revert st.
  induction l as [|[key v] rest IH]; intros st H; simpl in H.
  - inversion H; subst. unfold stale_requested. simpl. by rewrite app_nil_r.
  - unfold stale_requested, keys. simpl fmap. rewrite filter_cons.
    fold (keys rest). fold (stale_requested prices now rest).
    destruct (Number_isInteger v && (1 <=? num v)); [|discriminate].
    destruct (prices !! key) as [e|] eqn:Hk.
    + destruct (updatedAt e <? now - thirtyMinutes) eqn:Hs.
      * apply IH in H. rewrite H. simpl.
        rewrite decide_True by (rewrite (is_stale_Some _ _ _ _ Hk), Hs; exact I).
        by rewrite <- app_assoc.
      * apply IH in H. rewrite H. simpl.
        by rewrite decide_False by (rewrite (is_stale_Some _ _ _ _ Hk), Hs; exact id).
    + rewrite decide_False by (rewrite (is_stale_None _ _ _ Hk); exact id).
      destruct (String.eqb key "stelo").
      * destruct (negb steloAllowed); [discriminate|]. by apply IH in H.
      * destruct (checkedAt <? now - thirtyMinutes * 2); [|discriminate].
        destruct (Z.of_nat (size redis) <? 1); [discriminate|].
        destruct (redis !! key); [|discriminate].
        by apply IH in H.
Qed.

Lemma scan_calls l st b st' :
  scan_from l st = (b, st') ->
  forall c, c ∈ calls st' ->
    c ∈ calls st
    \/ (c = HGETALL /\ checkedAt < now - 2 * thirtyMinutes
        /\ exists key, key ∈ keys l /\ prices !! key = None).
Proof.
  subst scan_from. revert st.
  induction l as [|[key v] rest IH]; intros st H c Hc; simpl in H.
  - inversion H; subst. by left.
  - assert (Hrest : forall st0, scan_assets prices checkedAt now redis steloAllowed rest st0 = (b, st') ->
              calls st0 = calls st -> c ∈ calls st \/ (c = HGETALL /\ checkedAt < now - 2 * thirtyMinutes
        /\ exists key0, key0 ∈ keys ((key, v) :: rest) /\ prices !! key0 = None)).
    { intros st0 H0 Heq. destruct (IH _ H0 c Hc) as [?|(?&?&k&?&?)].
      - left. by rewrite <- Heq.
      - right. repeat split; try done. exists k. split; [|done].
        unfold keys in *. simpl. by apply elem_of_cons; right. }
    destruct (Number_isInteger v && (1 <=? num v)); [|inversion H; subst; by left].
    destruct (prices !! key) as [e|] eqn:Hk.
    + destruct (updatedAt e <? now - thirtyMinutes); by eapply Hrest.
    + destruct (String.eqb key "stelo").
      * destruct (negb steloAllowed); [inversion H; subst; by left|]. by eapply Hrest.
      * destruct (checkedAt <? now - thirtyMinutes * 2) eqn:Hold;
          [|inversion H; subst; by left].
        apply Z.ltb_lt in Hold.
        assert (Hhere : c ∈ calls st ++ [HGETALL] -> c ∈ calls st \/ (c = HGETALL /\ checkedAt < now - 2 * thirtyMinutes
        /\ exists key0, key0 ∈ keys ((key, v) :: rest) /\ prices !! key0 = None)).
        { intros [?|Hin]%elem_of_app; [by left|right].
          apply list_elem_of_singleton in Hin. repeat split; [done|lia|].
          exists key. split; [|done]. unfold keys. simpl. apply elem_of_cons; by left. }
        destruct (Z.of_nat (size redis) <? 1); [inversion H; subst; by apply Hhere|].
        destruct (redis !! key); [|inversion H; subst; by apply Hhere].
        destruct (IH _ H c Hc) as [Hin|(?&?&k&?&?)].
        -- by apply Hhere.
        -- right. repeat split; try done. exists k. split; [|done].
           unfold keys in *. simpl. by apply elem_of_cons; right.
Qed.

Lemma scan_no_hmget l st b st' :
  scan_from l st = (b, st') ->
  hmget_fields (calls st') = hmget_fields (calls st).
Proof.
  subst scan_from. revert st.
  induction l as [|[key v] rest IH]; intros st H; simpl in H.
  - by inversion H.
  - destruct (Number_isInteger v && (1 <=? num v)); [|by inversion H].
    destruct (prices !! key) as [e|].
    + destruct (updatedAt e <? now - thirtyMinutes); by apply IH in H.
    + destruct (String.eqb key "stelo").
      * destruct (negb steloAllowed); [by inversion H|]. by apply IH in H.
      * destruct (checkedAt <? now - thirtyMinutes * 2); [|by inversion H].
        assert (Hlog : hmget_fields (calls st ++ [HGETALL]) = hmget_fields (calls st)).
        { unfold hmget_fields. rewrite fmap_app, concat_app. simpl. by rewrite app_nil_r. }
        destruct (Z.of_nat (size redis) <? 1); [by inversion H|].
        destruct (redis !! key); [|by inversion H].
        apply IH in H. by rewrite H.
Qed.

End ValuationFacts.

Section ValuationCall.
Import Valuation Props.

Variables (l : list (string * jsvalue)) (steloAllowed : bool) (now : Z)
          (redis : gmap string Z) (c : Cache).

Let o := validateAssets l steloAllowed now redis c.
Let scanned :=
  scan_assets (assets c) (assetsCheckedAt c) now redis steloAllowed l
    (mkScan 0 [] None []).

(** The calls of one valuation: those of the scan, then at most one
    targeted read for the outdated keys. *)
Lemma validateAssets_calls :
  (scanned.1 = false /\ result o = -1 /\ redis_calls o = calls scanned.2)
  \/ (scanned.1 = true
      /\ redis_calls o =
         calls scanned.2
         ++ (if decide (outdatedAssets scanned.2 = [])
             then [] else [HMGET (outdatedAssets scanned.2)])).
Proof.
  subst o scanned. unfold validateAssets.
  destruct (scan_assets _ _ _ _ _ _ _) as [b st]. simpl.
  destruct b; simpl; [right|left; done].
  split; [done|].
  destruct (outdatedAssets st) as [|k ks] eqn:Hout; simpl.
  - by rewrite app_nil_r.
  - destruct (redis !! k); [|done].
    match goal with
    | |- context [refresh_outdated ?a ?b ?d ?e ?f] =>
      by destruct (refresh_outdated a b d e f)
    end.
Qed.

Lemma validateAssets_hmget :
  hmget_fields (redis_calls o)
  = if scanned.1 then stale_requested (assets c) now l else [].
Proof.
  pose proof validateAssets_calls as Hc.
  pose proof (scan_no_hmget (assets c) (assetsCheckedAt c) now redis steloAllowed
                l (mkScan 0 [] None []) scanned.1 scanned.2) as Hno.
  pose proof (scan_outdated_completed (assets c) (assetsCheckedAt c) now redis
                steloAllowed l (mkScan 0 [] None []) scanned.2) as Hout.
  subst scanned. destruct (scan_assets _ _ _ _ _ _ _) as [b st]. simpl in *.
  specialize (Hno eq_refl).
  destruct Hc as [(-> & _ & ->)|(-> & ->)]; [done|].
  specialize (Hout eq_refl). simpl in Hout.
  unfold hmget_fields in *. rewrite fmap_app, concat_app, Hno. simpl.
  rewrite <- Hout. destruct (decide _) as [->|]; simpl; [done|].
  by rewrite app_nil_r.
Qed.

Lemma validateAssets_completed : result o <> -1 -> scanned.1 = true.
Proof.
  intros Hr. destruct validateAssets_calls as [(_ & ? & _)|(? & _)]; done.
Qed.

Lemma validateAssets_hgetall :
  HGETALL ∈ redis_calls o ->
  assetsCheckedAt c < now - 2 * thirtyMinutes
  /\ exists key, key ∈ keys l /\ assets c !! key = None.
Proof.
  intros Hin.
  pose proof (scan_calls (assets c) (assetsCheckedAt c) now redis steloAllowed
                l (mkScan 0 [] None []) scanned.1 scanned.2) as Hsc.
  assert (Hin' : HGETALL ∈ calls scanned.2).
  { destruct validateAssets_calls as [(_ & _ & Heq)|(_ & Heq)];
      rewrite Heq in Hin; [done|].
    apply elem_of_app in Hin as [?|Hin]; [done|].
    destruct (decide _); [by apply elem_of_nil in Hin|].
    by apply list_elem_of_singleton in Hin. }
  subst scanned. destruct (scan_assets _ _ _ _ _ _ _) as [b st]. simpl in *.
  destruct (Hsc eq_refl _ Hin') as [Hnil|(_ & ? & ?)]; [|done].
  by apply elem_of_nil in Hnil.
Qed.

(** A request that only names symbols with a fresh snapshot entry makes no
    call to the price source. *)
Lemma validateAssets_fresh_no_call :
  (forall key, key ∈ keys l ->
     exists e, assets c !! key = Some e /\ ~ updatedAt e < now - thirtyMinutes) ->
  redis_calls o = [].
Proof.
  intros Hfresh.
  pose proof (scan_calls (assets c) (assetsCheckedAt c) now redis steloAllowed
                l (mkScan 0 [] None []) scanned.1 scanned.2) as Hsc.
  pose proof (scan_outdated_completed (assets c) (assetsCheckedAt c) now redis
                steloAllowed l (mkScan 0 [] None []) scanned.2) as Hout.
  assert (Hstale : stale_requested (assets c) now l = []).
  { destruct (stale_requested (assets c) now l) as [|key ks] eqn:Hsr; [done|].
    exfalso.
    assert (Hin : key ∈ stale_requested (assets c) now l)
      by (rewrite Hsr; apply elem_of_cons; by left).
    unfold stale_requested in Hin.
    apply list_elem_of_filter in Hin as [Hs Hk].
    destruct (Hfresh key Hk) as (e & He & Hf).
    apply Is_true_true in Hs. rewrite (is_stale_Some _ _ _ _ He) in Hs.
    by apply Z.ltb_lt in Hs. }
  assert (Hnone : calls scanned.2 = []).
  { subst scanned. destruct (scan_assets _ _ _ _ _ _ _) as [b st]. simpl in *.
    specialize (Hsc eq_refl).
    destruct (calls st) as [|c0 cs]; [done|]. exfalso.
    destruct (Hsc c0) as [Hnil|(_ & _ & key & Hk & Habs)].
    - apply elem_of_cons. by left.
    - by apply elem_of_nil in Hnil.
    - destruct (Hfresh key Hk) as (e & He & _). congruence. }
  destruct validateAssets_calls as [(_ & _ & ->)|(Hb & ->)]; [done|].
  rewrite Hnone. simpl.
  subst scanned. destruct (scan_assets _ _ _ _ _ _ _) as [b st]. simpl in *.
  subst b. rewrite (Hout eq_refl), Hstale. simpl. done.
Qed.

End ValuationCall.

Import Valuation Props.

Lemma elem_of_stale_requested prices now l key :
  key ∈ stale_requested prices now l
  <-> key ∈ keys l /\ is_stale prices now key = true.
Proof.
  unfold stale_requested. rewrite list_elem_of_filter.
  rewrite Is_true_true. tauto.
Qed.

(** ** C7 *)

(** C7 (as amended). A valuation call whose scan accepts the request (as
    does every call that returns a valuation and not -1) reads from the price
    source, among the requested symbols present in the snapshot, exactly
    those whose entry is older than thirty minutes; in every call, whatever
    the request names, only requested symbols with such an entry are read; a
    whole-table load happens only when the snapshot timestamp is older than
    sixty minutes and a requested symbol is absent from the snapshot; a
    symbol with a fresh entry is never read again, and a request of fresh
    known symbols makes no call at all. *)
Theorem validateAssets_refresh_protocol
    (l : list (string * jsvalue)) (steloAllowed : bool) (now : Z)
    (redis : gmap string Z) (c : Cache) :
  let o := validateAssets l steloAllowed now redis c in
  (result o <> -1 -> accepted_by_scan l steloAllowed now redis c)
  /\ (accepted_by_scan l steloAllowed now redis c ->
       forall key e, key ∈ keys l -> assets c !! key = Some e ->
         (key ∈ hmget_fields (redis_calls o) <-> updatedAt e < now - thirtyMinutes))
  /\ (forall key, key ∈ hmget_fields (redis_calls o) ->
        key ∈ keys l
        /\ exists e, assets c !! key = Some e /\ updatedAt e < now - thirtyMinutes)
  /\ (HGETALL ∈ redis_calls o ->
        assetsCheckedAt c < now - 2 * thirtyMinutes
        /\ exists k, k ∈ keys l /\ assets c !! k = None)
  /\ (forall key e, assets c !! key = Some e ->
        ~ updatedAt e < now - thirtyMinutes ->
        key ∉ hmget_fields (redis_calls o))
  /\ ((forall k, k ∈ keys l ->
         exists e', assets c !! k = Some e'
                    /\ ~ updatedAt e' < now - thirtyMinutes) ->
      redis_calls o = []).
Proof.
  intros o.
  assert (Hstale : forall key e, assets c !! key = Some e ->
            (is_stale (assets c) now key = true
             <-> updatedAt e < now - thirtyMinutes)).
  { intros key e He. rewrite (is_stale_Some _ _ _ _ He). apply Z.ltb_lt. }
  assert (Honly : forall key, key ∈ hmget_fields (redis_calls o) ->
            key ∈ keys l
            /\ exists e, assets c !! key = Some e
                         /\ updatedAt e < now - thirtyMinutes).
  { intros key. subst o. rewrite validateAssets_hmget.
    destruct (scan_assets _ _ _ _ _ _ _).1; [|by intros ?%elem_of_nil].
    rewrite elem_of_stale_requested. intros [Hin Hs]. split; [done|].
    unfold is_stale in Hs. destruct (assets c !! key) as [e|] eqn:He; [|done].
    exists e. split; [done|]. by apply Z.ltb_lt. }
  split; [apply validateAssets_completed|].
  split; [|split; [done|split; [|split]]].
  - intros Hr key e Hk He. split.
    + intros Hin. destruct (Honly _ Hin) as (_ & e' & He' & Hold). congruence.
    + intros Hs. subst o. rewrite validateAssets_hmget.
      unfold accepted_by_scan in Hr. rewrite Hr.
      apply elem_of_stale_requested. split; [done|]. by apply (Hstale key e).
  - apply validateAssets_hgetall.
  - intros key e He Hfresh Hin.
    destruct (Honly _ Hin) as (_ & e' & He' & Hold). congruence.
  - apply validateAssets_fresh_no_call.
Qed.

(** ** C5 *)

Section FreshRequest.

Variables (prices : gmap string PriceEntry) (checkedAt now : Z)
          (redis : gmap string Z).
Hypothesis stelo_unpriced : prices !! "stelo" = None.

Lemma add_collateral_add x y st :
  add_collateral y (add_collateral x st) = add_collateral (x + y) st.
Proof. unfold add_collateral. simpl. f_equal. lia. Qed.

Lemma add_collateral_0 st : add_collateral 0 st = st.
Proof. destruct st. unfold add_collateral. simpl. f_equal. lia. Qed.

Lemma positive_quantity_valid kv :
  positive_quantity kv -> Number_isInteger kv.2 && (1 <=? num kv.2) = true.
Proof.
  intros (z & -> & Hz). simpl. by apply Z.leb_le.
Qed.

(** With the reserve asset allowed or not requested, the scan completes and
    adds up the priced entries. *)
Lemma scan_fresh_accepts steloAllowed l st :
  Forall positive_quantity l ->
  Forall (resolves_fresh prices now) l ->
  steloAllowed = true \/ "stelo" ∉ keys l ->
  scan_assets prices checkedAt now redis steloAllowed l st
  = (true, add_collateral (collateral_value prices l) st).
Proof.
  revert st. induction l as [|[key v] rest IH]; intros st Hq Hf Hs; simpl.
  - by rewrite add_collateral_0.
  - apply Forall_cons in Hq as [Hq1 Hq]. apply Forall_cons in Hf as [Hf1 Hf].
    pose proof (positive_quantity_valid _ Hq1) as Hv. simpl in Hv. rewrite Hv.
    assert (Hs' : steloAllowed = true \/ "stelo" ∉ keys rest).
    { destruct Hs as [?|Hs]; [by left|right].
      unfold keys in *. simpl in Hs. by apply not_elem_of_cons in Hs as [_ ?]. }
    unfold priced_value at 1. simpl.
    destruct (String.eqb_spec key "stelo") as [->|Hne].
    + rewrite stelo_unpriced. simpl.
      destruct Hs as [->|Hs].
      * simpl. by rewrite IH.
      * exfalso. apply Hs. unfold keys. simpl. apply elem_of_cons. by left.
    + destruct (Hf1 Hne) as (e & He & Hfresh). simpl in He. rewrite He.
      apply Z.ltb_nlt in Hfresh. rewrite Hfresh.
      rewrite IH by done. by rewrite add_collateral_add.
Qed.

(** With the reserve asset requested but not allowed, the scan rejects
    without any call to the price source. *)
Lemma scan_fresh_rejects l st :
  Forall positive_quantity l ->
  Forall (resolves_fresh prices now) l ->
  "stelo" ∈ keys l ->
  exists st', scan_assets prices checkedAt now redis false l st = (false, st')
              /\ calls st' = calls st /\ installed st' = installed st.
Proof.
  revert st. induction l as [|[key v] rest IH]; intros st Hq Hf Hs; simpl.
  - by apply elem_of_nil in Hs.
  - apply Forall_cons in Hq as [Hq1 Hq]. apply Forall_cons in Hf as [Hf1 Hf].
    pose proof (positive_quantity_valid _ Hq1) as Hv. simpl in Hv. rewrite Hv.
    destruct (String.eqb_spec key "stelo") as [->|Hne].
    + rewrite stelo_unpriced. simpl. by exists st.
    + destruct (Hf1 Hne) as (e & He & Hfresh). simpl in He. rewrite He.
      apply Z.ltb_nlt in Hfresh. rewrite Hfresh.
      unfold keys in Hs. simpl in Hs. apply elem_of_cons in Hs as [?|Hs]; [done|].
      destruct (IH (add_collateral (value e * num v) st) Hq Hf Hs)
        as (st' & -> & ? & ?).
      by exists st'.
Qed.

Lemma collateral_value_non_reserve l :
  collateral_value prices (non_reserve l) = collateral_value prices l.
Proof.
  induction l as [|[key v] rest IH]; [done|].
  unfold non_reserve in *. rewrite filter_cons. simpl.
  destruct (decide (key <> "stelo")) as [?|Heq]; simpl; [by rewrite IH|].
  apply dec_stable in Heq as ->.
  unfold priced_value. simpl. rewrite stelo_unpriced, IH. lia.
Qed.

End FreshRequest.

(** C5 (as amended). For a request whose quantities are all integers that are
    at least 1 and whose symbols other than the reserve asset all have a
    fresh snapshot entry, the reserve asset itself being unpriced, and whose
    total of value times quantity stays within the safe integers (so that
    the doubles of the code add and multiply exactly): the valuation is the
    sum of value times quantity over the entries other than the reserve
    asset, which is accepted and adds nothing when it is allowed, and the
    request is invalid (-1) when the reserve asset is requested but not
    allowed; the price cache is left as it was and the price source is not
    called. *)
Theorem validateAssets_fresh_request
    (l : list (string * jsvalue)) (steloAllowed : bool) (now : Z)
    (redis : gmap string Z) (c : Cache) :
  Forall positive_quantity l ->
  Forall (resolves_fresh (assets c) now) l ->
  assets c !! "stelo" = None ->
  exact_total (snapshot_price (assets c)) l ->
  let o := validateAssets l steloAllowed now redis c in
  (steloAllowed = true \/ "stelo" ∉ keys l ->
     result o = collateral_value (assets c) (non_reserve l))
  /\ (steloAllowed = false -> "stelo" ∈ keys l -> result o = -1)
  /\ cache_after o = c
  /\ redis_calls o = [].
Proof.
  intros Hq Hf Hs _ o.
  assert (Hc : mkCache (assets c) (assetsCheckedAt c) = c) by by destruct c.
  destruct (decide (steloAllowed = true \/ "stelo" ∉ keys l)) as [Hok|Hno].
  - assert (Ho : o = mkOutcome (collateral_value (assets c) l) c []).
    { subst o. unfold validateAssets.
      rewrite (scan_fresh_accepts _ (assetsCheckedAt c) now redis Hs) by done.
      simpl. unfold settings_after. simpl. by rewrite Hc, Z.add_0_l. }
    rewrite Ho. simpl. split; [|split; [|done]].
    + intros _. by rewrite collateral_value_non_reserve.
    + intros -> Hin. by destruct Hok.
  - assert (steloAllowed = false /\ "stelo" ∈ keys l) as [-> Hin].
    { destruct steloAllowed; [by destruct Hno; left|].
      split; [done|]. destruct (decide ("stelo" ∈ keys l)); [done|].
      destruct Hno. by right. }
    destruct (scan_fresh_rejects _ (assetsCheckedAt c) now redis Hs l
                (mkScan 0 [] None []) Hq Hf Hin) as (st' & Hscan & Hcalls & Hinst).
    assert (Ho : o = mkOutcome (-1) c []).
    { subst o. unfold validateAssets. rewrite Hscan. simpl.
      unfold settings_after. rewrite Hinst, Hcalls. simpl. by rewrite Hc. }
    rewrite Ho. simpl. split; [|done].
    intros Hok. by destruct Hno.
Qed.

(** * Properties of the update operators *)

Section Operators.
Import Props.

Implicit Types (a : gmap string Z) (upd : list (string * Z)) (key : string).

Lemma balance_inc a k d key :
  balance (inc k d a) key = if decide (k = key) then balance a k + d else balance a key.
Proof.
  unfold inc, balance at 1. rewrite lookup_insert.
  destruct (decide (k = key)) as [->|]; done.
Qed.

Lemma balance_inc_all upd a key :
  balance (inc_all upd a) key = balance a key + delta upd key.
Proof.
  unfold inc_all. revert a.
  induction upd as [|[k d] rest IH]; intros a; simpl; [lia|].
  rewrite IH, balance_inc.
  destruct (String.eqb_spec k key) as [->|Hne].
  - rewrite decide_True by done. lia.
  - rewrite decide_False by done. lia.
Qed.

Lemma delta_negated upd key : delta (negated upd) key = - delta upd key.
Proof.
  induction upd as [|[k d] rest IH]; [done|].
  unfold negated in *. rewrite fmap_cons. unfold delta in *.
  cbn [foldr fst snd]. rewrite IH. destruct (String.eqb k key); lia.
Qed.

Lemma delta_nonneg upd key :
  Forall (fun kq => 0 <= kq.2) upd -> 0 <= delta upd key.
Proof.
  induction 1 as [|[k d] rest Hd _ IH]; simpl in *; [done|].
  destruct (String.eqb k key); lia.
Qed.

Lemma delta_not_named upd key : key ∉ upd.*1 -> delta upd key = 0.
Proof.
  induction upd as [|[k d] rest IH]; simpl; [done|].
  intros [Hne Hrest]%not_elem_of_cons.
  destruct (String.eqb_spec k key); [done|]. rewrite IH by done. lia.
Qed.

(** In a document that names every symbol once, the quantity of a named
    symbol is its entry. *)
Lemma delta_named upd key q :
  NoDup upd.*1 -> (key, q) ∈ upd -> delta upd key = q.
Proof.
  induction upd as [|[k d] rest IH]; simpl; intros Hnd Hin.
  - by apply elem_of_nil in Hin.
  - apply NoDup_cons in Hnd as [Hk Hnd].
    apply elem_of_cons in Hin as [Heq|Hin].
    + inversion Heq; subst. rewrite String.eqb_refl.
      rewrite delta_not_named by done. lia.
    + destruct (String.eqb_spec k key) as [->|Hne].
      * exfalso. apply Hk. apply list_elem_of_fmap. by exists (key, q).
      * rewrite IH by done. lia.
Qed.

(** The symbols of a document after [$inc]: those it had and those named. *)
Lemma lookup_inc_all_Some upd a key q :
  inc_all upd a !! key = Some q -> q = balance a key + delta upd key.
Proof.
  intros H. rewrite <- balance_inc_all. unfold balance. by rewrite H.
Qed.

Lemma lookup_inc_all_None upd a key :
  key ∉ upd.*1 -> inc_all upd a !! key = a !! key.
Proof.
  unfold inc_all. revert a.
  induction upd as [|[k d] rest IH]; intros a; simpl; [done|].
  intros [Hne Hrest]%not_elem_of_cons.
  rewrite IH by done. unfold inc. by rewrite lookup_insert_ne.
Qed.

Lemma nonneg_inc_all upd a :
  nonneg_assets a -> Forall (fun kq => 0 <= kq.2) upd ->
  nonneg_assets (inc_all upd a).
Proof.
  intros Ha Hupd key q Hq. apply lookup_inc_all_Some in Hq as ->.
  pose proof (delta_nonneg upd key Hupd).
  assert (0 <= balance a key); [|lia].
  unfold balance. destruct (a !! key) eqn:E; simpl; [by eapply Ha|done].
Qed.

Lemma gte_all_lookup upd a k q :
  gte_all upd a = true -> (k, q) ∈ upd -> exists b, a !! k = Some b /\ q <= b.
Proof.
  unfold gte_all. rewrite forallb_forall. intros H Hin.
  apply list_elem_of_In in Hin. specialize (H _ Hin). simpl in H.
  destruct (a !! k) as [b|]; [|done]. exists b. split; [done|]. by apply Z.leb_le.
Qed.

(** A guarded decrement of a document that names every symbol once leaves no
    negative quantity. *)
Lemma nonneg_decrement upd a :
  NoDup upd.*1 -> nonneg_assets a -> gte_all upd a = true ->
  nonneg_assets (inc_all (negated upd) a).
Proof.
  intros Hnd Ha Hg key q Hq.
  destruct (decide (key ∈ upd.*1)) as [Hin|Hout].
  - apply lookup_inc_all_Some in Hq as ->. rewrite delta_negated.
    apply list_elem_of_fmap in Hin as ([k d] & -> & Hin). simpl.
    destruct (gte_all_lookup _ _ _ _ Hg Hin) as (b & Hb & Hle).
    rewrite (delta_named _ _ _ Hnd Hin). unfold balance. rewrite Hb. simpl. lia.
  - rewrite lookup_inc_all_None in Hq; [by eapply Ha|].
    unfold negated. rewrite <- list_fmap_compose. simpl. done.
Qed.

Lemma quantities_keys (req : list (string * jsvalue)) : (quantities req).*1 = keys req.
Proof. unfold quantities, keys. rewrite <- list_fmap_compose. done. Qed.

Lemma quantities_positive (req : list (string * jsvalue)) :
  Forall positive_quantity req -> Forall (fun kq => 1 <= kq.2) (quantities req).
Proof.
  unfold quantities. intros H. apply Forall_fmap. eapply Forall_impl; [exact H|].
  intros [k v] (z & Hv & Hz). simpl in *. subst v. done.
Qed.

(** Documents found by a filter are documents of the collection that pass
    the filter. *)
Lemma find_doc_Some {A : Type} (p : A -> bool) (c : gmap N A) id d :
  find_doc p c = Some (id, d) -> c !! id = Some d /\ p d = true.
Proof.
  unfold find_doc. intros H. apply head_Some_elem_of in H.
  apply list_elem_of_filter in H as [Hp Hin]. simpl in Hp.
  apply elem_of_map_to_list in Hin. split; [done|]. by apply Is_true_true.
Qed.

Lemma update_if_Some {A : Type} id (p : A -> bool) u (c c' : gmap N A) :
  update_if id p u c = Some c' ->
  exists d, c !! id = Some d /\ p d = true /\ c' = <[id := u d]> c.
Proof.
  unfold update_if. destruct (c !! id) as [d|]; [|done].
  destruct (p d) eqn:Hp; [|done]. intros [= <-]. by exists d.
Qed.

Lemma update_by_id_lookup {A : Type} id (u : A -> A) (c : gmap N A) id' :
  update_by_id id u c !! id' =
  if decide (id = id') then u <$> c !! id else c !! id'.
Proof.
  unfold update_by_id. destruct (c !! id) as [d|] eqn:Hd.
  - rewrite lookup_insert. destruct (decide (id = id')); simpl; done.
  - destruct (decide (id = id')) as [<-|]; [by rewrite Hd|done].
Qed.

End Operators.

(** * Warehouse transfers *)

Import Props.

(** C1 (as amended). Confirming a transfer in status sent, by a caller
    assigned to the receiving warehouse, deletes the transfer record, adds the
    transfer's assets to the receiving warehouse's inventory, and adds
    [collateralUsed] to the collateralAvailable of the sending warehouse; the
    receiving warehouse's collateralAvailable changes only when it is also
    the sending warehouse. *)
Theorem confirm_received_effect
    (caller transferId : N) (s : State) (t : Transfer) (hr hs : Warehouse) :
  transfers s !! transferId = Some t ->
  status t = sent ->
  requester_assigned caller [receivingWarehouse t] s = true ->
  warehouses s !! receivingWarehouse t = Some hr ->
  warehouses s !! sendingWarehouse t = Some hs ->
  let out := put_transfer_status caller transferId received s in
  out.1 = Success 200
  /\ transfers out.2 !! transferId = None
  /\ (exists hr',
        warehouses out.2 !! receivingWarehouse t = Some hr'
        /\ (forall key, balance (h_assets hr') key
                        = balance (h_assets hr) key + delta (t_assets t) key)
        /\ collateral hr' = collateral hr
        /\ collateralAvailable hr'
           = if decide (sendingWarehouse t = receivingWarehouse t)
             then collateralAvailable hr + collateralUsed t
             else collateralAvailable hr)
  /\ (exists hs',
        warehouses out.2 !! sendingWarehouse t = Some hs'
        /\ collateral hs' = collateral hs
        /\ collateralAvailable hs' = collateralAvailable hs + collateralUsed t).
Proof.
  intros Ht Hst Hreq Hr Hs out. subst out.
  unfold put_transfer_status, withTransaction, received_transaction,
    find_with_status.
  rewrite Ht, Hst. rewrite bool_decide_eq_true_2 by done.
  rewrite Hreq. simpl.
  split; [done|]. split; [apply lookup_delete_eq|].
  rewrite !update_by_id_lookup.
  destruct (decide (sendingWarehouse t = receivingWarehouse t)) as [Heq|Hne].
  - rewrite Heq in *. rewrite !decide_True by done.
    rewrite Hr in *. inversion Hs; subst hs. simpl.
    split; eexists; (split; [reflexivity|]); simpl; repeat split.
    intros key. apply balance_inc_all.
  - rewrite !(decide_True (P := receivingWarehouse t = receivingWarehouse t)) by done.
    rewrite !(decide_False (P := receivingWarehouse t = sendingWarehouse t)) by done.
    rewrite !decide_True by done.
    rewrite Hr, Hs. simpl.
    split; eexists; (split; [reflexivity|]); simpl; repeat split.
    intros key. apply balance_inc_all.
Qed.

(** * Warehouse withdrawal and deposit *)

(** The collateral returned by a withdrawal is the valuation, cut to what is
    still locked. *)
Lemma clamp_collateral_min h v :
  clamp_collateral h v = Z.min v (collateral h - collateralAvailable h).
Proof. unfold clamp_collateral. destruct (Z.gtb_spec (collateralAvailable h + v) (collateral h)); lia. Qed.

Lemma assignedToWarehouse_Some isOwner caller id hs h :
  assignedToWarehouse isOwner caller id hs = Some h -> hs !! id = Some h.
Proof.
  unfold assignedToWarehouse. destruct (hs !! id) as [h'|]; [|done].
  destruct isOwner; repeat case_match; congruence.
Qed.


(** C6. Two withdrawals of 5 wood each from warehouse B, which pledged 1000
    and holds 10 wood deposited at price 20 (collateralAvailable 800), after
    the price moved to 30. Both middlewares read the warehouse before either
    handler runs its transaction: each handler finds 800 + 150 within the
    collateral and returns 150 unclamped, and the second transaction leaves
    the warehouse with a collateralAvailable of 1100 over a collateral of
    1000. Run after the first one, middleware included, the second
    withdrawal returns 50 and stops at 1000. *)
Theorem withdrawal_stale_read_exceeds_collateral :
  let s := Scenes.priced_up_state in
  let req := [("wood", JInt 5)] in
  let read := Scenes.warehouseB_low in
  let first :=
    delete_warehouse_assets_handler read 11 "alice" req Sample.later Sample.redis0 s in
  let second :=
    delete_warehouse_assets_handler read 11 "alice" req Sample.later Sample.redis0
      first.2 in
  let alone :=
    delete_warehouse_assets 100 11 "alice" req Sample.later Sample.redis0 first.2 in
  assignedToWarehouse false 100 11 (warehouses s) = Some read
  /\ collateralAvailable read <= collateral read
  /\ first.1 = Success 200
  /\ Sample.warehouse_view 11 first.2 = Some (1000, 950, 5)
  /\ second.1 = Success 200
  /\ Sample.warehouse_view 11 second.2 = Some (1000, 1100, 0)
  /\ (exists h', warehouses second.2 !! 11%N = Some h'
                 /\ collateral h' < collateralAvailable h')
  /\ alone.1 = Success 200
  /\ Sample.warehouse_view 11 alone.2 = Some (1000, 1000, 0).
Proof.
  intros s req read first second alone.
  split; [vm_compute; reflexivity|]. split; [vm_compute; discriminate|].
  split; [vm_compute; reflexivity|]. split; [vm_compute; reflexivity|].
  split; [vm_compute; reflexivity|]. split; [vm_compute; reflexivity|].
  split; [|split; vm_compute; reflexivity].
  assert (Hb : Sample.warehouse_view 11 second.2 = Some (1000, 1100, 0))
    by (vm_compute; reflexivity).
  unfold Sample.warehouse_view in Hb.
  destruct (warehouses second.2 !! 11%N) as [h'|]; [|discriminate Hb].
  exists h'. split; [reflexivity|]. simpl in Hb. injection Hb as Hc Ha _. lia.
Qed.

Section DepositWithdraw.
Import Valuation.

Variables (caller warehouseId : N) (name : string)
          (req : list (string * jsvalue)) (now : Z) (redis : gmap string Z)
          (s : State).






End DepositWithdraw.


(** * Peer transactions *)

Lemma withTransaction_flags {F S : Type} (body : S -> F * option S) (s : S) :
  (withTransaction body s).1 = (body s).1.
Proof. unfold withTransaction. by destruct (body s) as [f [s'|]]. Qed.

(** The answer of the handler is the answer computed from the flags of the
    transaction, once the request has passed validation. *)
Lemma post_wallet_transactions_validated walletId recipient req ok now redis s :
  (1 <= length req)%nat ->
  0 <= Valuation.result (Valuation.validateAssets req true now redis (app s)) ->
  post_wallet_transactions walletId recipient req ok now redis s
  = let s0 := with_app (Valuation.cache_after
                          (Valuation.validateAssets req true now redis (app s))) s in
    let out := withTransaction
                 (send_transaction walletId recipient (quantities req) ok)
                 (wallets s) in
    (send_response out.1, with_wallets out.2 s0).
Proof.
  intros Hlen Hv. unfold post_wallet_transactions.
  destruct (Nat.ltb_spec (length req) 1); [lia|].
  destruct (Z.ltb_spec (Valuation.result
              (Valuation.validateAssets req true now redis (app s))) 0); [lia|].
  simpl. by destruct (withTransaction _ _).
Qed.

(** C8. The error reported for a peer transaction follows the priority
    insufficient funds, recipient not found, webhook failure: the answer of
    the handler is computed from the flags that the transaction recorded, in
    that order, and one execution records at most one of the three. *)
Theorem send_error_priority
    (walletId : N) (recipient : string) (req : list (string * jsvalue))
    (webhook_ok : bool) (now : Z) (redis : gmap string Z) (s : State) :
  let f := (send_transaction walletId recipient (quantities req) webhook_ok
              (wallets s)).1 in
  let reported :=
    (post_wallet_transactions walletId recipient req webhook_ok now redis s).1 in
  ((1 <= length req)%nat ->
     0 <= Valuation.result (Valuation.validateAssets req true now redis (app s)) ->
     reported = send_response f)
  /\ (hasFunds f = false -> send_response f = Failure 400 "W0002")
  /\ (hasFunds f = true -> recipientFound f = false ->
        send_response f = Failure 404 "W0003")
  /\ (hasFunds f = true -> recipientFound f = true -> webhookFailed f = true ->
        send_response f = Failure 400 "W0004")
  /\ (hasFunds f = true -> recipientFound f = true -> webhookFailed f = false ->
        send_response f = Success 201)
  /\ at_most_one_failure f.
Proof.
  intros f reported.
  assert (Hresp : forall g : send_flags,
             (hasFunds g = false -> send_response g = Failure 400 "W0002")
             /\ (hasFunds g = true -> recipientFound g = false ->
                   send_response g = Failure 404 "W0003")
             /\ (hasFunds g = true -> recipientFound g = true ->
                   webhookFailed g = true -> send_response g = Failure 400 "W0004")
             /\ (hasFunds g = true -> recipientFound g = true ->
                   webhookFailed g = false -> send_response g = Success 201)).
  { intros [[] [] []]; unfold send_response; simpl; repeat split; intros; congruence. }
  destruct (Hresp f) as (H1 & H2 & H3 & H4).
  split.
  { intros Hlen Hv. subst reported f.
    rewrite post_wallet_transactions_validated by done. simpl.
    by rewrite withTransaction_flags. }
  repeat (split; [done|]).
  subst f. unfold send_transaction, at_most_one_failure.
  destruct (find_doc _ _) as [[rid r]|]; simpl; [|by repeat split].
  destruct (truthy (webhook r) && negb webhook_ok); simpl; [by repeat split|].
  destruct (update_if _ _ _ _); simpl; by repeat split.
Qed.

(** C4. When the recipient of a peer transaction is a smart wallet and the
    POST to its webhook fails, the transaction aborts: no wallet changes
    (neither the sender's nor the recipient's balance of any asset) and the
    answer is the webhook failure W0004. *)
Theorem webhook_failure_aborts
    (walletId : N) (recipient : string) (req : list (string * jsvalue))
    (now : Z) (redis : gmap string Z) (s : State)
    (recipientId : N) (r : Wallet) :
  (1 <= length req)%nat ->
  0 <= Valuation.result (Valuation.validateAssets req true now redis (app s)) ->
  find_doc (recipient_filter recipient) (wallets s) = Some (recipientId, r) ->
  truthy (webhook r) = true ->
  let out := post_wallet_transactions walletId recipient req false now redis s in
  out.1 = Failure 400 "W0004" /\ wallets out.2 = wallets s.
Proof.
  intros Hlen Hv Hfind Hhook out. subst out.
  rewrite post_wallet_transactions_validated by done.
  unfold withTransaction, send_transaction. rewrite Hfind, Hhook. simpl. done.
Qed.

(** A request that the scan accepts has only well-formed quantities. *)
Lemma scan_completed_valid prices checkedAt now redis steloAllowed l st st' :
  Valuation.scan_assets prices checkedAt now redis steloAllowed l st = (true, st') ->
  Forall positive_quantity l.
Proof.
  revert st. induction l as [|[key v] rest IH]; intros st H; [constructor|].
  simpl in H.
  destruct v as [z|]; simpl in H; [|discriminate].
  destruct (Z.leb_spec 1 z) as [Hz|]; [|discriminate].
  constructor; [by exists z|].
  destruct (prices !! key) as [e|].
  - destruct (_ <? _); by eapply IH.
  - destruct (String.eqb key "stelo").
    + destruct (negb steloAllowed); [discriminate|]. by eapply IH.
    + destruct (_ <? _); [|discriminate].
      destruct (_ <? 1); [discriminate|].
      destruct (redis !! key); [|discriminate]. by eapply IH.
Qed.

Lemma validated_positive l steloAllowed now redis c :
  0 <= Valuation.result (Valuation.validateAssets l steloAllowed now redis c) ->
  Forall positive_quantity l.
Proof.
  intros Hv.
  assert (Hc := validateAssets_completed l steloAllowed now redis c ltac:(lia)).
  destruct (Valuation.scan_assets _ _ _ _ _ _ _) as [b st] eqn:Hs.
  simpl in Hc. subst b. by eapply scan_completed_valid.
Qed.

Section SelfTransfer.

Implicit Types (a : gmap string Z) (upd : list (string * Z)).

Lemma lookup_inc_all_named upd a key :
  key ∈ upd.*1 -> inc_all upd a !! key = Some (balance a key + delta upd key).
Proof.
  intros Hin.
  destruct (inc_all upd a !! key) as [q|] eqn:Hq.
  - by apply lookup_inc_all_Some in Hq as ->.
  - exfalso. revert a Hq. unfold inc_all.
    induction upd as [|[k d] rest IH]; intros a Hq; simpl in *.
    + by apply elem_of_nil in Hin.
    + destruct (decide (key ∈ rest.*1)) as [Hr|Hr]; [by eapply IH|].
      apply elem_of_cons in Hin as [->|?]; [|done].
      fold (inc_all rest (inc k d a)) in Hq.
      rewrite lookup_inc_all_None in Hq by done.
      unfold inc in Hq. by rewrite lookup_insert_eq in Hq.
Qed.

Lemma delta_ge_entry upd key q :
  Forall (fun kq => 0 <= kq.2) upd -> (key, q) ∈ upd -> q <= delta upd key.
Proof.
  induction 1 as [|[k d] rest Hd Hrest IH]; intros Hin; simpl in *.
  - by apply elem_of_nil in Hin.
  - apply elem_of_cons in Hin as [Heq|Hin].
    + inversion Heq; subst. rewrite String.eqb_refl.
      pose proof (delta_nonneg rest k Hrest). lia.
    + specialize (IH Hin). destruct (String.eqb k key); lia.
Qed.

(** After the increment of a document without negative quantities, the
    guarded decrement of the same quantities always matches. *)
Lemma gte_all_after_inc upd a :
  nonneg_assets a -> Forall (fun kq => 0 <= kq.2) upd ->
  gte_all upd (inc_all upd a) = true.
Proof.
  intros Ha Hupd. unfold gte_all. apply forallb_forall. intros [k q] Hin.
  apply list_elem_of_In in Hin. simpl.
  rewrite lookup_inc_all_named by (apply list_elem_of_fmap; by exists (k, q)).
  apply Z.leb_le. pose proof (delta_ge_entry _ _ _ Hupd Hin).
  assert (0 <= balance a k); [|lia].
  unfold balance. destruct (a !! k) eqn:E; simpl; [by eapply Ha|done].
Qed.

End SelfTransfer.

(** C9 (as amended). A peer transaction whose recipient resolves to the
    sender's own wallet, whose request passes validation, whose wallet holds
    no negative quantity, whose webhook (if the wallet is smart) accepts
    the notification, and whose quantities keep the balances of the wallet
    within the safe integers (so that the increment and the decrement of the
    code are exact), succeeds whatever the balances are, and leaves every
    asset balance of the wallet, and every other wallet, as it was. *)
Theorem self_transfer_succeeds
    (walletId : N) (recipient : string) (req : list (string * jsvalue))
    (webhook_ok : bool) (now : Z) (redis : gmap string Z) (s : State)
    (w : Wallet) :
  (1 <= length req)%nat ->
  0 <= Valuation.result (Valuation.validateAssets req true now redis (app s)) ->
  find_doc (recipient_filter recipient) (wallets s) = Some (walletId, w) ->
  truthy (webhook w) = false \/ webhook_ok = true ->
  nonneg_assets (w_assets w) ->
  exact_on (quantities req) (w_assets w) ->
  let out := post_wallet_transactions walletId recipient req webhook_ok now redis s in
  out.1 = Success 201
  /\ (exists w', wallets out.2 !! walletId = Some w'
                 /\ forall key, balance (w_assets w') key = balance (w_assets w) key)
  /\ (forall id, id <> walletId -> wallets out.2 !! id = wallets s !! id).
Proof.
  intros Hlen Hv Hfind Hhook Hnn _ out. subst out.
  rewrite post_wallet_transactions_validated by done.
  pose proof (quantities_positive _ (validated_positive _ _ _ _ _ Hv)) as Hpos.
  assert (Hupd : Forall (fun kq : string * Z => 0 <= kq.2) (quantities req)).
  { eapply Forall_impl; [exact Hpos|]. simpl. intros. lia. }
  unfold withTransaction, send_transaction. rewrite Hfind.
  assert (Hgate : truthy (webhook w) && negb webhook_ok = false).
  { destruct Hhook as [->| ->]; [done|]. by rewrite andb_false_r. }
  rewrite Hgate. unfold update_if. rewrite lookup_insert_eq. simpl.
  rewrite gte_all_after_inc by done. simpl.
  split; [done|]. split.
  - rewrite lookup_insert_eq. eexists. split; [done|]. simpl.
    intros key. rewrite !balance_inc_all, delta_negated. lia.
  - intros id Hne. by rewrite !lookup_insert_ne.
Qed.

(** * The collateral bound *)

Section CollateralBound.

Lemma collateral_bound_insert (hs : gmap N Warehouse) id h :
  map_Forall (fun _ h0 => collateral_bound h0) hs ->
  collateral_bound h ->
  map_Forall (fun _ h0 => collateral_bound h0) (<[id := h]> hs).
Proof. intros. by apply map_Forall_insert_2. Qed.

Lemma collateral_bound_update_if (hs hs' : gmap N Warehouse) id p u :
  map_Forall (fun _ h0 => collateral_bound h0) hs ->
  update_if id p u hs = Some hs' ->
  (forall h, hs !! id = Some h -> p h = true -> collateral_bound h ->
             collateral_bound (u h)) ->
  map_Forall (fun _ h0 => collateral_bound h0) hs'.
Proof.
  intros Hinv (h & Hh & Hp & ->)%update_if_Some Hu.
  apply collateral_bound_insert; [done|]. apply Hu; [done..|]. by eapply Hinv.
Qed.

Lemma patch_collateral_bound caller walletId warehouseId balance_ s :
  collateral_invariant s ->
  collateral_invariant (patch_warehouse_collateral caller walletId warehouseId balance_ s).2.
Proof.
  intros Hinv. unfold patch_warehouse_collateral.
  destruct (assignedToWarehouse _ _ _ _) as [rw|]; [|done].
  destruct (balance_ =? 0); [done|].
  destruct (_ && _); [done|].
  unfold withTransaction, collateral_transaction.
  destruct (Z.ltb_spec balance_ 0) as [Hneg|Hpos]; simpl.
  - destruct (update_if warehouseId _ _ _) as [hs|] eqn:Hu; [|done].
    destruct (update_if walletId _ _ _) as [ws|]; [|done]. simpl.
    eapply collateral_bound_update_if; [exact Hinv|exact Hu|].
    intros h _ Hp%Z.leb_le [H0 H1]. unfold collateral_bound, add_both. simpl. lia.
  - destruct (update_if walletId _ _ _) as [ws|]; [|done]. simpl.
    intros id h. simpl. rewrite update_by_id_lookup.
    destruct (decide (warehouseId = id)) as [->|]; [|by apply Hinv].
    destruct (warehouses s !! id) as [h0|] eqn:Hh; [|done]. simpl.
    intros [= <-]. destruct (Hinv _ _ Hh). unfold collateral_bound, add_both. simpl. lia.
Qed.

Lemma deposit_collateral_bound caller warehouseId name req now redis s :
  collateral_invariant s ->
  collateral_invariant (post_warehouse_assets caller warehouseId name req now redis s).2.
Proof.
  intros Hinv. unfold post_warehouse_assets.
  destruct (assignedToWarehouse _ _ _ _) as [rw|]; [|done].
  destruct (_ <? 1)%nat; [done|].
  destruct (Z.ltb_spec (Valuation.result
              (Valuation.validateAssets req false now redis (app s))) 0) as [|Hv];
    [done|].
  destruct (_ <? _); [done|].
  unfold withTransaction, deposit_transaction. simpl.
  destruct (update_if _ _ _ _) as [hs|] eqn:Hu; [|done].
  destruct (find_doc _ _) as [[id w]|]; [|done]. simpl.
  eapply collateral_bound_update_if; [exact Hinv|exact Hu|].
  intros h _ Hp%Z.leb_le [H0 H1]. unfold collateral_bound. simpl. lia.
Qed.

Lemma withdrawal_collateral_bound caller warehouseId name req now redis s :
  collateral_invariant s ->
  collateral_invariant (delete_warehouse_assets caller warehouseId name req now redis s).2.
Proof.
  intros Hinv. unfold delete_warehouse_assets, delete_warehouse_assets_handler.
  destruct (assignedToWarehouse _ _ _ _) as [rw|] eqn:Ha; [|done].
  apply assignedToWarehouse_Some in Ha.
  destruct (_ <? 1)%nat; [done|].
  destruct (Z.ltb_spec (Valuation.result
              (Valuation.validateAssets req false now redis (app s))) 0) as [|Hv];
    [done|].
  unfold withTransaction, withdraw_transaction. simpl.
  destruct (update_if _ _ _ _) as [hs|] eqn:Hu; [|done].
  destruct (find_doc _ _) as [[id w]|]; [|done]. simpl.
  eapply collateral_bound_update_if; [exact Hinv|exact Hu|].
  intros h Hh _ [H0 H1]. rewrite Ha in Hh. inversion Hh; subst rw.
  unfold collateral_bound. simpl. rewrite clamp_collateral_min. lia.
Qed.

Lemma create_collateral_bound caller receiving sending req now redis s :
  collateral_invariant s ->
  collateral_invariant (post_transfers caller receiving sending req now redis s).2.
Proof.
  intros Hinv. unfold post_transfers.
  destruct (_ <? 1)%nat; [done|].
  destruct (Z.ltb_spec (Valuation.result
              (Valuation.validateAssets req false now redis (app s))) 0) as [|Hv];
    [done|].
  simpl. destruct (assignedToWarehouse _ _ _ _) as [rw|]; [|done].
  destruct (_ <? _); [done|].
  unfold withTransaction, create_transaction. simpl.
  destruct (update_if receiving _ _ _) as [hs1|] eqn:Hu1; [|done].
  destruct (update_if sending _ _ _) as [hs2|] eqn:Hu2; [|done]. simpl.
  eapply collateral_bound_update_if; [|exact Hu2|].
  - eapply collateral_bound_update_if; [exact Hinv|exact Hu1|].
    intros h _ [Hp _]%andb_prop [H0 H1]. apply Z.leb_le in Hp.
    unfold collateral_bound. simpl. lia.
  - intros h _ _ Hb. exact Hb.
Qed.

Lemma sent_collateral_bound caller transferId s :
  collateral_invariant s ->
  collateral_invariant (put_transfer_status caller transferId sent s).2.
Proof.
  intros Hinv. unfold put_transfer_status, withTransaction, sent_transaction.
  destruct (find_with_status _ _ _) as [t|]; [|done].
  by destruct (negb _).
Qed.

Lemma send_collateral_bound walletId recipient req ok now redis s :
  collateral_invariant s ->
  collateral_invariant (post_wallet_transactions walletId recipient req ok now redis s).2.
Proof.
  intros Hinv. unfold post_wallet_transactions.
  destruct (_ <? 1)%nat; [done|].
  destruct (_ <? 0); [done|].
  by destruct (withTransaction _ _).
Qed.

End CollateralBound.

(** Requests other than the cancellation and the confirmation of a transfer
    keep the collateral bound of every warehouse. *)
Theorem collateral_bound_preserved (r : request) (s : State) :
  match r with
  | TransferCancel _ _ | TransferStatus _ _ received => False
  | _ => True
  end ->
  collateral_invariant s ->
  collateral_invariant (handle r s).2.
Proof.
  destruct r as [a w h b|a h d req now redis|a h d req now redis
                |a r0 s0 req now redis|a t|a t st|w r0 req ok now redis];
    simpl; intros Hr Hinv.
  - by apply patch_collateral_bound.
  - by apply deposit_collateral_bound.
  - by apply withdrawal_collateral_bound.
  - by apply create_collateral_bound.
  - done.
  - destruct st; [done|by apply sent_collateral_bound|done].
  - by apply send_collateral_bound.
Qed.

(** C2. The collateral bound holds in the initial sample state and after
    every request of the sequence but the last: the confirmation of a
    transfer created after a price rise adds 300 to the collateralAvailable of
    the sending warehouse B, whose collateral is 200. *)
Theorem confirm_received_exceeds_collateral :
  collateral_invariant Sample.s0
  /\ collateral_invariant (run (take 5 Sample.price_change) Sample.s0)
  /\ Sample.warehouse_view 11 (run (take 5 Sample.price_change) Sample.s0)
     = Some (200, 0, 0)
  /\ Sample.warehouse_view 11 (run Sample.price_change Sample.s0)
     = Some (200, 300, 0)
  /\ ~ collateral_invariant (run Sample.price_change Sample.s0).
Proof.
  assert (Hdec : forall s, bool_decide
            (map_Forall (fun _ h => collateral_bound h) (warehouses s)) = true ->
            collateral_invariant s).
  { intros s H. by apply bool_decide_eq_true_1 in H. }
  split; [by apply Hdec; vm_compute|].
  split; [by apply Hdec; vm_compute|].
  split; [by vm_compute|]. split; [by vm_compute|].
  intros Hinv.
  assert (Hb : exists h, warehouses (run Sample.price_change Sample.s0) !! 11%N = Some h
                         /\ collateral h = 200 /\ collateralAvailable h = 300).
  { vm_compute. eexists. split; [reflexivity|]. split; reflexivity. }
  destruct Hb as (h & Hh & Hc & Ha). destruct (Hinv _ _ Hh). lia.
Qed.

(** * Negative balances *)

Section NoNegativeBalance.

Lemma map_Forall_update_if {A : Type} (P : A -> Prop) (c c' : gmap N A) id p u :
  map_Forall (fun _ d => P d) c ->
  update_if id p u c = Some c' ->
  (forall d, p d = true -> P d -> P (u d)) ->
  map_Forall (fun _ d => P d) c'.
Proof.
  intros Hinv (d & Hd & Hp & ->)%update_if_Some Hu.
  apply map_Forall_insert_2; [|done]. apply Hu; [done|]. by eapply Hinv.
Qed.

Lemma map_Forall_update_by_id {A : Type} (P : A -> Prop) (c : gmap N A) id u :
  map_Forall (fun _ d => P d) c ->
  (forall d, P d -> P (u d)) ->
  map_Forall (fun _ d => P d) (update_by_id id u c).
Proof.
  intros Hinv Hu. unfold update_by_id.
  destruct (c !! id) as [d|] eqn:Hd; [|done].
  apply map_Forall_insert_2; [|done]. apply Hu. by eapply Hinv.
Qed.

Lemma map_Forall_found {A : Type} (P : A -> Prop) (c : gmap N A) p id d :
  map_Forall (fun _ d0 => P d0) c -> find_doc p c = Some (id, d) -> P d.
Proof. intros Hinv [Hd _]%find_doc_Some. by eapply Hinv. Qed.

Lemma nonneg_inc key d a : nonneg_assets a -> 0 <= d -> nonneg_assets (inc key d a).
Proof.
  intros Ha Hd. apply (nonneg_inc_all [(key, d)] a Ha). by repeat constructor.
Qed.

Lemma quantities_nonneg req :
  Forall positive_quantity req -> Forall (fun kq : string * Z => 0 <= kq.2) (quantities req).
Proof.
  intros H. eapply Forall_impl; [by apply quantities_positive|]. simpl. intros. lia.
Qed.

Lemma quantities_NoDup (req : list (string * jsvalue)) :
  NoDup (keys req) -> NoDup (quantities req).*1.
Proof. by rewrite quantities_keys. Qed.

Lemma patch_nonneg caller walletId warehouseId balance_ s :
  no_negative_balance s ->
  no_negative_balance (patch_warehouse_collateral caller walletId warehouseId balance_ s).2.
Proof.
  intros [Hw Hh]. unfold patch_warehouse_collateral.
  destruct (assignedToWarehouse _ _ _ _) as [rw|]; [|done].
  destruct (balance_ =? 0); [done|].
  destruct (_ && _); [done|].
  unfold withTransaction, collateral_transaction.
  destruct (Z.ltb_spec balance_ 0) as [Hneg|Hpos]; simpl.
  - destruct (update_if warehouseId _ _ _) as [hs|] eqn:Hu; [|done].
    destruct (update_if walletId _ _ _) as [ws|] eqn:Hu2; [|done]. simpl.
    split; simpl.
    + eapply (map_Forall_update_if (fun w => nonneg_assets (w_assets w)));
        [exact Hw|exact Hu2|].
      intros w _ Hnn. simpl. apply nonneg_inc; [done|lia].
    + eapply (map_Forall_update_if (fun h => nonneg_assets (h_assets h)));
        [exact Hh|exact Hu|]. by intros h _ Hnn.
  - destruct (update_if walletId _ _ _) as [ws|] eqn:Hu; [|done]. simpl.
    split; simpl.
    + eapply (map_Forall_update_if (fun w => nonneg_assets (w_assets w)));
        [exact Hw|exact Hu|].
      intros w Hp Hnn. simpl. intros key q. unfold inc. rewrite lookup_insert.
      destruct (decide ("stelo" = key)) as [<-|]; [|by apply Hnn].
      intros [= <-]. unfold balance. simpl in Hp.
      destruct (w_assets w !! "stelo") as [b|]; [|done]. simpl.
      apply Z.leb_le in Hp. lia.
    + apply (map_Forall_update_by_id (fun h => nonneg_assets (h_assets h)));
        [exact Hh|]. by intros h Hnn.
Qed.

Lemma deposit_nonneg caller warehouseId name req now redis s :
  no_negative_balance s ->
  no_negative_balance (post_warehouse_assets caller warehouseId name req now redis s).2.
Proof.
  intros [Hw Hh]. unfold post_warehouse_assets.
  destruct (assignedToWarehouse _ _ _ _) as [rw|]; [|done].
  destruct (_ <? 1)%nat; [done|].
  destruct (Z.ltb_spec (Valuation.result
              (Valuation.validateAssets req false now redis (app s))) 0) as [|Hv];
    [done|].
  apply validated_positive, quantities_nonneg in Hv.
  destruct (_ <? _); [done|].
  unfold withTransaction, deposit_transaction. simpl.
  destruct (update_if _ _ _ _) as [hs|] eqn:Hu; [|done].
  destruct (find_doc _ _) as [[id w]|] eqn:Hf; [|done]. simpl.
  split; simpl.
  - apply map_Forall_insert_2; [|done]. simpl. apply nonneg_inc_all; [|done].
    by apply (map_Forall_found (fun w => nonneg_assets (w_assets w)) _ _ _ _ Hw Hf).
  - eapply (map_Forall_update_if (fun h => nonneg_assets (h_assets h)));
      [exact Hh|exact Hu|].
    intros h _ Hnn. simpl. by apply nonneg_inc_all.
Qed.

Lemma withdrawal_nonneg caller warehouseId name req now redis s :
  NoDup (keys req) ->
  no_negative_balance s ->
  no_negative_balance (delete_warehouse_assets caller warehouseId name req now redis s).2.
Proof.
  intros Hnd%quantities_NoDup [Hw Hh]. unfold delete_warehouse_assets, delete_warehouse_assets_handler.
  destruct (assignedToWarehouse _ _ _ _) as [rw|]; [|done].
  destruct (_ <? 1)%nat; [done|].
  destruct (_ <? 0); [done|].
  unfold withTransaction, withdraw_transaction. simpl.
  destruct (update_if _ _ _ _) as [hs|] eqn:Hu; [|done].
  destruct (find_doc _ _) as [[id w]|] eqn:Hf; [|done]. simpl.
  split; simpl.
  - apply map_Forall_insert_2; [|done]. simpl.
    pose proof (map_Forall_found (fun w => nonneg_assets (w_assets w)) _ _ _ _ Hw Hf).
    apply find_doc_Some in Hf as [_ [Hg _]%andb_prop].
    by apply nonneg_decrement.
  - eapply (map_Forall_update_if (fun h => nonneg_assets (h_assets h)));
      [exact Hh|exact Hu|].
    intros h Hg Hnn. simpl. by apply nonneg_decrement.
Qed.

Lemma create_nonneg caller receiving sending req now redis s :
  NoDup (keys req) ->
  no_negative_balance s -> nonneg_transfers s ->
  let s' := (post_transfers caller receiving sending req now redis s).2 in
  no_negative_balance s' /\ nonneg_transfers s'.
Proof.
  intros Hnd%quantities_NoDup [Hw Hh] Ht. unfold post_transfers.
  destruct (_ <? 1)%nat; [done|].
  destruct (Z.ltb_spec (Valuation.result
              (Valuation.validateAssets req false now redis (app s))) 0) as [|Hv];
    [done|].
  apply validated_positive, quantities_nonneg in Hv.
  simpl. destruct (assignedToWarehouse _ _ _ _) as [rw|]; [|done].
  destruct (_ <? _); [done|].
  unfold withTransaction, create_transaction. simpl.
  destruct (update_if receiving _ _ _) as [hs1|] eqn:Hu1; [|done].
  destruct (update_if sending _ _ _) as [hs2|] eqn:Hu2; [|done]. simpl.
  split; [split|]; simpl.
  - done.
  - eapply (map_Forall_update_if (fun h => nonneg_assets (h_assets h)));
      [|exact Hu2|].
    + eapply (map_Forall_update_if (fun h => nonneg_assets (h_assets h)));
        [exact Hh|exact Hu1|]. by intros h _ Hnn.
    + intros h Hg Hnn. simpl. by apply nonneg_decrement.
  - unfold nonneg_transfers. simpl. by apply map_Forall_insert_2.
Qed.

Lemma release_nonneg (t : Transfer) (hs : gmap N Warehouse) idA idC :
  map_Forall (fun _ h => nonneg_assets (h_assets h)) hs ->
  Forall (fun kq => 0 <= kq.2) (t_assets t) ->
  map_Forall (fun _ h => nonneg_assets (h_assets h))
    (update_by_id idC (add_collateralAvailable (collateralUsed t))
       (update_by_id idA (add_assets (t_assets t)) hs)).
Proof.
  intros Hh Ht.
  apply (map_Forall_update_by_id (fun h => nonneg_assets (h_assets h))); [|done].
  apply (map_Forall_update_by_id (fun h => nonneg_assets (h_assets h))); [done|].
  intros h Hnn. simpl. by apply nonneg_inc_all.
Qed.

Lemma find_with_status_Some transferId st s t :
  find_with_status transferId st s = Some t -> transfers s !! transferId = Some t.
Proof.
  unfold find_with_status. destruct (transfers s !! transferId); [|done].
  by destruct (bool_decide _).
Qed.

Lemma cancel_nonneg caller transferId s :
  no_negative_balance s -> nonneg_transfers s ->
  let s' := (delete_transfer caller transferId s).2 in
  no_negative_balance s' /\ nonneg_transfers s'.
Proof.
  intros [Hw Hh] Ht. unfold delete_transfer, withTransaction, cancel_transaction.
  destruct (find_with_status _ _ _) as [t|] eqn:Hf; [|done].
  apply find_with_status_Some in Hf.
  destruct (negb _); [done|]. simpl.
  split; [split|]; simpl.
  - done.
  - apply release_nonneg; [done|]. by eapply Ht.
  - unfold nonneg_transfers. simpl. by apply map_Forall_delete.
Qed.

Lemma status_nonneg caller transferId requested s :
  no_negative_balance s -> nonneg_transfers s ->
  let s' := (put_transfer_status caller transferId requested s).2 in
  no_negative_balance s' /\ nonneg_transfers s'.
Proof.
  intros [Hw Hh] Ht. unfold put_transfer_status, withTransaction.
  destruct requested; [done| |].
  - unfold sent_transaction.
    destruct (find_with_status _ _ _) as [t|] eqn:Hf; [|done].
    apply find_with_status_Some in Hf.
    destruct (negb _); [done|]. simpl.
    split; [done|]. unfold nonneg_transfers. simpl.
    apply map_Forall_insert_2; [|done]. simpl. by eapply Ht.
  - unfold received_transaction.
    destruct (find_with_status _ _ _) as [t|] eqn:Hf; [|done].
    apply find_with_status_Some in Hf.
    destruct (negb _); [done|]. simpl.
    split; [split|]; simpl.
    + done.
    + apply release_nonneg; [done|]. by eapply Ht.
    + unfold nonneg_transfers. simpl. by apply map_Forall_delete.
Qed.

Lemma send_nonneg walletId recipient req ok now redis s :
  NoDup (keys req) ->
  no_negative_balance s ->
  no_negative_balance (post_wallet_transactions walletId recipient req ok now redis s).2.
Proof.
  intros Hnd%quantities_NoDup [Hw Hh]. unfold post_wallet_transactions.
  destruct (_ <? 1)%nat; [done|].
  destruct (Z.ltb_spec (Valuation.result
              (Valuation.validateAssets req true now redis (app s))) 0) as [|Hv];
    [done|].
  apply validated_positive, quantities_nonneg in Hv.
  unfold withTransaction, send_transaction. simpl.
  destruct (find_doc _ _) as [[rid r]|] eqn:Hf; [|done].
  destruct (_ && _); [done|].
  destruct (update_if _ _ _ _) as [ws2|] eqn:Hu; [|done]. simpl.
  split; [|done]. simpl.
  eapply (map_Forall_update_if (fun w => nonneg_assets (w_assets w))); [|exact Hu|].
  - apply map_Forall_insert_2; [|done]. simpl. apply nonneg_inc_all; [|done].
    by apply (map_Forall_found (fun w => nonneg_assets (w_assets w)) _ _ _ _ Hw Hf).
  - intros w Hg Hnn. simpl. by apply nonneg_decrement.
Qed.

End NoNegativeBalance.

(** The requests of the ledger (collateral adjustment, deposit, withdrawal,
    transfer creation, cancellation, advance and confirmation, peer
    transaction) never make a quantity negative: every decrement is guarded
    by the balance it is taken from. *)
Theorem handle_keeps_balances_nonneg (r : request) (s : State) :
  well_formed r ->
  no_negative_balance s -> nonneg_transfers s ->
  no_negative_balance (handle r s).2 /\ nonneg_transfers (handle r s).2.
Proof.
  destruct r as [a w h b|a h d req now redis|a h d req now redis
                |a r0 s0 req now redis|a t|a t st|w r0 req ok now redis];
    simpl; intros Hwf Hnn Ht.
  - split; [by apply patch_nonneg|].
    unfold patch_warehouse_collateral.
    destruct (assignedToWarehouse _ _ _ _); [|done].
    destruct (b =? 0); [done|]. destruct (_ && _); [done|].
    unfold withTransaction, collateral_transaction.
    destruct (negb _); repeat (destruct (update_if _ _ _ _); [|done]); done.
  - split; [by apply deposit_nonneg|].
    unfold post_warehouse_assets.
    destruct (assignedToWarehouse _ _ _ _); [|done].
    destruct (_ <? 1)%nat; [done|]. destruct (_ <? 0); [done|].
    destruct (_ <? _); [done|].
    unfold withTransaction, deposit_transaction. simpl.
    destruct (update_if _ _ _ _); [|done]. by destruct (find_doc _ _) as [[??]|].
  - split; [by apply withdrawal_nonneg|].
    unfold delete_warehouse_assets, delete_warehouse_assets_handler.
    destruct (assignedToWarehouse _ _ _ _); [|done].
    destruct (_ <? 1)%nat; [done|]. destruct (_ <? 0); [done|].
    unfold withTransaction, withdraw_transaction. simpl.
    destruct (update_if _ _ _ _); [|done]. by destruct (find_doc _ _) as [[??]|].
  - by apply create_nonneg.
  - by apply cancel_nonneg.
  - by apply status_nonneg.
  - split; [by apply send_nonneg|].
    unfold post_wallet_transactions.
    destruct (_ <? 1)%nat; [done|]. destruct (_ <? 0); [done|].
    by destruct (withTransaction _ _).
Qed.

Corollary run_keeps_balances_nonneg (rs : list request) (s : State) :
  Forall well_formed rs ->
  no_negative_balance s -> nonneg_transfers s ->
  no_negative_balance (run rs s) /\ nonneg_transfers (run rs s).
Proof.
  intros Hwf. revert s. induction Hwf as [|r rs Hr _ IH]; intros s Hnn Ht; [done|].
  unfold run in *. simpl.
  destruct (handle_keeps_balances_nonneg r s Hr Hnn Ht). by apply IH.
Qed.

(** C3. The distribution transaction decrements the distribution wallet
    without a guard on the amount: from a balance of 1000 stelo (above the
    threshold of 500) it hands out 250000001 and leaves the wallet at
    -249999001. *)
Theorem distribution_overdraws_genesis :
  let answer := put_users_username "bob" true true Sample.s0 in
  no_negative_balance Sample.s0
  /\ fst <$> answer = Some (Success 201)
  /\ (answer ≫= fun out => wallets out.2 !! 3%N
               ≫= fun w => w_assets w !! "stelo")
     = Some (-249999001)
  /\ (forall out, answer = Some out -> ~ no_negative_balance out.2).
Proof.
  intros answer.
  assert (Hstelo : (answer ≫= fun out => wallets out.2 !! 3%N
                             ≫= fun w => w_assets w !! "stelo")
                   = Some (-249999001)) by (by vm_compute).
  split; [|split; [by vm_compute|split; [done|]]].
  - assert (Hdec : bool_decide
              (map_Forall (fun _ w => map_Forall (fun _ q => 0 <= q) (w_assets w))
                 (wallets Sample.s0)) = true
            /\ bool_decide
                 (map_Forall (fun _ h => map_Forall (fun _ q => 0 <= q) (h_assets h))
                    (warehouses Sample.s0)) = true) by (split; by vm_compute).
    destruct Hdec as [H1%bool_decide_eq_true_1 H2%bool_decide_eq_true_1].
    split; intros id d Hd key q Hq.
    + exact (H1 id d Hd key q Hq).
    + exact (H2 id d Hd key q Hq).
  - intros out Hout [Hw _]. rewrite Hout in Hstelo. simpl in Hstelo.
    apply bind_Some in Hstelo as (w & Hw3 & Hs).
    specialize (Hw _ _ Hw3 _ _ Hs). lia.
Qed.

(** * Instances on the sample data *)

Section Instances.
Import Valuation Sample.

Local Ltac positive_quantities :=
  repeat (apply Forall_cons; split; [eexists; split; [reflexivity|lia]|]);
  apply Forall_nil_2.

Lemma confirm_received_effect_witness :
  let out := put_transfer_status 100 0 received sent_state in
  out.1 = Success 200
  /\ transfers out.2 !! 0%N = None
  /\ warehouse_view 10 out.2 = Some (1000, 800, 10)
  /\ warehouse_view 11 out.2 = Some (1000, 200, 40).
Proof.
  intros out.
  destruct (confirm_received_effect 100 0 sent_state transfer0 warehouseA warehouseB)
    as (Hok & Hgone & _); [vm_compute; reflexivity..|].
  split; [exact Hok|]. split; [exact Hgone|].
  split; vm_compute; reflexivity.
Defined.

(** C1, counterexample: in the lifecycle of the specification the receiving
    warehouse A keeps a collateralAvailable of 800 after the confirmation; the
    200 locked for the transfer go to the sending warehouse B. *)
Lemma confirm_received_collateral_counterexample :
  let out := put_transfer_status 100 0 received sent_state in
  transfers sent_state !! 0%N = Some transfer0
  /\ warehouses sent_state !! 10%N = Some warehouseA
  /\ out.1 = Success 200
  /\ collateralAvailable <$> warehouses out.2 !! 10%N = Some 800
  /\ collateralAvailable <$> warehouses out.2 !! 10%N
     <> Some (collateralAvailable warehouseA + collateralUsed transfer0)
  /\ collateralAvailable <$> warehouses out.2 !! 11%N = Some 200.
Proof.
  intros out. repeat split; try (vm_compute; reflexivity).
  vm_compute. discriminate.
Qed.

Lemma validateAssets_fresh_request_witness :
  let o := validateAssets [("wood", JInt 10); ("stelo", JInt 5)] true 100 redis0 cache0 in
  result o = 200 /\ cache_after o = cache0 /\ redis_calls o = [].
Proof.
  intros o.
  destruct (validateAssets_fresh_request
              [("wood", JInt 10); ("stelo", JInt 5)] true 100 redis0 cache0)
    as (Hsum & _ & Hcache & Hcalls).
  - positive_quantities.
  - apply Forall_cons; split.
    + intros _. exists (mkPrice 20 0). split; [reflexivity|]. vm_compute. discriminate.
    + apply Forall_cons; split; [|apply Forall_nil_2].
      intros Hne. exfalso. apply Hne. reflexivity.
  - reflexivity.
  - vm_compute. discriminate.
  - split; [|split; [exact Hcache|exact Hcalls]].
    subst o. rewrite Hsum by (left; reflexivity). vm_compute. reflexivity.
Defined.

(** C5, counterexample: with the reserve asset allowed, 10 wood at 20 and 5
    stelo are valued 200, not 205: the reserve asset is not counted. *)
Lemma validateAssets_reserve_counterexample :
  let l := [("wood", JInt 10); ("stelo", JInt 5)] in
  Forall positive_quantity l
  /\ Forall (resolves_fresh (assets cache0) 100) l
  /\ face_value_sum (assets cache0) l = 205
  /\ result (validateAssets l true 100 redis0 cache0) = 200
  /\ result (validateAssets l true 100 redis0 cache0)
     <> face_value_sum (assets cache0) l.
Proof.
  intros l. split; [subst l; positive_quantities|]. split.
  - apply Forall_cons; split.
    + intros _. exists (mkPrice 20 0). split; [reflexivity|]. vm_compute. discriminate.
    + apply Forall_cons; split; [|apply Forall_nil_2].
      intros Hne. exfalso. apply Hne. reflexivity.
  - split; [vm_compute; reflexivity|]. split; [vm_compute; reflexivity|].
    vm_compute. discriminate.
Qed.


Lemma validateAssets_refresh_protocol_witness :
  let o := validateAssets [("wood", JInt 10)] false later redis0 cache0 in
  let load := validateAssets [("coal", JInt 1)] false (2 * thirtyMinutes + 1)
                {[ "coal" := 4 ]} cache0 in
  result o = 300
  /\ redis_calls o = [HMGET ["wood"]]
  /\ ("wood" ∈ hmget_fields (redis_calls o) <-> 0 < later - thirtyMinutes)
  /\ ("iron" ∉ hmget_fields (redis_calls o))
  /\ redis_calls load = [HGETALL]
  /\ assetsCheckedAt cache0 < 2 * thirtyMinutes + 1 - 2 * thirtyMinutes
  /\ (forall key, key ∉ hmget_fields (redis_calls load)).
Proof.
  intros o load. split; [vm_compute; reflexivity|]. split; [vm_compute; reflexivity|].
  assert (Hin : "wood" ∈ keys [("wood", JInt 10)]).
  { apply elem_of_cons. left. reflexivity. }
  destruct (validateAssets_refresh_protocol [("wood", JInt 10)] false later redis0
              cache0) as (Hacc & Hiff & Hrequested & _).
  destruct (validateAssets_refresh_protocol [("coal", JInt 1)] false
              (2 * thirtyMinutes + 1) {[ "coal" := 4 ]} cache0)
    as (_ & _ & Honly & Hload & _).
  assert (Hcalls : redis_calls load = [HGETALL]) by (vm_compute; reflexivity).
  assert (Haccepted : accepted_by_scan [("wood", JInt 10)] false later redis0 cache0).
  { apply Hacc. vm_compute. discriminate. }
  split; [exact (Hiff Haccepted "wood" (mkPrice 20 0) Hin eq_refl)|].
  split.
  { intros Hiron. destruct (Hrequested "iron" Hiron) as [Hl _].
    apply list_elem_of_singleton in Hl. discriminate Hl. }
  split; [exact Hcalls|]. split.
  - apply Hload. fold load. rewrite Hcalls. apply elem_of_cons. left. reflexivity.
  - intros key Hkey. destruct (Honly key Hkey) as (Hk & e & He & _).
    apply list_elem_of_singleton in Hk. subst key. discriminate He.
Defined.

(** C7, counterexample: the entry of wood is older than thirty minutes and
    wood is requested, but the request is rejected at its second entry (a
    quantity of 0) before anything is read from the price source. *)
Lemma validateAssets_stale_not_refreshed_counterexample :
  let l := [("wood", JInt 10); ("iron", JInt 0)] in
  let o := validateAssets l false later redis0 cache0 in
  "wood" ∈ keys l
  /\ assets cache0 !! "wood" = Some (mkPrice 20 0)
  /\ updatedAt (mkPrice 20 0) < later - thirtyMinutes
  /\ result o = -1
  /\ redis_calls o = []
  /\ ~ ("wood" ∈ hmget_fields (redis_calls o)
        <-> updatedAt (mkPrice 20 0) < later - thirtyMinutes).
Proof.
  intros l o.
  assert (Hstale : updatedAt (mkPrice 20 0) < later - thirtyMinutes)
    by (vm_compute; reflexivity).
  assert (Hcalls : redis_calls o = []) by (vm_compute; reflexivity).
  split; [apply elem_of_cons; left; reflexivity|].
  split; [reflexivity|]. split; [exact Hstale|].
  split; [vm_compute; reflexivity|]. split; [exact Hcalls|].
  intros [_ Hrefresh]. specialize (Hrefresh Hstale).
  rewrite Hcalls in Hrefresh. by apply elem_of_nil in Hrefresh.
Qed.

Lemma webhook_failure_aborts_witness :
  let out := post_wallet_transactions 1 "#shop" [("stelo", JInt 5)] false 100 redis0 s0 in
  out.1 = Failure 400 "W0004" /\ wallets out.2 = wallets s0.
Proof.
  apply (webhook_failure_aborts 1 "#shop" [("stelo", JInt 5)] 100 redis0 s0 2 shop).
  - simpl. lia.
  - vm_compute. discriminate.
  - vm_compute. reflexivity.
  - reflexivity.
Defined.

Lemma send_error_priority_witness :
  (post_wallet_transactions 1 "#shop" [("stelo", JInt 5)] false 100 redis0 s0).1
  = Failure 400 "W0004"
  /\ (post_wallet_transactions 1 "nobody" [("stelo", JInt 5)] false 100 redis0 s0).1
     = Failure 404 "W0003"
  /\ (post_wallet_transactions 1 "#shop" [("stelo", JInt 9000)] true 100 redis0 s0).1
     = Failure 400 "W0002".
Proof.
  destruct (send_error_priority 1 "#shop" [("stelo", JInt 5)] false 100 redis0 s0)
    as (H1 & _ & _ & H1' & _).
  destruct (send_error_priority 1 "nobody" [("stelo", JInt 5)] false 100 redis0 s0)
    as (H2 & _ & H2' & _).
  destruct (send_error_priority 1 "#shop" [("stelo", JInt 9000)] true 100 redis0 s0)
    as (H3 & H3' & _).
  split; [|split].
  - rewrite H1; [apply H1'; reflexivity | simpl; lia | vm_compute; discriminate].
  - rewrite H2; [apply H2'; reflexivity | simpl; lia | vm_compute; discriminate].
  - rewrite H3; [apply H3'; reflexivity | simpl; lia | vm_compute; discriminate].
Defined.

Lemma self_transfer_succeeds_witness :
  let out := post_wallet_transactions 1 "alice" [("wood", JInt 100)] false 100 redis0 s0 in
  balance (w_assets alice) "wood" = 0
  /\ out.1 = Success 201
  /\ exists w', wallets out.2 !! 1%N = Some w'
                /\ forall key, balance (w_assets w') key = balance (w_assets alice) key.
Proof.
  intros out. split; [reflexivity|].
  destruct (self_transfer_succeeds 1 "alice" [("wood", JInt 100)] false 100 redis0
              s0 alice) as (Hok & Hsame & _).
  - simpl. lia.
  - vm_compute. discriminate.
  - vm_compute. reflexivity.
  - left. reflexivity.
  - apply (bool_decide_eq_true_1 (map_Forall (fun _ q => 0 <= q) (w_assets alice))).
    vm_compute. reflexivity.
  - intros key Hkey. simpl in Hkey. apply list_elem_of_singleton in Hkey. subst key.
    vm_compute. repeat split; discriminate.
  - split; [exact Hok|exact Hsame].
Defined.

(** C9, counterexample: a smart wallet that sends to its own address while
    its webhook is down gets the webhook failure, although the request is
    valid and the recipient is the sender's own wallet. *)
Lemma self_transfer_webhook_counterexample :
  let out := post_wallet_transactions 2 "#shop" [("stelo", JInt 5)] false 100 redis0 s0 in
  find_doc (recipient_filter "#shop") (wallets s0) = Some (2%N, shop)
  /\ 0 <= result (validateAssets [("stelo", JInt 5)] true 100 redis0 (app s0))
  /\ out.1 = Failure 400 "W0004"
  /\ out.1 <> Success 201.
Proof.
  intros out. split; [vm_compute; reflexivity|]. split; [vm_compute; discriminate|].
  split; [vm_compute; reflexivity|]. vm_compute. discriminate.
Qed.


End Instances.

(** * Further properties of the asset valuation *)

Section ValuationMore.
Import Valuation Props More.

Variables (l : list (string * jsvalue)) (steloAllowed : bool) (now : Z)
          (redis : gmap string Z) (c : Cache).

Local Abbreviation o := (validateAssets l steloAllowed now redis c).

(** A scan that meets an entry without a well-formed quantity rejects. *)
Lemma scan_rejects_bad_quantity prices checkedAt req st :
  ~ Forall positive_quantity req ->
  (scan_assets prices checkedAt now redis steloAllowed req st).1 = false.
Proof.
  intros Hbad.
  destruct (scan_assets prices checkedAt now redis steloAllowed req st) as [b st'] eqn:Hs.
  destruct b; [|done]. exfalso. apply Hbad. by eapply scan_completed_valid.
Qed.

(** X1. A request with an entry whose quantity is not an integer, or is
    smaller than 1, is invalid whatever the prices are. *)
Theorem validateAssets_rejects_bad_quantity (key : string) (v : jsvalue) :
  (key, v) ∈ l ->
  Number_isInteger v && (1 <=? num v) = false ->
  result o = -1.
Proof.
  intros Hin Hv.
  destruct (validateAssets_calls l steloAllowed now redis c) as [(_ & Hr & _)|(Hb & _)];
    [done|].
  exfalso.
  rewrite scan_rejects_bad_quantity in Hb; [done|].
  intros Hall. rewrite Forall_forall in Hall.
  destruct (Hall _ Hin) as (z & Hz & Hle). simpl in Hz. subst v.
  simpl in Hv. apply Z.leb_gt in Hv. lia.
Qed.

End ValuationMore.

Section ScanMore.
Import Valuation Props More.

Variables (prices : gmap string PriceEntry) (checkedAt now : Z)
          (redis : gmap string Z) (steloAllowed : bool).

Let scan_from := scan_assets prices checkedAt now redis steloAllowed.
Let table := mkCache (assetValueObject redis now) now.

(** While the snapshot is not older than sixty minutes the scan makes no
    call and installs nothing. *)
Lemma scan_recent_snapshot l st b st' :
  ~ checkedAt < now - 2 * thirtyMinutes ->
  scan_from l st = (b, st') ->
  calls st' = calls st /\ installed st' = installed st.
Proof.
  intros Hrecent. subst scan_from. revert st.
  induction l as [|[key v] rest IH]; intros st H; simpl in H.
  - by inversion H.
  - destruct (Number_isInteger v && (1 <=? num v)); [|by inversion H].
    destruct (prices !! key) as [e|].
    + destruct (updatedAt e <? now - thirtyMinutes); by apply IH in H.
    + destruct (String.eqb key "stelo").
      * destruct (negb steloAllowed); [by inversion H|]. by apply IH in H.
      * destruct (Z.ltb_spec checkedAt (now - thirtyMinutes * 2)); [lia|].
        by inversion H.
Qed.

(** A symbol that the snapshot does not know, other than the reserve asset,
    stops the scan while the snapshot is not older than sixty minutes. *)
Lemma scan_unknown_symbol l st key :
  ~ checkedAt < now - 2 * thirtyMinutes ->
  key ∈ keys l -> key <> "stelo" -> prices !! key = None ->
  (scan_from l st).1 = false.
Proof.
  intros Hrecent Hin Hne Hnone. subst scan_from. revert st.
  induction l as [|[k v] rest IH]; intros st; simpl.
  - by apply elem_of_nil in Hin.
  - destruct (Number_isInteger v && (1 <=? num v)); [|done].
    unfold keys in Hin. simpl in Hin.
    destruct (decide (k = key)) as [->|Hk].
    + rewrite Hnone. destruct (String.eqb_spec key "stelo"); [done|].
      by destruct (Z.ltb_spec checkedAt (now - thirtyMinutes * 2)); [lia|].
    + apply elem_of_cons in Hin as [?|Hin]; [done|].
      destruct (prices !! k) as [e|].
      * destruct (updatedAt e <? now - thirtyMinutes); by apply IH.
      * destruct (String.eqb k "stelo").
        -- destruct (negb steloAllowed); [done|]. by apply IH.
        -- by destruct (Z.ltb_spec checkedAt (now - thirtyMinutes * 2)); [lia|].
Qed.

(** What a scan leaves installed: nothing new without a whole-table load,
    the loaded table after one (when the price source is not empty). *)
Lemma scan_installed l st b st' :
  scan_from l st = (b, st') ->
  (calls st' = calls st /\ installed st' = installed st)
  \/ (HGETALL ∈ calls st'
      /\ ((1 <= size redis)%nat -> installed st' = Some table)
      /\ (size redis = 0%nat -> installed st' = installed st /\ b = false)).
Proof.
  subst scan_from table. revert st.
  induction l as [|[key v] rest IH]; intros st H; simpl in H.
  - inversion H. by left.
  - destruct (Number_isInteger v && (1 <=? num v)); [|inversion H; by left].
    destruct (prices !! key) as [e|].
    + destruct (updatedAt e <? now - thirtyMinutes); apply IH in H; exact H.
    + destruct (String.eqb key "stelo").
      * destruct (negb steloAllowed); [inversion H; by left|]. by apply IH in H.
      * destruct (checkedAt <? now - thirtyMinutes * 2); [|inversion H; by left].
        right.
        destruct (Z.ltb_spec (Z.of_nat (size redis)) 1) as [Hempty|Hfull].
        { inversion H; subst. simpl. split; [apply elem_of_app; right; by left|].
          split; [lia|done]. }
        destruct (redis !! key).
        -- destruct (IH _ H) as [[Hc Hi]|(Hin & Hfull' & Hempty')].
           ++ rewrite Hc, Hi. simpl.
              split; [apply elem_of_app; right; by left|]. split; [done|lia].
           ++ split; [done|]. split; [done|lia].
        -- inversion H; subst. simpl.
           split; [apply elem_of_app; right; by left|]. split; [done|lia].
Qed.

End ScanMore.

Section RefreshMore.
Import Valuation Props More.

Variables (now : Z) (redis : gmap string Z) (L : list (string * jsvalue)).

Local Abbreviation answers ks := ((fun key : string => (key, redis !! key)) <$> ks).

(** The refresh loop leaves the entries of other symbols alone. *)
Lemma refresh_frame ks obj total key :
  key ∉ ks ->
  (refresh_outdated now L (answers ks) obj total).2 !! key = obj !! key.
Proof.
  revert obj total.
  induction ks as [|k rest IH]; intros obj total Hout; simpl; [done|].
  apply not_elem_of_cons in Hout as [Hne Hrest].
  destruct (redis !! k); simpl.
  - rewrite IH by done. by rewrite lookup_insert_ne.
  - by rewrite lookup_delete_ne.
Qed.

(** When the price source knows every outdated symbol, each of them gets
    its new price with the time of the call, and the valuation grows by
    price times requested quantity. *)
Lemma refresh_all_priced ks obj total :
  Forall (fun key => is_Some (redis !! key)) ks ->
  (refresh_outdated now L (answers ks) obj total).1
  = total + foldr (fun key acc => default 0 (redis !! key)
                                  * default 0 (num <$> obj_get L key) + acc) 0 ks
  /\ forall key p, key ∈ ks -> redis !! key = Some p ->
       (refresh_outdated now L (answers ks) obj total).2 !! key
       = Some (mkPrice p now).
Proof.
  intros Hall. revert obj total.
  induction Hall as [|k rest [pk Hk] _ IH]; intros obj total.
  - simpl. split; [lia|]. intros key p Hin. by apply elem_of_nil in Hin.
  - rewrite fmap_cons. cbn [refresh_outdated foldr]. rewrite Hk. cbn [default].
    destruct (IH (<[k := mkPrice pk now]> obj)
      (total + pk * default 0 (num <$> obj_get L k))) as [Hsum Hlook].
    split; [rewrite Hsum; unfold id; lia|].
    intros key p Hin Hp.
    destruct (decide (key ∈ rest)) as [Hr|Hr]; [by apply Hlook|].
    apply elem_of_cons in Hin as [->|?]; [|done].
    pose proof (refresh_frame rest (<[k := mkPrice pk now]> obj)
                  (total + pk * default 0 (num <$> obj_get L k)) k Hr) as Hf.
    simpl in Hf. rewrite Hf, lookup_insert_eq. congruence.
Qed.

(** The first outdated symbol that the price source lost is evicted and the
    valuation is invalid. *)
Lemma refresh_evicts pre key post obj total :
  Forall (fun k => is_Some (redis !! k)) pre ->
  redis !! key = None ->
  (refresh_outdated now L (answers (pre ++ key :: post)) obj total).1 = -1
  /\ (refresh_outdated now L (answers (pre ++ key :: post)) obj total).2 !! key = None.
Proof.
  intros Hpre Hkey. revert obj total.
  induction Hpre as [|k rest [pk Hk] _ IH]; intros obj total.
  - simpl. rewrite Hkey. simpl. split; [done|]. apply lookup_delete_eq.
  - rewrite <- app_comm_cons, fmap_cons. cbn [refresh_outdated]. rewrite Hk. apply IH.
Qed.

End RefreshMore.

Section ValuationCallMore.
Import Valuation Props More.

Variables (l : list (string * jsvalue)) (steloAllowed : bool) (now : Z)
          (redis : gmap string Z) (c : Cache).

Local Abbreviation o := (validateAssets l steloAllowed now redis c).
Local Abbreviation scanned :=
  (scan_assets (assets c) (assetsCheckedAt c) now redis steloAllowed l
     (mkScan 0 [] None [])).

(** The parts of the outcome, by what the scan and the refresh did. *)
Lemma validateAssets_outcome :
  (scanned.1 = false
   /\ result o = -1
   /\ cache_after o = settings_after scanned.2 (assets c) (assetsCheckedAt c))
  \/ (scanned.1 = true
      /\ outdatedAssets scanned.2 = stale_requested (assets c) now l
      /\ result o
         = (refresh_outdated now l
              ((fun key => (key, redis !! key)) <$> stale_requested (assets c) now l)
              (assets c) (totalCollateral scanned.2)).1
      /\ cache_after o
         = settings_after scanned.2
             (refresh_outdated now l
                ((fun key => (key, redis !! key)) <$> stale_requested (assets c) now l)
                (assets c) (totalCollateral scanned.2)).2
             (assetsCheckedAt c)).
Proof.
  pose proof (scan_outdated_completed (assets c) (assetsCheckedAt c) now redis
                steloAllowed l (mkScan 0 [] None []) scanned.2) as Hout.
  unfold validateAssets.
  destruct (scan_assets _ _ _ _ _ _ _) as [b st]. simpl in *.
  destruct b; simpl; [right|left; done].
  specialize (Hout eq_refl). simpl in Hout. rewrite <- Hout.
  split; [done|]. split; [done|].
  destruct (outdatedAssets st) as [|k ks] eqn:Hks; [done|].
  cbn [length Nat.leb].
  match goal with
  | |- context [refresh_outdated ?a ?b ?d ?e ?f] =>
    by destruct (refresh_outdated a b d e f)
  end.
Qed.

Lemma validateAssets_no_load :
  HGETALL ∉ redis_calls o -> installed scanned.2 = None.
Proof.
  intros Hno.
  pose proof (scan_installed (assets c) (assetsCheckedAt c) now redis steloAllowed
                l (mkScan 0 [] None []) scanned.1 scanned.2) as Hi.
  destruct (validateAssets_calls l steloAllowed now redis c)
    as [(_ & _ & Hc)|(_ & Hc)]; rewrite Hc in Hno;
    destruct (scan_assets _ _ _ _ _ _ _) as [b st]; simpl in *;
    (destruct (Hi eq_refl) as [[_ ?]|(Hin & _)]; [done|]);
    exfalso; apply Hno; [done|]. apply elem_of_app. by left.
Qed.

Lemma validateAssets_load :
  HGETALL ∈ redis_calls o -> (1 <= size redis)%nat ->
  installed scanned.2 = Some (mkCache (assetValueObject redis now) now).
Proof.
  intros Hin Hfull.
  pose proof (scan_installed (assets c) (assetsCheckedAt c) now redis steloAllowed
                l (mkScan 0 [] None []) scanned.1 scanned.2) as Hi.
  assert (Hin' : HGETALL ∈ calls scanned.2).
  { destruct (validateAssets_calls l steloAllowed now redis c)
      as [(_ & _ & Hc)|(_ & Hc)]; rewrite Hc in Hin; [done|].
    apply elem_of_app in Hin as [?|Hin]; [done|].
    destruct (decide _); [by apply elem_of_nil in Hin|].
    by apply list_elem_of_singleton in Hin. }
  destruct (scan_assets _ _ _ _ _ _ _) as [b st]; simpl in *.
  destruct (Hi eq_refl) as [[Hc _]|(_ & Hfull' & _)]; [|by apply Hfull'].
  rewrite Hc in Hin'. by apply elem_of_nil in Hin'.
Qed.

(** X2. While the snapshot is not older than sixty minutes, a request that
    names a symbol which the snapshot does not know (other than the reserve
    asset, and other than the names that every object inherits, which the
    code's [in] finds in any snapshot) is invalid, and the call neither
    reads the price source nor changes the cache. *)
Theorem validateAssets_unknown_symbol (key : string) :
  plain_lookup (assets c) key ->
  ~ assetsCheckedAt c < now - 2 * thirtyMinutes ->
  key ∈ keys l -> key <> "stelo" -> assets c !! key = None ->
  result o = -1 /\ redis_calls o = [] /\ cache_after o = c.
Proof.
  intros _ Hrecent Hin Hne Hnone.
  pose proof (scan_unknown_symbol (assets c) (assetsCheckedAt c) now redis
                steloAllowed l (mkScan 0 [] None []) key Hrecent Hin Hne Hnone) as Hrej.
  pose proof (scan_recent_snapshot (assets c) (assetsCheckedAt c) now redis
                steloAllowed l (mkScan 0 [] None []) scanned.1 scanned.2 Hrecent) as Hq.
  destruct validateAssets_outcome as [(_ & Hr & Hc)|(Hb & _)]; [|congruence].
  destruct (validateAssets_calls l steloAllowed now redis c)
    as [(_ & _ & Hcalls)|(Hb & _)]; [|congruence].
  rewrite Hr, Hc, Hcalls.
  destruct (scan_assets _ _ _ _ _ _ _) as [b st]; simpl in *.
  destruct (Hq eq_refl) as [-> Hi]. unfold settings_after. rewrite Hi. simpl.
  by destruct c.
Qed.

(** X3. After a call that loaded the whole table from a price source that
    is not empty, the application settings hold exactly that table, every
    entry stamped with the time of the call, and the time of the call as the
    snapshot timestamp. *)
Theorem validateAssets_whole_table_load :
  HGETALL ∈ redis_calls o -> (1 <= size redis)%nat ->
  cache_after o = mkCache (assetValueObject redis now) now
  /\ forall key, assets (cache_after o) !! key
                 = (fun p => mkPrice p now) <$> redis !! key.
Proof.
  intros Hin Hfull.
  assert (Hc : cache_after o = mkCache (assetValueObject redis now) now).
  { pose proof (validateAssets_load Hin Hfull) as Hi.
    destruct validateAssets_outcome as [(_ & _ & ->)|(_ & _ & _ & ->)];
      unfold settings_after; by rewrite Hi. }
  split; [done|]. intros key. rewrite Hc. simpl. unfold assetValueObject.
  by rewrite lookup_fmap.
Qed.

(** X4. A call that makes no whole-table load leaves the snapshot timestamp
    and the entry of every symbol that the request does not name as they
    were. *)
Theorem validateAssets_frame (key : string) :
  HGETALL ∉ redis_calls o -> key ∉ keys l ->
  assetsCheckedAt (cache_after o) = assetsCheckedAt c
  /\ assets (cache_after o) !! key = assets c !! key.
Proof.
  intros Hno Hout.
  pose proof (validateAssets_no_load Hno) as Hi.
  destruct validateAssets_outcome as [(_ & _ & ->)|(_ & _ & _ & ->)];
    unfold settings_after; rewrite Hi; simpl; [done|].
  split; [done|]. apply refresh_frame.
  intros [Hk _]%elem_of_stale_requested. done.
Qed.

(** What one accepted call leaves in the cache for a stale requested symbol
    that the price source still knows. *)
Lemma validateAssets_refreshed_entry (key : string) (p : Z) :
  accepted_by_scan l steloAllowed now redis c ->
  Forall (fun k => is_Some (redis !! k)) (stale_requested (assets c) now l) ->
  key ∈ stale_requested (assets c) now l ->
  redis !! key = Some p ->
  assets (cache_after o) !! key = Some (mkPrice p now).
Proof.
  intros Hacc Hall Hin Hp. unfold accepted_by_scan in Hacc.
  pose proof (scan_installed (assets c) (assetsCheckedAt c) now redis steloAllowed
                l (mkScan 0 [] None []) scanned.1 scanned.2) as Hi.
  destruct validateAssets_outcome as [(Hb & _)|(_ & _ & _ & ->)]; [congruence|].
  unfold settings_after.
  destruct (scan_assets _ _ _ _ _ _ _) as [b st]; simpl in *. subst b.
  destruct (Hi eq_refl) as [[_ ->]|(_ & Hfull & Hempty)]; simpl.
  - by apply refresh_all_priced.
  - destruct (size redis) as [|n] eqn:Hn.
    + by destruct Hempty.
    + rewrite Hfull by lia. simpl. unfold assetValueObject.
      by rewrite lookup_fmap, Hp.
Qed.

(** X5. When a call accepts the request and the price source knows every
    stale requested symbol, each of these symbols ends in the cache with the
    price of the source and the time of the call. *)
Theorem validateAssets_refresh_writes_through (key : string) (p : Z) :
  accepted_by_scan l steloAllowed now redis c ->
  Forall (fun k => is_Some (redis !! k)) (stale_requested (assets c) now l) ->
  key ∈ keys l -> is_stale (assets c) now key = true ->
  redis !! key = Some p ->
  assets (cache_after o) !! key = Some (mkPrice p now).
Proof.
  intros Hacc Hall Hk Hs Hp. apply validateAssets_refreshed_entry; try done.
  by apply elem_of_stale_requested.
Qed.

(** X6. When a call accepts the request but the price source no longer
    knows a stale requested symbol, the valuation is invalid; the first such
    symbol is removed from the snapshot (unless a whole-table load replaced
    the snapshot in the same call). *)
Theorem validateAssets_evicts_lost_symbol (key : string) :
  accepted_by_scan l steloAllowed now redis c ->
  key ∈ keys l -> is_stale (assets c) now key = true -> redis !! key = None ->
  result o = -1
  /\ exists lost, lost ∈ keys l /\ is_stale (assets c) now lost = true
                  /\ redis !! lost = None
                  /\ (HGETALL ∉ redis_calls o -> assets (cache_after o) !! lost = None).
Proof.
  intros Hacc Hk Hs Hlost. unfold accepted_by_scan in Hacc.
  assert (Hin : key ∈ stale_requested (assets c) now l)
    by by apply elem_of_stale_requested.
  assert (Hsplit : exists pre lost post,
             stale_requested (assets c) now l = pre ++ lost :: post
             /\ Forall (fun k => is_Some (redis !! k)) pre /\ redis !! lost = None).
  { clear Hk Hs. induction (stale_requested (assets c) now l) as [|k ks IH].
    - by apply elem_of_nil in Hin.
    - destruct (redis !! k) as [pk|] eqn:Hpk.
      + apply elem_of_cons in Hin as [->|Hin]; [congruence|].
        destruct (IH Hin) as (pre & lost & post & -> & Hpre & Hl).
        exists (k :: pre), lost, post. split; [done|]. split; [|done].
        constructor; [by exists pk|done].
      + exists [], k, ks. by repeat split. }
  destruct Hsplit as (pre & lost & post & Hsr & Hpre & Hl).
  assert (Hlin : lost ∈ stale_requested (assets c) now l).
  { rewrite Hsr. apply elem_of_app. right. by left. }
  apply elem_of_stale_requested in Hlin as [Hlk Hls].
  destruct validateAssets_outcome as [(Hb & _)|(_ & _ & Hr & Hc)]; [congruence|].
  rewrite Hsr in Hr, Hc.
  destruct (refresh_evicts now redis l pre lost post (assets c)
              (totalCollateral scanned.2) Hpre Hl) as [H1 H2].
  split; [by rewrite Hr|]. exists lost. repeat split; try done.
  intros Hno. rewrite Hc. unfold settings_after.
  by rewrite (validateAssets_no_load Hno).
Qed.

End ValuationCallMore.

Section ValuationFormula.
Import Valuation Props More.

Variables (prices : gmap string PriceEntry) (checkedAt now : Z)
          (redis : gmap string Z) (steloAllowed : bool).

(** What the scan adds up: the entries whose symbol has no stale snapshot
    entry, each at the price used for it. *)
Lemma scan_total l st st' :
  scan_assets prices checkedAt now redis steloAllowed l st = (true, st') ->
  totalCollateral st'
  = totalCollateral st
    + foldr (fun kv acc =>
               (if is_stale prices now kv.1 then 0
                else price_used prices now redis kv.1 * num kv.2) + acc) 0 l.
Proof.
  revert st. induction l as [|[key v] rest IH]; intros st H; simpl in H.
  - inversion H. simpl. lia.
  - cbn [foldr fst snd]. unfold is_stale at 1, price_used at 1.
    destruct (Number_isInteger v && (1 <=? num v)); [|discriminate].
    destruct (prices !! key) as [e|].
    + destruct (updatedAt e <? now - thirtyMinutes);
        apply IH in H; rewrite H; simpl; lia.
    + destruct (String.eqb key "stelo").
      * destruct (negb steloAllowed); [discriminate|].
        apply IH in H. rewrite H. lia.
      * destruct (checkedAt <? now - thirtyMinutes * 2); [|discriminate].
        destruct (Z.of_nat (size redis) <? 1); [discriminate|].
        destruct (redis !! key) as [price|]; [|discriminate].
        apply IH in H. rewrite H. simpl. lia.
Qed.

Lemma obj_get_NoDup {A : Type} (L : list (string * A)) key v :
  NoDup (keys L) -> (key, v) ∈ L -> obj_get L key = Some v.
Proof.
  unfold keys. induction L as [|[k a] rest IH]; simpl; intros Hnd Hin.
  - by apply elem_of_nil in Hin.
  - apply NoDup_cons in Hnd as [Hk Hnd].
    apply elem_of_cons in Hin as [Heq|Hin].
    + inversion Heq; subst. by rewrite String.eqb_refl.
    + destruct (String.eqb_spec k key) as [->|]; [|by apply IH].
      exfalso. apply Hk. apply list_elem_of_fmap. by exists (key, v).
Qed.

(** What the refresh adds: the entries whose symbol has a stale snapshot
    entry, at the price of the source. *)
Lemma stale_total (L l : list (string * jsvalue)) :
  (forall key v, (key, v) ∈ l -> obj_get L key = Some v) ->
  foldr (fun key acc => default 0 (redis !! key)
                        * default 0 (num <$> obj_get L key) + acc) 0
        (stale_requested prices now l)
  = foldr (fun kv acc =>
             (if is_stale prices now kv.1
              then price_used prices now redis kv.1 * num kv.2 else 0) + acc) 0 l.
Proof.
  induction l as [|[key v] rest IH]; intros Hget; [done|].
  unfold stale_requested, keys in *. rewrite fmap_cons, filter_cons.
  cbn [foldr fst snd].
  assert (Hrest : forall k a, (k, a) ∈ rest -> obj_get L k = Some a).
  { intros k a Hin. apply Hget. apply elem_of_cons. by right. }
  specialize (IH Hrest).
  destruct (is_stale prices now key) eqn:Hs.
  - rewrite decide_True by done. cbn [foldr]. rewrite IH.
    rewrite (Hget key v) by (apply elem_of_cons; by left). simpl.
    unfold price_used. unfold is_stale in Hs.
    destruct (prices !! key) as [e|]; [|done]. rewrite Hs. lia.
  - rewrite decide_False by (by intros ?). rewrite IH. lia.
Qed.

Lemma valuation_sum_split l :
  valuation_sum prices now redis l
  = foldr (fun kv acc =>
             (if is_stale prices now kv.1 then 0
              else price_used prices now redis kv.1 * num kv.2) + acc) 0 l
    + foldr (fun kv acc =>
               (if is_stale prices now kv.1
                then price_used prices now redis kv.1 * num kv.2 else 0) + acc) 0 l.
Proof.
  unfold valuation_sum. induction l as [|[key v] rest IH]; [done|].
  cbn [foldr fst snd]. rewrite IH. destruct (is_stale prices now key); lia.
Qed.

End ValuationFormula.

Section ValuationResult.
Import Valuation Props More.

(** X7. A call that accepts a request naming every symbol once (none of
    them a name that every object inherits), while the price source knows
    every stale requested symbol, returns the sum over the entries of price
    times quantity, provided this total stays within the safe integers (so
    that the doubles of the code add and multiply exactly); the price of a
    symbol is the snapshot value of a fresh entry, the price source's value
    for a stale or newly loaded symbol, and nothing for the unpriced reserve
    asset. *)
Theorem validateAssets_result
    (l : list (string * jsvalue)) (steloAllowed : bool) (now : Z)
    (redis : gmap string Z) (c : Cache) :
  NoDup (keys l) ->
  Forall (plain_lookup (assets c)) (keys l) ->
  exact_total (price_used (assets c) now redis) l ->
  accepted_by_scan l steloAllowed now redis c ->
  Forall (fun k => is_Some (redis !! k)) (stale_requested (assets c) now l) ->
  result (validateAssets l steloAllowed now redis c)
  = valuation_sum (assets c) now redis l.
Proof.
  intros Hnd _ _ Hacc Hall. unfold accepted_by_scan in Hacc.
  pose proof (scan_total (assets c) (assetsCheckedAt c) now redis steloAllowed l
                (mkScan 0 [] None [])) as Htot.
  destruct (validateAssets_outcome l steloAllowed now redis c)
    as [(Hb & _)|(_ & _ & -> & _)]; [congruence|].
  destruct (scan_assets _ _ _ _ _ _ _) as [b st]; simpl in *. subst b.
  rewrite (Htot st eq_refl). simpl.
  destruct (refresh_all_priced now redis l _ (assets c)
              (0 + foldr (fun kv acc =>
                 (if is_stale (assets c) now kv.1 then 0
                  else price_used (assets c) now redis kv.1 * num kv.2) + acc) 0 l)
              Hall) as [-> _].
  rewrite (stale_total (assets c) now redis l l)
    by (intros key v Hin; by apply obj_get_NoDup).
  rewrite valuation_sum_split. lia.
Qed.

(** X8. A symbol that one call refreshed is not read from the price source
    again by any call made up to thirty minutes later, whatever that call
    requests. *)
Theorem validateAssets_no_second_refresh
    (l : list (string * jsvalue)) (steloAllowed : bool) (now : Z)
    (redis : gmap string Z) (c : Cache) (key : string)
    (l2 : list (string * jsvalue)) (steloAllowed2 : bool) (now2 : Z)
    (redis2 : gmap string Z) :
  accepted_by_scan l steloAllowed now redis c ->
  Forall (fun k => is_Some (redis !! k)) (stale_requested (assets c) now l) ->
  key ∈ keys l -> is_stale (assets c) now key = true ->
  now2 - thirtyMinutes <= now ->
  let c1 := cache_after (validateAssets l steloAllowed now redis c) in
  key ∈ hmget_fields (redis_calls (validateAssets l steloAllowed now redis c))
  /\ key ∉ hmget_fields (redis_calls (validateAssets l2 steloAllowed2 now2 redis2 c1)).
Proof.
  intros Hacc Hall Hk Hs Hsoon c1.
  assert (Hin : key ∈ stale_requested (assets c) now l)
    by by apply elem_of_stale_requested.
  split.
  - rewrite validateAssets_hmget. unfold accepted_by_scan in Hacc. by rewrite Hacc.
  - rewrite Forall_forall in Hall. destruct (Hall _ Hin) as [p Hp].
    pose proof (validateAssets_refreshed_entry l steloAllowed now redis c key p
                  Hacc ltac:(by apply Forall_forall) Hin Hp) as Hentry.
    rewrite validateAssets_hmget.
    destruct (scan_assets _ _ _ _ _ _ _).1; [|by intros ?%elem_of_nil].
    intros [_ Hstale]%elem_of_stale_requested.
    subst c1. rewrite (is_stale_Some _ _ _ _ Hentry) in Hstale. simpl in Hstale.
    apply Z.ltb_lt in Hstale. lia.
Qed.

(** X9. For thirty minutes after the start of the application, a request of
    well-formed quantities of symbols loaded at the start (the reserve asset
    being unpriced and either allowed or not requested) is valued at the
    prices loaded at the start (the total staying within the safe integers,
    so that the doubles of the code add and multiply exactly), without any
    call to the price source and without any change of the cache, whatever
    the price source holds by then. *)
Theorem app_start_serves_loaded_prices
    (redis0 : gmap string Z) (t0 : Z) (c : Cache)
    (l : list (string * jsvalue)) (steloAllowed : bool) (now : Z)
    (redis : gmap string Z) :
  app_start redis0 t0 = Some c ->
  redis0 !! "stelo" = None ->
  Forall positive_quantity l ->
  Forall (fun kv => kv.1 = "stelo" \/ is_Some (redis0 !! kv.1)) l ->
  steloAllowed = true \/ "stelo" ∉ keys l ->
  now - thirtyMinutes <= t0 ->
  exact_total (fun key => default 0 (redis0 !! key)) l ->
  validateAssets l steloAllowed now redis c
  = mkOutcome
      (foldr (fun kv acc => default 0 (redis0 !! kv.1) * num kv.2 + acc) 0 l)
      c [].
Proof.
  unfold app_start. intros Hstart Hstelo Hq Hknown Hallowed Hsoon _.
  destruct (Z.of_nat (size redis0) <? 1); [done|]. inversion Hstart as [Hc].
  assert (Hunpriced : assetValueObject redis0 t0 !! "stelo" = None).
  { unfold assetValueObject. by rewrite lookup_fmap, Hstelo. }
  assert (Hfresh : Forall (resolves_fresh (assetValueObject redis0 t0) now) l).
  { eapply Forall_impl; [exact Hknown|]. intros [k v] [Hs|[p Hp]] Hne; simpl in *.
    - done.
    - exists (mkPrice p t0). unfold assetValueObject. rewrite lookup_fmap, Hp.
      split; [done|]. simpl. lia. }
  unfold validateAssets. simpl.
  rewrite (scan_fresh_accepts _ t0 now redis Hunpriced) by done.
  simpl. unfold settings_after. simpl. f_equal.
  clear. induction l as [|[k v] rest IH]; [done|].
  cbn [collateral_value foldr fst snd] in *.
  unfold collateral_value in IH. rewrite <- IH.
  unfold priced_value, assetValueObject. simpl. rewrite lookup_fmap.
  destruct (redis0 !! k); simpl; lia.
Qed.

End ValuationResult.

(** * Further properties of the warehouse transfers *)

Section TransfersMore.
Import Props.

Lemma update_if_None {A : Type} id (p : A -> bool) u (c : gmap N A) :
  update_if id p u c = None ->
  c !! id = None \/ exists d, c !! id = Some d /\ p d = false.
Proof.
  unfold update_if. destruct (c !! id) as [d|]; [|by left].
  destruct (p d) eqn:Hp; [done|]. right. by exists d.
Qed.

(** A guarded decrement followed by the increment of the same quantities
    gives the document back. *)
Lemma inc_all_negated_cancel (upd : list (string * Z)) (a : gmap string Z) :
  gte_all upd a = true -> inc_all upd (inc_all (negated upd) a) = a.
Proof.
  intros Hg. apply map_eq. intros key.
  destruct (decide (key ∈ upd.*1)) as [Hin|Hout].
  - rewrite lookup_inc_all_named by done.
    rewrite balance_inc_all, delta_negated.
    apply list_elem_of_fmap in Hin as ([k q] & -> & Hin).
    destruct (gte_all_lookup _ _ _ _ Hg Hin) as (b & Hb & _). simpl.
    rewrite Hb. unfold balance. rewrite Hb. simpl. f_equal. lia.
  - rewrite lookup_inc_all_None by done.
    rewrite lookup_inc_all_None; [done|].
    unfold negated. by rewrite <- list_fmap_compose.
Qed.

(** The shape of a state after a transfer was created. *)
Lemma post_transfers_created caller receiving sending req now redis s :
  (post_transfers caller receiving sending req now redis s).1 = Success 201 ->
  let needed :=
    Valuation.result (Valuation.validateAssets req false now redis (app s)) in
  let upd := quantities req in
  exists hr hs,
    assignedToWarehouse false caller receiving (warehouses s) = Some hr
    /\ 0 < needed <= collateralAvailable hr
    /\ <[receiving := with_collateralAvailable (collateralAvailable hr + - needed) hr]>
         (warehouses s) !! sending = Some hs
    /\ gte_all upd (h_assets hs) = true
    /\ (post_transfers caller receiving sending req now redis s).2
       = with_transfers
           (<[fresh (dom (transfers s)) :=
                mkTransfer pending needed receiving sending upd]> (transfers s))
           (with_warehouses
              (<[sending := with_h_assets (inc_all (negated upd) (h_assets hs)) hs]>
                 (<[receiving := with_collateralAvailable
                                   (collateralAvailable hr + - needed) hr]>
                    (warehouses s)))
              (with_app (Valuation.cache_after
                           (Valuation.validateAssets req false now redis (app s))) s)).
Proof.
  unfold post_transfers.
  destruct (_ <? 1)%nat; [done|].
  destruct (Z.ltb_spec (Valuation.result
              (Valuation.validateAssets req false now redis (app s))) 0) as [|Hv];
    [done|].
  simpl. destruct (assignedToWarehouse _ _ _ _) as [hr|] eqn:Ha; [|done].
  destruct (_ <? _); [done|].
  unfold withTransaction, create_transaction. simpl.
  destruct (update_if receiving _ _ _) as [hs1|] eqn:Hu1; [|done].
  destruct (update_if sending _ _ _) as [hs2|] eqn:Hu2; [|done]. simpl.
  intros _.
  apply update_if_Some in Hu1 as (d & Hd & Hp & ->).
  apply update_if_Some in Hu2 as (hs & Hhs & Hg & ->).
  apply assignedToWarehouse_Some in Ha as Hr. rewrite Hr in Hd. inversion Hd; subst d.
  apply andb_prop in Hp as [Hle%Z.leb_le Hnz%negb_true_iff%Z.eqb_neq].
  exists hr, hs. repeat split; try done. lia.
Qed.

(** X10. A successful creation of a transfer locks the valuation (which is
    positive) from the collateralAvailable of the receiving warehouse, takes
    the requested quantities out of the inventory of the sending warehouse,
    changes nothing else in any warehouse or wallet, and records a new
    pending transfer with that collateral and those quantities under an id
    that was not in use. *)
Theorem post_transfers_effect
    (caller receiving sending : N) (req : list (string * jsvalue)) (now : Z)
    (redis : gmap string Z) (s : State) :
  let out := post_transfers caller receiving sending req now redis s in
  let needed :=
    Valuation.result (Valuation.validateAssets req false now redis (app s)) in
  out.1 = Success 201 ->
  0 < needed
  /\ wallets out.2 = wallets s
  /\ (forall id h, warehouses s !! id = Some h ->
        exists h', warehouses out.2 !! id = Some h'
          /\ ownerId h' = ownerId h /\ workers h' = workers h
          /\ collateral h' = collateral h
          /\ collateralAvailable h'
             = collateralAvailable h - (if decide (id = receiving) then needed else 0)
          /\ forall key,
               balance (h_assets h') key
               = balance (h_assets h) key
                 - (if decide (id = sending) then delta (quantities req) key else 0))
  /\ (exists transferId,
        transfers s !! transferId = None
        /\ transfers out.2
           = <[transferId := mkTransfer pending needed receiving sending
                               (quantities req)]> (transfers s)).
Proof.
  intros out needed Hok. subst out needed.
  destruct (post_transfers_created _ _ _ _ _ _ _ Hok)
    as (hr & hs & Ha & Hpos & Hs & Hg & ->).
  apply assignedToWarehouse_Some in Ha as Hr. simpl.
  split; [lia|]. split; [done|]. split.
  - intros id h Hh.
    assert (Hfin : forall h' : Warehouse,
      ownerId h' = ownerId h -> workers h' = workers h ->
      collateral h' = collateral h ->
      collateralAvailable h'
        = collateralAvailable h
          - (if decide (id = receiving)
             then Valuation.result
                    (Valuation.validateAssets req false now redis (app s)) else 0) ->
      (forall key, balance (h_assets h') key
                   = balance (h_assets h) key
                     - (if decide (id = sending)
                        then delta (quantities req) key else 0)) ->
      forall W : gmap N Warehouse, W !! id = Some h' ->
      exists h'', W !! id = Some h''
        /\ ownerId h'' = ownerId h /\ workers h'' = workers h
        /\ collateral h'' = collateral h
        /\ collateralAvailable h''
           = collateralAvailable h
             - (if decide (id = receiving)
                then Valuation.result
                       (Valuation.validateAssets req false now redis (app s)) else 0)
        /\ forall key, balance (h_assets h'') key
                       = balance (h_assets h) key
                         - (if decide (id = sending)
                            then delta (quantities req) key else 0)).
    { intros h' ? ? ? ? ? W HW. exists h'. by repeat split. }
    destruct (decide (id = sending)) as [->|Hns].
    + destruct (decide (sending = receiving)) as [->|Hnr].
      * rewrite lookup_insert_eq in Hs. inversion Hs; subst hs.
        rewrite Hr in Hh. inversion Hh; subst h.
        eapply Hfin; [..|apply lookup_insert_eq]; simpl;
          try done; try lia; intros key; rewrite ?balance_inc_all, ?delta_negated; lia.
      * rewrite lookup_insert_ne in Hs by done. rewrite Hs in Hh.
        inversion Hh; subst h.
        eapply Hfin; [..|apply lookup_insert_eq]; simpl;
          try done; try lia; intros key; rewrite ?balance_inc_all, ?delta_negated; lia.
    + destruct (decide (id = receiving)) as [->|Hnr].
      * rewrite Hr in Hh. inversion Hh; subst h.
        eapply Hfin; [..|rewrite lookup_insert_ne by done; apply lookup_insert_eq];
          simpl; try done; try lia; intros key; rewrite ?balance_inc_all, ?delta_negated; lia.
      * eapply Hfin; [..|rewrite !lookup_insert_ne by done; exact Hh];
          try done; try lia; intros key; rewrite ?balance_inc_all, ?delta_negated; lia.
  - exists (fresh (dom (transfers s))). split; [|done].
    apply not_elem_of_dom. apply is_fresh.
Qed.

(** X11. A creation that does not answer 201 leaves every wallet, warehouse,
    warehouse account and transfer as it was. *)
Theorem post_transfers_failure
    (caller receiving sending : N) (req : list (string * jsvalue)) (now : Z)
    (redis : gmap string Z) (s : State) :
  let out := post_transfers caller receiving sending req now redis s in
  out.1 <> Success 201 ->
  wallets out.2 = wallets s /\ warehouses out.2 = warehouses s
  /\ warehouseAccounts out.2 = warehouseAccounts s /\ transfers out.2 = transfers s.
Proof.
  intros out. subst out. unfold post_transfers.
  destruct (_ <? 1)%nat; [done|].
  destruct (_ <? 0); [done|].
  simpl. destruct (assignedToWarehouse _ _ _ _) as [hr|]; [|done].
  destruct (_ <? _); [done|].
  unfold withTransaction, create_transaction. simpl.
  destruct (update_if receiving _ _ _) as [hs1|]; [|done].
  destruct (update_if sending _ _ _) as [hs2|]; [|done]. simpl. done.
Qed.

(** X12. Cancelling a pending transfer, by a caller assigned to its receiving
    or its sending warehouse, deletes the record, gives the assets back to the
    inventory of the sending warehouse and the locked collateral back to the
    collateralAvailable of the receiving warehouse, and changes nothing else. *)
Theorem delete_transfer_effect
    (caller transferId : N) (s : State) (t : Transfer) :
  transfers s !! transferId = Some t ->
  status t = pending ->
  requester_assigned caller [receivingWarehouse t; sendingWarehouse t] s = true ->
  let out := delete_transfer caller transferId s in
  out.1 = Success 200
  /\ transfers out.2 = delete transferId (transfers s)
  /\ wallets out.2 = wallets s
  /\ (forall id h, warehouses s !! id = Some h ->
        exists h', warehouses out.2 !! id = Some h'
          /\ collateral h' = collateral h
          /\ collateralAvailable h'
             = collateralAvailable h
               + (if decide (id = receivingWarehouse t) then collateralUsed t else 0)
          /\ forall key,
               balance (h_assets h') key
               = balance (h_assets h) key
                 + (if decide (id = sendingWarehouse t)
                    then delta (t_assets t) key else 0)).
Proof.
  intros Ht Hst Hreq out. subst out.
  unfold delete_transfer, withTransaction, cancel_transaction, find_with_status.
  rewrite Ht, Hst. rewrite bool_decide_eq_true_2 by done. rewrite Hreq. simpl.
  repeat split.
  intros id h Hh. rewrite !update_by_id_lookup.
  destruct t as [st used r sd ta]. simpl in *.
  repeat case_decide; subst; try congruence; rewrite ?Hh; simpl;
    (eexists; split; [reflexivity|]); simpl; repeat split; try lia;
    intros key; rewrite ?balance_inc_all; lia.
Qed.

(** X13. Creating a transfer and then cancelling it restores every warehouse
    and the collection of transfers exactly. *)
Theorem create_then_cancel
    (caller receiving sending : N) (req : list (string * jsvalue)) (now : Z)
    (redis : gmap string Z) (s : State) (canceller : N) :
  let created := post_transfers caller receiving sending req now redis s in
  let transferId := fresh (dom (transfers s)) in
  created.1 = Success 201 ->
  requester_assigned canceller [receiving; sending] s = true ->
  let out := delete_transfer canceller transferId created.2 in
  out.1 = Success 200
  /\ warehouses out.2 = warehouses s
  /\ transfers out.2 = transfers s
  /\ wallets out.2 = wallets s.
Proof.
  intros created transferId Hok Hreq out. subst created out transferId.
  destruct (post_transfers_created _ _ _ _ _ _ _ Hok)
    as (hr & hs & Ha & Hpos & Hs & Hg & ->).
  apply assignedToWarehouse_Some in Ha as Hr.
  unfold delete_transfer, withTransaction, cancel_transaction, find_with_status.
  simpl. rewrite lookup_insert_eq. simpl.
  unfold requester_assigned in *. simpl in *. rewrite Hreq. simpl.
  split; [done|]. split; [|split; [|done]].
  - apply map_eq. intros id. rewrite !update_by_id_lookup.
    destruct (decide (sending = receiving)) as [->|Hne].
    + rewrite lookup_insert_eq in Hs. inversion Hs; subst hs. simpl in *.
      destruct (decide (receiving = id)) as [<-|Hid].
      * rewrite lookup_insert_eq. simpl. rewrite Hr. f_equal.
        unfold add_collateralAvailable, add_assets. simpl.
        rewrite inc_all_negated_cancel by done. destruct hr.
        unfold with_collateralAvailable, with_h_assets. simpl. f_equal. lia.
      * by rewrite !lookup_insert_ne.
    + rewrite lookup_insert_ne in Hs by done.
      destruct (decide (receiving = id)) as [<-|Hid].
      * rewrite lookup_insert_ne by done.
        rewrite lookup_insert_eq. simpl. rewrite Hr. f_equal.
        unfold add_collateralAvailable, with_collateralAvailable.
        destruct hr. simpl. f_equal. lia.
      * destruct (decide (sending = id)) as [<-|Hid2].
        -- rewrite lookup_insert_eq. simpl. rewrite Hs. f_equal.
           unfold add_assets. simpl.
           rewrite inc_all_negated_cancel by done. by destruct hs.
        -- by rewrite !lookup_insert_ne.
  - rewrite delete_insert_eq. apply delete_id.
    apply not_elem_of_dom. apply is_fresh.
Qed.

End TransfersMore.

Section TransferGuards.
Import Props.

Lemma transfer_response_not_found ok :
  transfer_response (mkTransferFlags false true) ok = Failure 404 "T0001".
Proof. done. Qed.

(** X14. A successful advance to sent only changes the status of the transfer
    (which was pending, the caller being assigned to the sending warehouse);
    afterwards every further advance to sent and every cancellation of that
    transfer, by anyone, answers 404 T0001 and changes nothing. *)
Theorem sent_status_guard (caller transferId : N) (s : State) :
  let out := put_transfer_status caller transferId sent s in
  out.1 = Success 200 ->
  (exists t, transfers s !! transferId = Some t
             /\ status t = pending
             /\ requester_assigned caller [sendingWarehouse t] s = true
             /\ transfers out.2 = <[transferId := with_status sent t]> (transfers s))
  /\ warehouses out.2 = warehouses s
  /\ wallets out.2 = wallets s
  /\ forall other,
       put_transfer_status other transferId sent out.2 = (Failure 404 "T0001", out.2)
       /\ delete_transfer other transferId out.2 = (Failure 404 "T0001", out.2).
Proof.
  intros out. subst out.
  unfold put_transfer_status, delete_transfer, withTransaction, sent_transaction,
    cancel_transaction, find_with_status.
  destruct (transfers s !! transferId) as [t|] eqn:Ht; [|done].
  destruct (bool_decide (status t = pending)) eqn:Hst; [|done].
  apply bool_decide_eq_true_1 in Hst.
  destruct (requester_assigned caller [sendingWarehouse t] s) eqn:Hreq; [|done].
  simpl. intros _. split; [by exists t|]. split; [done|]. split; [done|].
  intros other. rewrite lookup_insert_eq. simpl. done.
Qed.

(** X15. A cancellation, an advance or a confirmation that does not answer
    200 leaves the whole state as it was, the deleted or updated record
    included. A caller who is not assigned to the side that the request needs
    (either side for a cancellation, the sending warehouse for the advance,
    the receiving warehouse for the confirmation) gets 403 T0002. *)
Theorem transfer_request_failure
    (caller transferId : N) (requested : Status) (s : State) :
  ((delete_transfer caller transferId s).1 <> Success 200 ->
     (delete_transfer caller transferId s).2 = s)
  /\ ((put_transfer_status caller transferId requested s).1 <> Success 200 ->
        (put_transfer_status caller transferId requested s).2 = s)
  /\ (forall t, transfers s !! transferId = Some t ->
        (status t = pending ->
           requester_assigned caller [receivingWarehouse t; sendingWarehouse t] s
             = false ->
           delete_transfer caller transferId s = (Failure 403 "T0002", s))
        /\ (status t = pending ->
              requester_assigned caller [sendingWarehouse t] s = false ->
              put_transfer_status caller transferId sent s
                = (Failure 403 "T0002", s))
        /\ (status t = sent ->
              requester_assigned caller [receivingWarehouse t] s = false ->
              put_transfer_status caller transferId received s
                = (Failure 403 "T0002", s))).
Proof.
  unfold put_transfer_status, delete_transfer, withTransaction, sent_transaction,
    cancel_transaction, received_transaction, find_with_status.
  split; [|split].
  - destruct (transfers s !! transferId) as [t|]; [|done].
    destruct (bool_decide _); [|done]. by destruct (requester_assigned _ _ _).
  - destruct requested; [done| |];
      (destruct (transfers s !! transferId) as [t|]; [|done]);
      (destruct (bool_decide _); [|done]); by destruct (requester_assigned _ _ _).
  - intros t Ht. rewrite Ht.
    split; [|split]; intros Hst Hreq; rewrite Hst;
      rewrite bool_decide_eq_true_2 by done; rewrite Hreq; done.
Qed.

End TransferGuards.

(** * Further properties of the warehouses *)

Section WarehousesMore.
Import Props.

Lemma assignedToWarehouse_None isOwner caller id hs h :
  hs !! id = Some h ->
  ownerId h <> caller ->
  (isOwner = true \/ caller ∉ workers h) ->
  assignedToWarehouse isOwner caller id hs = None.
Proof.
  intros Hh Howner Hrole. unfold assignedToWarehouse. rewrite Hh.
  assert (Ho : N.eqb (ownerId h) caller = false) by by apply N.eqb_neq.
  rewrite Ho. destruct isOwner; [done|]. destruct Hrole as [?|Hw]; [done|].
  rewrite orb_false_r.
  destruct (existsb (N.eqb caller) (workers h)) eqn:He; [|done].
  apply existsb_exists in He as (x & Hx & ->%N.eqb_eq).
  exfalso. apply Hw. by apply list_elem_of_In.
Qed.

(** X16. Only the owner may adjust the collateral of a warehouse, and only
    the owner or a worker may deposit into it, withdraw from it, or request a
    transfer into it: every other caller gets 403 (A0012 for the adjustment,
    A0011 otherwise) and no document changes. *)
Theorem warehouse_access_control
    (caller walletId warehouseId other : N) (name : string) (balance_ : Z)
    (req : list (string * jsvalue)) (now : Z) (redis : gmap string Z)
    (s : State) (h : Warehouse) :
  warehouses s !! warehouseId = Some h ->
  ownerId h <> caller ->
  patch_warehouse_collateral caller walletId warehouseId balance_ s
    = (Failure 403 "A0012", s)
  /\ (caller ∉ workers h ->
        post_warehouse_assets caller warehouseId name req now redis s
          = (Failure 403 "A0011", s)
        /\ delete_warehouse_assets caller warehouseId name req now redis s
           = (Failure 403 "A0011", s)
        /\ ((post_transfers caller warehouseId other req now redis s).1
              <> Success 201
            /\ (0 <= Valuation.result
                      (Valuation.validateAssets req false now redis (app s)) ->
                (1 <= length req)%nat ->
                (post_transfers caller warehouseId other req now redis s).1
                = Failure 403 "A0011"))).
Proof.
  intros Hh Howner. split.
  - unfold patch_warehouse_collateral.
    by rewrite (assignedToWarehouse_None true caller warehouseId _ h) by auto.
  - intros Hw.
    pose proof (assignedToWarehouse_None false caller warehouseId _ h Hh Howner
                  (or_intror Hw)) as Hnone.
    unfold post_warehouse_assets, delete_warehouse_assets,
      delete_warehouse_assets_handler, post_transfers.
    rewrite Hnone. split; [done|]. split; [done|]. simpl.
    destruct (Nat.ltb_spec (length req) 1); [split; [done|lia]|].
    destruct (Z.ltb_spec (Valuation.result
                (Valuation.validateAssets req false now redis (app s))) 0);
      [split; [done|lia]|].
    simpl. rewrite Hnone. done.
Qed.

(** X17. A collateral adjustment that answers 200 moves the amount between
    the caller's stelo balance and both collateral figures of the warehouse:
    the wallet loses what the warehouse's collateral and collateralAvailable
    gain (or gains what they lose, for a negative amount); nothing else
    changes in the wallet or the warehouse. Any other answer leaves the
    state as it was. *)
Theorem patch_collateral_effect
    (caller walletId warehouseId : N) (balance_ : Z) (s : State) :
  let out := patch_warehouse_collateral caller walletId warehouseId balance_ s in
  (out.1 = Success 200 ->
     exists w h w' h',
       wallets s !! walletId = Some w /\ warehouses s !! warehouseId = Some h
       /\ wallets out.2 !! walletId = Some w'
       /\ warehouses out.2 !! warehouseId = Some h'
       /\ balance (w_assets w') "stelo" = balance (w_assets w) "stelo" - balance_
       /\ (forall key, key <> "stelo" -> w_assets w' !! key = w_assets w !! key)
       /\ collateral h' = collateral h + balance_
       /\ collateralAvailable h' = collateralAvailable h + balance_
       /\ h_assets h' = h_assets h
       /\ (balance_ < 0 -> - balance_ <= collateralAvailable h)
       /\ (0 < balance_ -> balance_ <= balance (w_assets w) "stelo"))
  /\ (out.1 <> Success 200 -> out.2 = s).
Proof.
  intros out. subst out. unfold patch_warehouse_collateral.
  destruct (assignedToWarehouse _ _ _ _) as [rw|] eqn:Ha; [|done].
  apply assignedToWarehouse_Some in Ha.
  destruct (balance_ =? 0); [done|].
  destruct (_ && _); [done|].
  unfold withTransaction, collateral_transaction.
  destruct (Z.ltb_spec balance_ 0) as [Hneg|Hpos]; simpl.
  - destruct (update_if warehouseId _ _ _) as [hs|] eqn:Hu; [|done].
    destruct (update_if walletId _ _ _) as [ws|] eqn:Hu2; [|done]. simpl.
    split; [|done]. intros _.
    apply update_if_Some in Hu as (h & Hh & Hp%Z.leb_le & ->).
    apply update_if_Some in Hu2 as (w & Hw & _ & ->).
    exists w, h. eexists. eexists. split; [done|]. split; [done|].
    rewrite !lookup_insert_eq. split; [done|]. split; [done|]. simpl.
    rewrite balance_inc, decide_True by done.
    split; [lia|]. split.
    { intros key Hne. unfold inc. by rewrite lookup_insert_ne. }
    unfold add_both. simpl. repeat split; lia.
  - destruct (update_if walletId _ _ _) as [ws|] eqn:Hu; [|done]. simpl.
    split; [|done]. intros _.
    apply update_if_Some in Hu as (w & Hw & Hp & ->).
    exists w, rw. eexists. eexists. split; [done|]. split; [done|].
    rewrite update_by_id_lookup, decide_True by done.
    rewrite lookup_insert_eq, Ha. simpl. split; [done|]. split; [done|].
    simpl. rewrite balance_inc, decide_True by done.
    split; [lia|]. split.
    { intros key Hne. unfold inc. by rewrite lookup_insert_ne. }
    unfold balance. simpl in Hp. destruct (w_assets w !! "stelo") as [b|]; [|done].
    apply Z.leb_le in Hp. unfold add_both. simpl. repeat split; lia.
Qed.

End WarehousesMore.

Section DepositWithdrawMore.
Import Props.

(** X18. A deposit that answers 200 adds the requested quantities to the
    inventory of the warehouse and takes the valuation (which the available
    collateral covered) from its collateralAvailable; its collateral, the
    other warehouses and the transfers are untouched. A deposit with any
    other answer changes no wallet, warehouse or transfer. *)
Theorem deposit_effect
    (caller warehouseId : N) (name : string) (req : list (string * jsvalue))
    (now : Z) (redis : gmap string Z) (s : State) :
  let out := post_warehouse_assets caller warehouseId name req now redis s in
  let needed :=
    Valuation.result (Valuation.validateAssets req false now redis (app s)) in
  (out.1 = Success 200 ->
     exists h h',
       warehouses s !! warehouseId = Some h
       /\ warehouses out.2 !! warehouseId = Some h'
       /\ 0 <= needed <= collateralAvailable h
       /\ collateral h' = collateral h
       /\ collateralAvailable h' = collateralAvailable h - needed
       /\ (forall key, balance (h_assets h') key
                       = balance (h_assets h) key + delta (quantities req) key)
       /\ (forall id, id <> warehouseId ->
             warehouses out.2 !! id = warehouses s !! id)
       /\ transfers out.2 = transfers s)
  /\ (out.1 <> Success 200 ->
        wallets out.2 = wallets s /\ warehouses out.2 = warehouses s
        /\ transfers out.2 = transfers s).
Proof.
  intros out needed. subst out needed. unfold post_warehouse_assets.
  destruct (assignedToWarehouse _ _ _ _) as [rw|]; [|done].
  destruct (_ <? 1)%nat; [done|].
  destruct (Z.ltb_spec (Valuation.result
              (Valuation.validateAssets req false now redis (app s))) 0) as [|Hv];
    [done|].
  destruct (_ <? _); [done|].
  unfold withTransaction, deposit_transaction. simpl.
  destruct (update_if _ _ _ _) as [hs|] eqn:Hu; [|done].
  destruct (find_doc _ _) as [[id w]|] eqn:Hf; [|done]. simpl.
  split; [|done]. intros _.
  apply update_if_Some in Hu as (h & Hh & Hp%Z.leb_le & ->).
  exists h. eexists. split; [done|]. rewrite lookup_insert_eq. split; [done|].
  simpl. split; [lia|]. split; [done|]. split; [lia|].
  split; [intros key; apply balance_inc_all|]. split; [|done].
  intros id' Hne. by rewrite lookup_insert_ne.
Qed.

(** X19. A withdrawal that answers 200 takes the requested quantities from
    the inventory of the warehouse and from the assets of the withdrawer, each
    of which held at least these quantities. When the warehouse holds them but
    the withdrawer does not, the answer is W0002 and the decrement of the
    warehouse is undone; a withdrawal with any answer other than 200 changes
    no wallet, warehouse or transfer. *)
Theorem withdrawal_effect
    (caller warehouseId : N) (name : string) (req : list (string * jsvalue))
    (now : Z) (redis : gmap string Z) (s : State) :
  let out := delete_warehouse_assets caller warehouseId name req now redis s in
  let upd := quantities req in
  (out.1 = Success 200 ->
     exists h h' id w w',
       warehouses s !! warehouseId = Some h
       /\ warehouses out.2 !! warehouseId = Some h'
       /\ wallets s !! id = Some w /\ username w = Some name
       /\ wallets out.2 !! id = Some w'
       /\ gte_all upd (h_assets h) = true /\ gte_all upd (w_assets w) = true
       /\ (forall key, balance (h_assets h') key
                       = balance (h_assets h) key - delta upd key)
       /\ (forall key, balance (w_assets w') key
                       = balance (w_assets w) key - delta upd key))
  /\ (out.1 <> Success 200 ->
        wallets out.2 = wallets s /\ warehouses out.2 = warehouses s
        /\ transfers out.2 = transfers s)
  /\ (forall h,
        assignedToWarehouse false caller warehouseId (warehouses s) = Some h ->
        (1 <= length req)%nat ->
        0 <= Valuation.result (Valuation.validateAssets req false now redis (app s)) ->
        gte_all upd (h_assets h) = true ->
        find_doc (fun w => gte_all upd (w_assets w)
                           && bool_decide (username w = Some name)) (wallets s)
          = None ->
        out.1 = Failure 400 "W0002").
Proof.
  intros out upd. subst out upd. unfold delete_warehouse_assets, delete_warehouse_assets_handler.
  split; [|split].
  - destruct (assignedToWarehouse _ _ _ _) as [rw|]; [|done].
    destruct (_ <? 1)%nat; [done|].
    destruct (_ <? 0); [done|].
    unfold withTransaction, withdraw_transaction. simpl.
    destruct (update_if _ _ _ _) as [hs|] eqn:Hu; [|done].
    destruct (find_doc _ _) as [[id w]|] eqn:Hf; [|done]. simpl. intros _.
    apply update_if_Some in Hu as (h & Hh & Hg & ->).
    apply find_doc_Some in Hf as [Hw [Hgw Hname%bool_decide_eq_true_1]%andb_prop].
    exists h. eexists. exists id, w. eexists.
    rewrite !lookup_insert_eq. repeat split; try done; simpl;
      intros key; rewrite balance_inc_all, delta_negated; lia.
  - destruct (assignedToWarehouse _ _ _ _) as [rw|]; [|done].
    destruct (_ <? 1)%nat; [done|].
    destruct (_ <? 0); [done|].
    unfold withTransaction, withdraw_transaction. simpl.
    destruct (update_if _ _ _ _) as [hs|]; [|done].
    by destruct (find_doc _ _) as [[id w]|].
  - intros h Ha Hlen Hv Hg Hnone. rewrite Ha.
    destruct (Nat.ltb_spec (length req) 1); [lia|].
    destruct (Z.ltb_spec (Valuation.result
                (Valuation.validateAssets req false now redis (app s))) 0); [lia|].
    unfold withTransaction, withdraw_transaction. simpl.
    apply assignedToWarehouse_Some in Ha.
    unfold update_if. rewrite Ha, Hg, Hnone. done.
Qed.

(** A pulled id is not in the array any more. *)
Lemma existsb_pull id l : existsb (N.eqb id) (pull id l) = false.
Proof.
  destruct (existsb (N.eqb id) (pull id l)) eqn:He; [|done].
  apply existsb_exists in He as (x & Hx & ->%N.eqb_eq).
  apply list_elem_of_In in Hx. unfold pull in Hx.
  by apply list_elem_of_filter in Hx as [? _].
Qed.

Lemma existsb_snoc id l : existsb (N.eqb id) (l ++ [id]) = true.
Proof. rewrite existsb_app. simpl. by rewrite N.eqb_refl, orb_true_r. Qed.

(** X20. After the owner added a worker, the account passes both checks of
    assignment (the one on the warehouse's list of workers, used by deposits,
    withdrawals and the creation of transfers, and the one on the account's
    list of warehouses, used by the other transfer requests), and adding it
    again is refused with U0006. After the owner removed an account that is
    not the owner's, it passes neither check. *)
Theorem worker_assignment (caller warehouseId worker : N) (s : State) :
  ((post_warehouse_workers caller warehouseId worker s).1 = Success 200 ->
     let s' := (post_warehouse_workers caller warehouseId worker s).2 in
     is_Some (assignedToWarehouse false worker warehouseId (warehouses s'))
     /\ requester_assigned worker [warehouseId] s' = true
     /\ post_warehouse_workers caller warehouseId worker s' = (Failure 400 "U0006", s'))
  /\ ((delete_warehouse_worker caller warehouseId worker s).1 = Success 200 ->
        worker <> caller ->
        let s' := (delete_warehouse_worker caller warehouseId worker s).2 in
        assignedToWarehouse false worker warehouseId (warehouses s') = None
        /\ requester_assigned worker [warehouseId] s' = false).
Proof.
  split.
  - unfold post_warehouse_workers.
    destruct (assignedToWarehouse true _ _ _) as [h|] eqn:Ha; [|done].
    destruct (update_if _ _ _ _) as [accs|] eqn:Hu; [|done]. simpl. intros _.
    apply update_if_Some in Hu as (a & Hacc & Hp & ->).
    apply assignedToWarehouse_Some in Ha as Hh.
    assert (Howner : N.eqb (ownerId h) caller = true).
    { unfold assignedToWarehouse in Ha. rewrite Hh in Ha.
      by destruct (N.eqb (ownerId h) caller). }
    unfold assignedToWarehouse, requester_assigned, update_by_id, update_if.
    rewrite Hh. simpl. rewrite !lookup_insert_eq. simpl.
    rewrite !existsb_snoc, Howner. simpl. done.
  - unfold delete_warehouse_worker.
    destruct (assignedToWarehouse true _ _ _) as [h|] eqn:Ha; [|done].
    destruct (update_if _ _ _ _) as [accs|] eqn:Hu; [|done]. simpl.
    intros _ Hne.
    apply update_if_Some in Hu as (a & Hacc & Hp & ->).
    apply assignedToWarehouse_Some in Ha as Hh.
    assert (Howner : ownerId h = caller).
    { unfold assignedToWarehouse in Ha. rewrite Hh in Ha.
      destruct (N.eqb_spec (ownerId h) caller); done. }
    unfold assignedToWarehouse, requester_assigned, update_by_id.
    rewrite Hh. simpl. rewrite !lookup_insert_eq. simpl.
    rewrite !existsb_pull. simpl.
    destruct (N.eqb_spec (ownerId h) worker); [congruence|done].
Qed.

End DepositWithdrawMore.

(** * Further properties of the peer transactions *)

Section Totals.
Import Props More.

Implicit Types (ws : gmap N Wallet) (key : string).

Lemma total_balance_delete ws i w key :
  ws !! i = Some w ->
  total_balance ws key = balance (w_assets w) key + total_balance (delete i ws) key.
Proof.
  intros Hi. unfold total_balance.
  apply (map_fold_delete_L (fun _ w0 acc => balance (w_assets w0) key + acc)); [|done].
  intros. lia.
Qed.

Lemma total_balance_insert_new ws i w key :
  ws !! i = None ->
  total_balance (<[i := w]> ws) key = balance (w_assets w) key + total_balance ws key.
Proof.
  intros Hi. unfold total_balance.
  apply (map_fold_insert_L (fun _ w0 acc => balance (w_assets w0) key + acc)); [|done].
  intros. lia.
Qed.

Lemma total_balance_insert ws i w w' key :
  ws !! i = Some w ->
  total_balance (<[i := w']> ws) key
  = total_balance ws key - balance (w_assets w) key + balance (w_assets w') key.
Proof.
  intros Hi. rewrite <- insert_delete_eq.
  rewrite total_balance_insert_new by apply lookup_delete_eq.
  rewrite (total_balance_delete ws i w key Hi). lia.
Qed.

End Totals.

Section PeerMore.
Import Props More.

(** The shape of the wallets after a peer transaction that answered 201. *)
Lemma send_transaction_committed walletId recipient upd ok ws f ws' :
  send_transaction walletId recipient upd ok ws = (f, Some ws') ->
  f = mkSendFlags true true false
  /\ exists rid r sender,
       find_doc (recipient_filter recipient) ws = Some (rid, r)
       /\ <[rid := with_w_assets (inc_all upd (w_assets r)) r]> ws !! walletId
          = Some sender
       /\ gte_all upd (w_assets sender) = true
       /\ ws' = <[walletId := with_w_assets (inc_all (negated upd) (w_assets sender))
                                sender]>
                  (<[rid := with_w_assets (inc_all upd (w_assets r)) r]> ws).
Proof.
  unfold send_transaction.
  destruct (find_doc _ _) as [[rid r]|] eqn:Hf; [|done].
  destruct (_ && _); [done|].
  destruct (update_if _ _ _ _) as [ws2|] eqn:Hu; [|done].
  intros [= <- <-]. split; [done|].
  apply update_if_Some in Hu as (sender & Hs & Hg & ->).
  by exists rid, r, sender.
Qed.

Lemma send_transaction_aborted walletId recipient upd ok ws f :
  send_transaction walletId recipient upd ok ws = (f, None) ->
  send_response f <> Success 201.
Proof.
  unfold send_transaction.
  destruct (find_doc _ _) as [[rid r]|]; [|by intros [= <-]].
  destruct (_ && _); [by intros [= <-]|].
  destruct (update_if _ _ _ _); [done|by intros [= <-]].
Qed.

(** X21. For a recipient written in ASCII and quantities that keep the
    balances of the wallets within the safe integers (so that the increments
    and decrements of the code are exact): a peer transaction that answers
    201 found a recipient, added the requested quantities to the recipient's
    balances and took them from the sender's (which covered them); every
    other wallet keeps its balances. With any other answer no wallet
    changes. Warehouses, warehouse accounts and transfers are never
    touched. *)
Theorem post_wallet_transactions_effect
    (walletId : N) (recipient : string) (req : list (string * jsvalue))
    (webhook_ok : bool) (now : Z) (redis : gmap string Z) (s : State) :
  ascii_only recipient ->
  exact_increments (quantities req) (wallets s) ->
  let out := post_wallet_transactions walletId recipient req webhook_ok now redis s in
  (out.1 = Success 201 ->
     exists recipientId r,
       find_doc (recipient_filter recipient) (wallets s) = Some (recipientId, r)
       /\ forall id w, wallets s !! id = Some w ->
            exists w', wallets out.2 !! id = Some w'
              /\ forall key,
                   balance (w_assets w') key
                   = balance (w_assets w) key
                     + (if decide (id = recipientId)
                        then delta (quantities req) key else 0)
                     - (if decide (id = walletId)
                        then delta (quantities req) key else 0))
  /\ (out.1 <> Success 201 -> wallets out.2 = wallets s)
  /\ warehouses out.2 = warehouses s
  /\ warehouseAccounts out.2 = warehouseAccounts s
  /\ transfers out.2 = transfers s.
Proof.
  intros _ _ out. subst out. unfold post_wallet_transactions.
  destruct (_ <? 1)%nat; [done|].
  destruct (_ <? 0); [done|].
  unfold withTransaction. simpl.
  destruct (send_transaction _ _ _ _ _) as [f [ws'|]] eqn:Hsend; simpl.
  - apply send_transaction_committed in Hsend
      as (-> & rid & r & sender & Hf & Hs & Hg & ->).
    split; [|done]. intros _. exists rid, r. split; [done|].
    apply find_doc_Some in Hf as [Hr _].
    intros id w Hw.
    destruct (decide (id = walletId)) as [->|Hns].
    + rewrite lookup_insert_eq. eexists. split; [done|]. simpl. intros key.
      rewrite balance_inc_all, delta_negated.
      destruct (decide (walletId = rid)) as [->|Hnr].
      * rewrite lookup_insert_eq in Hs. inversion Hs; subst sender.
        rewrite Hr in Hw. inversion Hw; subst w. simpl.
        rewrite balance_inc_all. lia.
      * rewrite lookup_insert_ne in Hs by done. rewrite Hs in Hw.
        inversion Hw; subst w. lia.
    + rewrite lookup_insert_ne by done.
      destruct (decide (id = rid)) as [->|Hnr].
      * rewrite lookup_insert_eq. rewrite Hr in Hw. inversion Hw; subst w.
        eexists. split; [done|]. simpl. intros key. rewrite balance_inc_all. lia.
      * rewrite lookup_insert_ne by done. exists w. split; [done|]. intros; lia.
  - split; [|done]. intros H. by apply send_transaction_aborted in Hsend.
Qed.

(** X22. Whatever its answer, a peer transaction whose quantities keep the
    balances of the wallets within the safe integers (so that the increments
    and decrements of the code are exact) leaves the total of every asset
    over all wallets as it was. *)
Theorem post_wallet_transactions_conserves
    (walletId : N) (recipient : string) (req : list (string * jsvalue))
    (webhook_ok : bool) (now : Z) (redis : gmap string Z) (s : State)
    (key : string) :
  exact_increments (quantities req) (wallets s) ->
  total_balance
    (wallets (post_wallet_transactions walletId recipient req webhook_ok now redis s).2)
    key
  = total_balance (wallets s) key.
Proof.
  intros _. unfold post_wallet_transactions.
  destruct (_ <? 1)%nat; [done|].
  destruct (_ <? 0); [done|].
  unfold withTransaction. simpl.
  destruct (send_transaction _ _ _ _ _) as [f [ws'|]] eqn:Hsend; simpl; [|done].
  apply send_transaction_committed in Hsend
    as (-> & rid & r & sender & Hf & Hs & Hg & ->).
  apply find_doc_Some in Hf as [Hr _].
  rewrite (total_balance_insert _ _ _ _ key Hs).
  rewrite (total_balance_insert _ _ _ _ key Hr). simpl.
  rewrite !balance_inc_all, delta_negated. lia.
Qed.

End PeerMore.

Section Routes.
Import Props More.

(** A filter with one match at most finds that match. *)
Lemma find_doc_unique {A : Type} (p : A -> bool) (c : gmap N A) id d :
  c !! id = Some d -> p d = true ->
  (forall id' d', c !! id' = Some d' -> p d' = true -> id' = id) ->
  find_doc p c = Some (id, d).
Proof.
  intros Hd Hp Huniq. unfold find_doc.
  assert (Hin : (id, d) ∈ filter (fun kv : N * A => Is_true (p kv.2)) (map_to_list c)).
  { apply list_elem_of_filter. split; [by apply Is_true_true|].
    by apply elem_of_map_to_list. }
  destruct (filter _ _) as [|[id' d'] rest] eqn:Hfl.
  - by apply elem_of_nil in Hin.
  - simpl. assert (Hhead : (id', d') ∈ filter (fun kv : N * A => Is_true (p kv.2))
                                        (map_to_list c)).
    { rewrite Hfl. apply elem_of_cons. by left. }
    apply list_elem_of_filter in Hhead as [Hp' Hin'%elem_of_map_to_list].
    simpl in Hp'. apply Is_true_true in Hp'.
    pose proof (Huniq _ _ Hin' Hp'). subst id'. congruence.
Qed.

Lemma find_doc_none {A : Type} (p : A -> bool) (c : gmap N A) :
  (forall id d, c !! id = Some d -> p d = false) -> find_doc p c = None.
Proof.
  intros Hnone. unfold find_doc.
  destruct (filter _ _) as [|[id d] rest] eqn:Hfl; [done|]. exfalso.
  assert (Hhead : (id, d) ∈ filter (fun kv : N * A => Is_true (p kv.2))
                                  (map_to_list c)).
  { rewrite Hfl. apply elem_of_cons. by left. }
  apply list_elem_of_filter in Hhead as [Hp Hin%elem_of_map_to_list].
  simpl in Hp. apply Is_true_true in Hp. rewrite (Hnone _ _ Hin) in Hp. done.
Qed.

(** X23. With a wallet key or with a session, a peer transaction is the same
    request: when the address of the key route belongs to one wallet only,
    POST /wallets/:address/transactions answers and changes the state exactly
    as POST /wallet/transactions does for a session on that wallet. *)
Theorem key_route_is_session_route
    (walletId : N) (w : Wallet) (address_ recipient : string)
    (req : list (string * jsvalue)) (webhook_ok : bool) (now : Z)
    (redis : gmap string Z) (s : State) :
  wallets s !! walletId = Some w ->
  address w = Some address_ ->
  unique_address (wallets s) address_ walletId ->
  post_wallets_address_transactions address_ recipient req webhook_ok now redis s
  = post_wallet_transactions walletId recipient req webhook_ok now redis s.
Proof.
  intros Hw Ha Huniq.
  unfold post_wallets_address_transactions, post_wallet_transactions.
  destruct (_ <? 1)%nat; [done|].
  destruct (_ <? 0); [done|].
  simpl.
  assert (Hsame : send_transaction_by_address address_ recipient (quantities req)
                    webhook_ok (wallets s)
                  = send_transaction walletId recipient (quantities req) webhook_ok
                      (wallets s)); [|unfold withTransaction; by rewrite Hsame].
  unfold send_transaction_by_address, send_transaction.
  destruct (find_doc (recipient_filter recipient) _) as [[rid r]|] eqn:Hf; [|done].
  destruct (_ && _); [done|].
  apply find_doc_Some in Hf as [Hr _].
  set (ws1 := <[rid := with_w_assets (inc_all (quantities req) (w_assets r)) r]>
                (wallets s)).
  assert (Hsender : exists sw, ws1 !! walletId = Some sw /\ address sw = Some address_).
  { subst ws1. destruct (decide (rid = walletId)) as [->|Hne].
    - rewrite lookup_insert_eq. eexists. split; [done|]. simpl. congruence.
    - rewrite lookup_insert_ne by done. by exists w. }
  assert (Huniq1 : forall id' d', ws1 !! id' = Some d' ->
                     address d' = Some address_ -> id' = walletId).
  { subst ws1. intros id' d' Hd Hadr.
    destruct (decide (rid = id')) as [->|Hne].
    - rewrite lookup_insert_eq in Hd. inversion Hd; subst d'. simpl in Hadr.
      by eapply Huniq.
    - rewrite lookup_insert_ne in Hd by done. by eapply Huniq. }
  destruct Hsender as (sw & Hsw & Hsa). unfold update_if. rewrite Hsw.
  destruct (gte_all (quantities req) (w_assets sw)) eqn:Hg.
  - rewrite (find_doc_unique _ ws1 walletId sw Hsw); [done| |].
    + by rewrite Hsa, bool_decide_eq_true_2.
    + intros id' d' Hd [Hadr%bool_decide_eq_true_1 _]%andb_prop. by eapply Huniq1.
  - rewrite find_doc_none; [done|].
    intros id' d' Hd.
    destruct (bool_decide (address d' = Some address_)) eqn:Hadr; [|done].
    apply bool_decide_eq_true_1 in Hadr.
    pose proof (Huniq1 _ _ Hd Hadr). subst id'. rewrite Hsw in Hd.
    inversion Hd; subst d'. by rewrite Hg.
Qed.

Lemma post_wallet_transactions_recipient walletId recipient req ok now redis s :
  (post_wallet_transactions walletId recipient req ok now redis s).1 = Success 201 ->
  is_Some (find_doc (recipient_filter recipient) (wallets s)).
Proof.
  unfold post_wallet_transactions.
  destruct (_ <? 1)%nat; [done|]. destruct (_ <? 0); [done|].
  unfold withTransaction. simpl.
  destruct (send_transaction _ _ _ _ _) as [f [ws'|]] eqn:Hsend; simpl.
  - apply send_transaction_committed in Hsend as (_ & rid & r & _ & -> & _).
    by eexists.
  - intros H. by apply send_transaction_aborted in Hsend.
Qed.

(** X25. The lists of recent transactions are written only by a peer
    transaction that answered 201: then the newest entry of the recipient's
    list is the "receive" entry naming the sender, and the sender's list
    holds the "send" entry naming the recipient, first or (for a transaction
    to oneself) second; both entries carry the memo when it is not empty.
    No list ever grows beyond ten entries or beyond its
    former length. *)
Theorem post_wallet_transactions_lists_effect
    (walletId : N) (sender recipient : string) (memo : option string)
    (req : list (string * jsvalue)) (webhook_ok : bool) (now : Z)
    (redis : gmap string Z) (s : State) (lists : gmap N (list Activity)) :
  let answer := (post_wallet_transactions walletId recipient req webhook_ok now
                   redis s).1 in
  let lists' := post_wallet_transactions_lists walletId sender recipient memo req
                  webhook_ok now redis s lists in
  (answer <> Success 201 -> lists' = lists)
  /\ (answer = Success 201 ->
        exists recipientId r,
          let kept := if truthy memo then memo else None in
          find_doc (recipient_filter recipient) (wallets s) = Some (recipientId, r)
          /\ head (default [] (lists' !! recipientId))
             = Some (mkActivity "receive" sender req kept)
          /\ (recipientId <> walletId ->
                head (default [] (lists' !! walletId))
                = Some (mkActivity "send" recipient req kept))
          /\ (recipientId = walletId ->
                default [] (lists' !! walletId) !! 1%nat
                = Some (mkActivity "send" recipient req kept)))
  /\ (forall id, (length (default [] (lists' !! id))
                  <= Nat.max 10 (length (default [] (lists !! id))))%nat).
Proof.
  intros answer lists'. subst answer lists'.
  unfold post_wallet_transactions_lists.
  pose proof (post_wallet_transactions_recipient walletId recipient req webhook_ok
                now redis s) as Hok.
  destruct (post_wallet_transactions walletId recipient req webhook_ok now redis s).1
    as [http|http code] eqn:Hans.
  2:{ split; [done|]. split; [done|]. intros id. lia. }
  simpl in Hok.
  assert (Hlen : forall (k0 k : N) (e : Activity) (ls : gmap N (list Activity)),
             (length (default [] (lPush_lTrim k0 e ls !! k))
              <= Nat.max 10 (length (default [] (ls !! k))))%nat).
  { intros k0 k e ls. unfold lPush_lTrim.
    destruct (decide (k0 = k)) as [->|Hne].
    - rewrite lookup_insert_eq. cbn [default from_option id]. rewrite length_take.
      cbn [length]. lia.
    - rewrite lookup_insert_ne by done. lia. }
  destruct (find_doc _ _) as [[rid r]|] eqn:Hf.
  - split; [intros Hne|split].
    + exfalso. destruct (decide (http = 201)) as [->|Hh]; [done|].
      revert Hans. unfold post_wallet_transactions.
      destruct (_ <? 1)%nat; [done|]. destruct (_ <? 0); [done|].
      destruct (withTransaction _ _) as [f ws]. simpl.
      unfold send_response. repeat case_match; congruence.
    + intros _. exists rid, r. cbv zeta. split; [done|].
      unfold lPush_lTrim. rewrite lookup_insert_eq. simpl. split; [done|]. split.
      * intros Hne. rewrite lookup_insert_ne by done.
        rewrite lookup_insert_eq. done.
      * intros ->. rewrite !lookup_insert_eq. simpl. done.
    + intros id.
      etransitivity; [apply Hlen|].
      pose proof (Hlen walletId id
                    (mkActivity "send" recipient req
                       (if truthy memo then memo else None)) lists). lia.
  - split; [done|]. split; [|intros id; lia].
    intros Heq. rewrite Heq in Hok. by destruct (Hok eq_refl).
Qed.

End Routes.

(** * Accounts and wallets *)

Section Distribution.
Import Props More.

Lemma username_taken_false name ws id w :
  username_taken name ws = false -> ws !! id = Some w -> username w <> Some name.
Proof.
  unfold username_taken. intros Hfree Hw Hname.
  apply bool_decide_eq_false_1 in Hfree. apply Hfree.
  destruct (find_doc (fun w0 => bool_decide (username w0 = Some name)) ws) eqn:Hf;
    [done|].
  exfalso.
  assert (Hall : forall id' d, ws !! id' = Some d ->
            bool_decide (username d = Some name) = false).
  { intros id' d Hd. destruct (bool_decide (username d = Some name)) eqn:Hb; [|done].
    exfalso. unfold find_doc in Hf.
    assert (Hin : (id', d) ∈ filter
                    (fun kv : N * Wallet =>
                       Is_true (bool_decide (username kv.2 = Some name)))
                    (map_to_list ws)).
    { apply list_elem_of_filter. split; [by apply Is_true_true|].
      by apply elem_of_map_to_list. }
    destruct (filter _ _); [by apply elem_of_nil in Hin|done]. }
  specialize (Hall _ _ Hw). by rewrite bool_decide_eq_true_2 in Hall.
Qed.

(** X26. With distribution, the confirmation of a registered user name that
    is free, while the distribution wallet holds more than 500 stelo, creates
    the user's wallet with floor(250000000 + 0.0015 * balance) stelo and takes
    exactly that amount from the distribution wallet, so that the total of
    stelo over all wallets is unchanged; the distribution wallet is left with
    a negative balance exactly when it held less than 250375563 stelo. With
    500 stelo or less the answer is S0001 and nothing changes. *)
Theorem distribution_effect
    (name : string) (s : State) (distributionId : N) (distribution : Wallet)
    (stelo : Z) :
  find_doc (fun w => bool_decide (address w = Some "genesisdistribution")) (wallets s)
    = Some (distributionId, distribution) ->
  w_assets distribution !! "stelo" = Some stelo ->
  (stelo <= 500 ->
     put_users_username name true true s = Some (Failure 500 "S0001", s))
  /\ (500 < stelo -> username_taken name (wallets s) = false ->
        exists s' userId user distribution',
          put_users_username name true true s = Some (Success 201, s')
          /\ wallets s !! userId = None
          /\ wallets s' !! userId = Some user
          /\ username user = Some name
          /\ w_assets user = {[ "stelo" := freeStelo stelo ]}
          /\ wallets s' !! distributionId = Some distribution'
          /\ w_assets distribution' !! "stelo" = Some (stelo - freeStelo stelo)
          /\ 250000000 <= freeStelo stelo
          /\ total_balance (wallets s') "stelo" = total_balance (wallets s) "stelo"
          /\ (stelo - freeStelo stelo < 0 <-> stelo < 250375563)).
Proof.
  intros Hfind Hstelo.
  apply find_doc_Some in Hfind as Hlook. destruct Hlook as [Hd _].
  unfold put_users_username, distribution_transaction. simpl.
  rewrite Hfind, Hstelo. split.
  - intros Hlow. by destruct (Z.leb_spec stelo 500); [|lia].
  - intros Hhigh Hfree. destruct (Z.leb_spec stelo 500); [lia|].
    rewrite Hfree. simpl.
    set (userId := fresh (dom (wallets s))).
    assert (Hnew : wallets s !! userId = None).
    { apply not_elem_of_dom. apply is_fresh. }
    assert (Hne : userId <> distributionId) by congruence.
    assert (Hd1 : <[userId := new_user name {["stelo" := freeStelo stelo]}]> (wallets s)
                    !! distributionId = Some distribution)
      by (by rewrite lookup_insert_ne).
    unfold update_by_id. fold userId. rewrite Hd1.
    eexists. exists userId.
    exists (new_user name {["stelo" := freeStelo stelo]}).
    exists (with_w_assets (inc "stelo" (- freeStelo stelo) (w_assets distribution))
              distribution).
    split; [done|]. split; [done|]. cbn [wallets with_wallets].
    split. { rewrite lookup_insert_ne by done. apply lookup_insert_eq. }
    split; [done|]. split; [done|].
    split. { apply lookup_insert_eq. }
    split.
    { simpl. unfold inc. rewrite lookup_insert_eq. unfold balance. rewrite Hstelo.
      reflexivity. }
    assert (Hfloor : 0 <= stelo * 15 / 10000) by (apply Z.div_pos; lia).
    split; [unfold freeStelo; lia|]. split.
    + rewrite (total_balance_insert _ distributionId distribution _ "stelo" Hd1).
      rewrite total_balance_insert_new by done. simpl.
      rewrite balance_inc, decide_True by done.
      unfold balance at 1. rewrite lookup_singleton_eq. simpl. lia.
    + unfold freeStelo. split; intros Hlt.
      * destruct (Z.lt_ge_cases stelo 250375563) as [|Hge]; [done|].
        assert (stelo * 15 / 10000 <= stelo * 15 / 10000) by lia.
        assert (Hq : (stelo * 15) / 10000 * 10000 <= stelo * 15).
        { pose proof (Z.mul_div_le (stelo * 15) 10000). lia. }
        lia.
      * assert (Hq : stelo * 15 < ((stelo * 15) / 10000 + 1) * 10000).
        { pose proof (Z.mul_succ_div_gt (stelo * 15) 10000). lia. }
        lia.
Qed.

End Distribution.

Section Deletion.
Import Props More.

Lemma delta_all_assets (a : gmap string Z) key :
  delta (all_assets a) key = balance a key.
Proof.
  unfold all_assets, balance.
  destruct (a !! key) as [q|] eqn:Hq; simpl.
  - apply delta_named; [apply NoDup_fst_map_to_list|].
    by apply elem_of_map_to_list.
  - apply delta_not_named. intros ([k q] & -> & Hin)%list_elem_of_fmap.
    apply elem_of_map_to_list in Hin. simpl in *. congruence.
Qed.

(** X27. The deletion of a wallet by its owner removes the wallet and adds
    each of its balances to the owner's wallet, so that the total of every
    asset over all wallets is unchanged; the other wallets are untouched.
    Without the owner's wallet the answer is U0001 and the wallet stays; a
    session that is not the owner's gets W0006. *)
Theorem delete_wallet_effect
    (req_wallet_id req_wallet_ownerId session_walletId : N) (s : State) (w : Wallet) :
  wallets s !! req_wallet_id = Some w ->
  let out := delete_wallet req_wallet_id req_wallet_ownerId session_walletId s in
  (req_wallet_ownerId <> session_walletId -> out = (Failure 403 "W0006", s))
  /\ (req_wallet_ownerId = session_walletId ->
        (session_walletId = req_wallet_id \/ wallets s !! session_walletId = None) ->
        out = (Failure 404 "U0001", s))
  /\ (req_wallet_ownerId = session_walletId -> session_walletId <> req_wallet_id ->
        forall owner, wallets s !! session_walletId = Some owner ->
          out.1 = Success 200
          /\ wallets out.2 !! req_wallet_id = None
          /\ (exists owner', wallets out.2 !! session_walletId = Some owner'
                /\ forall key, balance (w_assets owner') key
                               = balance (w_assets owner) key
                                 + balance (w_assets w) key)
          /\ (forall id, id <> req_wallet_id -> id <> session_walletId ->
                wallets out.2 !! id = wallets s !! id)
          /\ forall key, total_balance (wallets out.2) key
                         = total_balance (wallets s) key).
Proof.
  intros Hw out. subst out. unfold delete_wallet.
  split; [|split].
  - intros Hne. by destruct (N.eqb_spec req_wallet_ownerId session_walletId).
  - intros -> Hmissing. rewrite N.eqb_refl. simpl.
    unfold withTransaction, wallet_delete_transaction, update_if. rewrite Hw.
    destruct Hmissing as [->|Hnone].
    + rewrite lookup_delete_eq. simpl. by destruct s.
    + destruct (decide (session_walletId = req_wallet_id)) as [->|Hne];
        [congruence|].
      rewrite lookup_delete_ne by done. rewrite Hnone. simpl. by destruct s.
  - intros -> Hne owner Ho. rewrite N.eqb_refl. simpl.
    unfold withTransaction, wallet_delete_transaction, update_if. rewrite Hw.
    rewrite lookup_delete_ne by done. rewrite Ho. simpl.
    split; [done|]. split.
    { rewrite lookup_insert_ne by done. apply lookup_delete_eq. }
    split.
    { rewrite lookup_insert_eq. eexists. split; [done|]. simpl. intros key.
      by rewrite balance_inc_all, delta_all_assets. }
    split.
    { intros id H1 H2. rewrite lookup_insert_ne by done. by apply lookup_delete_ne. }
    intros key.
    rewrite (total_balance_insert _ session_walletId owner _ key)
      by (by rewrite lookup_delete_ne).
    rewrite (total_balance_delete (wallets s) req_wallet_id w key Hw). simpl.
    rewrite balance_inc_all, delta_all_assets. lia.
Qed.

(** X28. The deletion of an account (no wallets owned, password valid)
    removes the user's wallet and adds each of its balances to the wallet with
    address "stelotreasury", the total of every asset over all wallets being
    unchanged. When there is no treasury wallet the answer is S0000 and the
    user's wallet stays. *)
Theorem delete_user_effect (session_walletId : N) (s : State) (w : Wallet) :
  wallets s !! session_walletId = Some w ->
  let out := delete_user session_walletId false true s in
  (find_doc (fun t => bool_decide (address t = Some "stelotreasury"))
     (delete session_walletId (wallets s)) = None ->
   out = (Failure 404 "S0000", s))
  /\ (forall treasuryId t,
        find_doc (fun t0 => bool_decide (address t0 = Some "stelotreasury"))
          (delete session_walletId (wallets s)) = Some (treasuryId, t) ->
        out.1 = Success 200
        /\ wallets out.2 !! session_walletId = None
        /\ (exists t', wallets out.2 !! treasuryId = Some t'
              /\ forall key, balance (w_assets t') key
                             = balance (w_assets t) key + balance (w_assets w) key)
        /\ forall key, total_balance (wallets out.2) key
                       = total_balance (wallets s) key).
Proof.
  intros Hw out. subst out. unfold delete_user. rewrite Hw. simpl.
  unfold withTransaction, user_delete_transaction. rewrite Hw.
  split.
  - intros ->. simpl. by destruct s.
  - intros treasuryId t Hf. rewrite Hf. simpl.
    apply find_doc_Some in Hf as [Ht _].
    assert (Hne : treasuryId <> session_walletId).
    { intros ->. by rewrite lookup_delete_eq in Ht. }
    split; [done|]. split.
    { rewrite lookup_insert_ne by done. apply lookup_delete_eq. }
    split.
    { rewrite lookup_insert_eq. eexists. split; [done|]. simpl. intros key.
      by rewrite balance_inc_all, delta_all_assets. }
    intros key.
    rewrite (total_balance_insert _ treasuryId t _ key Ht).
    rewrite (total_balance_delete (wallets s) session_walletId w key Hw). simpl.
    rewrite balance_inc_all, delta_all_assets. lia.
Qed.

End Deletion.

(** * Sessions *)

Section Sessions.
Import Auth.

(** X29. A session older than six hours is refused by every route that
    requires a login, with A0001, and is destroyed: the next request of the
    same client is a guest's. A session that is not older passes the check
    of the session's age whatever the route. *)
Theorem session_absolute_timeout
    (requireUser : option bool) (hasWarehouseAccount : bool) (now : Z)
    (session : Session) :
  is_Some (walletId session) ->
  (createdAt session + SESSION_ABSOLUTE_TIMEOUT < now ->
     isLoggedIn requireUser hasWarehouseAccount now session
       = (Refused 400 "A0001", destroyed)
     /\ isGuest (isLoggedIn requireUser hasWarehouseAccount now session).2 = Next)
  /\ (now <= createdAt session + SESSION_ABSOLUTE_TIMEOUT ->
        (isLoggedIn requireUser hasWarehouseAccount now session).1
          <> Refused 400 "A0001"
        /\ (isLoggedIn requireUser hasWarehouseAccount now session).2 = session
        /\ isLoggedIn None false now session = (Next, session)).
Proof.
  intros [id Hid]. unfold isLoggedIn. rewrite Hid. split.
  - intros Hold. by destruct (Z.ltb_spec (createdAt session + SESSION_ABSOLUTE_TIMEOUT) now);
      [|lia].
  - intros Hyoung.
    destruct (Z.ltb_spec (createdAt session + SESSION_ABSOLUTE_TIMEOUT) now); [lia|].
    split; [|split]; [| |done]; repeat case_match; done.
Qed.

(** X30. The levels of access are nested: a session admitted to the
    warehouse routes (user session with a warehouse account) is admitted to
    the user routes, and a session admitted to the user routes is admitted to
    the routes open to every login. No session is admitted both to a
    user-only and to a wallet-only route, and no session is admitted both as
    a guest and as a login. *)
Theorem session_levels (now : Z) (session : Session) :
  ((isLoggedIn (Some true) true now session).1 = Next ->
     (isLoggedIn (Some true) false now session).1 = Next)
  /\ ((isLoggedIn (Some true) false now session).1 = Next ->
        (isLoggedIn None false now session).1 = Next)
  /\ ~ ((isLoggedIn (Some true) false now session).1 = Next
        /\ (isLoggedIn (Some false) false now session).1 = Next)
  /\ (forall requireUser hasWarehouseAccount,
        ~ (isGuest session = Next
           /\ (isLoggedIn requireUser hasWarehouseAccount now session).1 = Next))
  /\ ((isLoggedIn (Some true) true now session).1 = Next <->
        is_Some (walletId session)
        /\ now <= createdAt session + SESSION_ABSOLUTE_TIMEOUT
        /\ isUser session = true
        /\ is_Some (warehouseAccountId session)).
Proof.
  unfold isLoggedIn, isGuest.
  destruct (walletId session) as [id|];
    [destruct (Z.ltb_spec (createdAt session + SESSION_ABSOLUTE_TIMEOUT) now);
     [|destruct (isUser session); destruct (warehouseAccountId session) as [acc|]]|];
    simpl;
    (split; [|split; [|split; [|split; [|split]]]]);
    try done; try (intros []; done); try (intros ? ? []; done);
    try (intros (Hw & Ht & Hu & Ha); first [lia | done | by destruct Hw | by destruct Ha]);
    try (intros _; repeat split; try done; try lia; by eexists).
Qed.

End Sessions.

(** * Instances of the further properties *)

Section MoreInstances.
Import Valuation Props More Sample Scenes.

Local Ltac by_computation :=
  match goal with
  | |- ?P => apply (bool_decide_eq_true_1 P); vm_compute; reflexivity
  end.

Local Ltac quantities_positive :=
  repeat (apply Forall_cons; split; [eexists; split; [reflexivity|lia]|]);
  apply Forall_nil_2.

Lemma validateAssets_rejects_bad_quantity_witness :
  result (validateAssets [("wood", JInt 10); ("iron", JInt 0)] false 100 redis0 cache0)
  = -1.
Proof.
  apply (validateAssets_rejects_bad_quantity
           [("wood", JInt 10); ("iron", JInt 0)] false 100 redis0 cache0
           "iron" (JInt 0)).
  - apply elem_of_cons. right. apply elem_of_cons. left. reflexivity.
  - reflexivity.
Defined.

Lemma validateAssets_unknown_symbol_witness :
  let o := validateAssets [("coal", JInt 1)] false 100 redis_coal cache0 in
  result o = -1 /\ redis_calls o = [] /\ cache_after o = cache0.
Proof.
  apply (validateAssets_unknown_symbol [("coal", JInt 1)] false 100 redis_coal
           cache0 "coal").
  - split; [by_computation|reflexivity].
  - vm_compute. discriminate.
  - by_computation.
  - discriminate.
  - reflexivity.
Defined.

Lemma validateAssets_whole_table_load_witness :
  let o := validateAssets [("coal", JInt 1)] false hour_later redis_coal cache0 in
  result o = 4
  /\ cache_after o = mkCache (assetValueObject redis_coal hour_later) hour_later
  /\ assets (cache_after o) !! "coal" = Some (mkPrice 4 hour_later).
Proof.
  intros o. split; [vm_compute; reflexivity|].
  destruct (validateAssets_whole_table_load [("coal", JInt 1)] false hour_later
              redis_coal cache0) as [Hcache Hentry].
  - by_computation.
  - vm_compute. lia.
  - split; [exact Hcache|]. subst o. rewrite Hentry. reflexivity.
Defined.

Lemma validateAssets_frame_witness :
  let o := validateAssets [("wood", JInt 10)] false later redis0 cache0 in
  assetsCheckedAt (cache_after o) = 0
  /\ assets (cache_after o) !! "iron" = Some (mkPrice 7 0).
Proof.
  apply (validateAssets_frame [("wood", JInt 10)] false later redis0 cache0 "iron").
  - by_computation.
  - by_computation.
Defined.

Lemma validateAssets_refresh_writes_through_witness :
  assets (cache_after (validateAssets [("wood", JInt 10)] false later redis0 cache0))
    !! "wood"
  = Some (mkPrice 30 later).
Proof.
  apply (validateAssets_refresh_writes_through [("wood", JInt 10)] false later
           redis0 cache0 "wood" 30).
  - vm_compute. reflexivity.
  - by_computation.
  - by_computation.
  - reflexivity.
  - reflexivity.
Defined.

Lemma validateAssets_evicts_lost_symbol_witness :
  let o := validateAssets [("wood", JInt 10)] false later redis_no_wood cache0 in
  result o = -1 /\ assets (cache_after o) !! "wood" = None.
Proof.
  intros o.
  destruct (validateAssets_evicts_lost_symbol [("wood", JInt 10)] false later
              redis_no_wood cache0 "wood")
    as (Hr & lost & Hin & _ & _ & Hgone).
  - vm_compute. reflexivity.
  - by_computation.
  - reflexivity.
  - reflexivity.
  - split; [exact Hr|].
    apply list_elem_of_singleton in Hin. subst lost. apply Hgone. by_computation.
Defined.

Lemma validateAssets_result_witness :
  let l := [("wood", JInt 10); ("iron", JInt 2); ("stelo", JInt 5)] in
  result (validateAssets l true later redis0 cache0) = 30 * 10 + 7 * 2.
Proof.
  intros l.
  rewrite (validateAssets_result l true later redis0 cache0).
  - vm_compute. reflexivity.
  - by_computation.
  - repeat (apply Forall_cons; split; [split; [by_computation|reflexivity]|]).
    apply Forall_nil_2.
  - vm_compute. discriminate.
  - vm_compute. reflexivity.
  - by_computation.
Defined.

Lemma validateAssets_no_second_refresh_witness :
  let first := validateAssets [("wood", JInt 10)] false later redis0 cache0 in
  let second :=
    validateAssets [("wood", JInt 1); ("iron", JInt 1)] false (later + thirtyMinutes)
      redis_coal (cache_after first) in
  "wood" ∈ hmget_fields (redis_calls first)
  /\ "wood" ∉ hmget_fields (redis_calls second).
Proof.
  apply (validateAssets_no_second_refresh [("wood", JInt 10)] false later redis0
           cache0 "wood" [("wood", JInt 1); ("iron", JInt 1)] false
           (later + thirtyMinutes) redis_coal).
  - vm_compute. reflexivity.
  - by_computation.
  - by_computation.
  - reflexivity.
  - unfold later. lia.
Defined.

Lemma app_start_serves_loaded_prices_witness :
  let c := mkCache (assetValueObject redis0 0) 0 in
  validateAssets [("wood", JInt 10); ("stelo", JInt 5)] true 100 redis_no_wood c
  = mkOutcome 300 c [].
Proof.
  intros c.
  apply (app_start_serves_loaded_prices redis0 0 c
           [("wood", JInt 10); ("stelo", JInt 5)] true 100 redis_no_wood).
  - reflexivity.
  - reflexivity.
  - quantities_positive.
  - apply Forall_cons; split; [right; by eexists|].
    apply Forall_cons; split; [left; reflexivity|apply Forall_nil_2].
  - left. reflexivity.
  - unfold thirtyMinutes. lia.
  - vm_compute. discriminate.
Defined.

Lemma post_transfers_effect_witness :
  let out := post_transfers 100 10 11 [("wood", JInt 10)] 200 redis0 deposited_state in
  out.1 = Success 201
  /\ wallets out.2 = wallets deposited_state
  /\ transfers out.2 = {[ 0%N := transfer_pending ]}
  /\ warehouse_view 10 out.2 = Some (1000, 800, 0)
  /\ warehouse_view 11 out.2 = Some (1000, 0, 40).
Proof.
  intros out.
  assert (Hok : out.1 = Success 201) by (vm_compute; reflexivity).
  destruct (post_transfers_effect 100 10 11 [("wood", JInt 10)] 200 redis0
              deposited_state Hok) as (_ & Hwallets & _ & _).
  split; [exact Hok|]. split; [exact Hwallets|].
  repeat split; vm_compute; reflexivity.
Defined.

Lemma post_transfers_failure_witness :
  let out := post_transfers 7 10 11 [("wood", JInt 10)] 200 redis0 deposited_state in
  out.1 = Failure 403 "A0011"
  /\ wallets out.2 = wallets deposited_state
  /\ warehouses out.2 = warehouses deposited_state
  /\ warehouseAccounts out.2 = warehouseAccounts deposited_state
  /\ transfers out.2 = transfers deposited_state.
Proof.
  intros out. split; [vm_compute; reflexivity|].
  apply (post_transfers_failure 7 10 11 [("wood", JInt 10)] 200 redis0 deposited_state).
  vm_compute. discriminate.
Defined.

Lemma delete_transfer_effect_witness :
  let out := delete_transfer 100 0 created_state in
  out.1 = Success 200
  /\ transfers out.2 = delete 0%N (transfers created_state)
  /\ wallets out.2 = wallets created_state
  /\ warehouse_view 10 out.2 = Some (1000, 1000, 0)
  /\ warehouse_view 11 out.2 = Some (1000, 0, 50).
Proof.
  intros out.
  destruct (delete_transfer_effect 100 0 created_state transfer_pending)
    as (Hok & Htransfers & Hwallets & _); [vm_compute; reflexivity..|].
  split; [exact Hok|]. split; [exact Htransfers|]. split; [exact Hwallets|].
  split; vm_compute; reflexivity.
Defined.

Lemma create_then_cancel_witness :
  let created :=
    post_transfers 100 10 11 [("wood", JInt 10)] 200 redis0 deposited_state in
  let out := delete_transfer 100 0 created.2 in
  out.1 = Success 200
  /\ warehouses out.2 = warehouses deposited_state
  /\ transfers out.2 = transfers deposited_state
  /\ wallets out.2 = wallets deposited_state.
Proof.
  apply (create_then_cancel 100 10 11 [("wood", JInt 10)] 200 redis0 deposited_state
           100).
  - vm_compute. reflexivity.
  - vm_compute. reflexivity.
Defined.

Lemma sent_status_guard_witness :
  let out := put_transfer_status 100 0 sent created_state in
  out.1 = Success 200
  /\ warehouses out.2 = warehouses created_state
  /\ put_transfer_status 100 0 sent out.2 = (Failure 404 "T0001", out.2)
  /\ delete_transfer 100 0 out.2 = (Failure 404 "T0001", out.2).
Proof.
  intros out.
  assert (Hok : out.1 = Success 200) by (vm_compute; reflexivity).
  destruct (sent_status_guard 100 0 created_state Hok) as (_ & Hh & _ & Hlater).
  split; [exact Hok|]. split; [exact Hh|]. exact (Hlater 100%N).
Defined.

Lemma transfer_request_failure_witness :
  delete_transfer 7 0 created_state = (Failure 403 "T0002", created_state)
  /\ put_transfer_status 7 0 sent created_state = (Failure 403 "T0002", created_state)
  /\ (put_transfer_status 100 0 received created_state).2 = created_state.
Proof.
  destruct (transfer_request_failure 7 0 sent created_state) as (_ & _ & Hguard).
  destruct (Hguard transfer_pending) as (Hcancel & Hsent & _);
    [vm_compute; reflexivity|].
  split; [apply Hcancel; vm_compute; reflexivity|].
  split; [apply Hsent; vm_compute; reflexivity|].
  destruct (transfer_request_failure 100 0 received created_state) as (_ & Hput & _).
  apply Hput. vm_compute. discriminate.
Defined.

Lemma warehouse_access_control_witness :
  patch_warehouse_collateral 7 1 10 5 s0 = (Failure 403 "A0012", s0)
  /\ post_warehouse_assets 7 10 "alice" [("wood", JInt 1)] 100 redis0 s0
     = (Failure 403 "A0011", s0)
  /\ delete_warehouse_assets 7 10 "alice" [("wood", JInt 1)] 100 redis0 s0
     = (Failure 403 "A0011", s0)
  /\ (post_transfers 7 10 11 [("wood", JInt 1)] 100 redis0 s0).1 = Failure 403 "A0011".
Proof.
  destruct (warehouse_access_control 7 1 10 11 "alice" 5 [("wood", JInt 1)] 100
              redis0 s0 (mkWarehouse 100 [] 0 0 ∅))
    as (Hpatch & Hrest); [vm_compute; reflexivity|discriminate|].
  destruct Hrest as (Hdeposit & Hwithdraw & _ & Hcreate); [by_computation|].
  split; [exact Hpatch|]. split; [exact Hdeposit|]. split; [exact Hwithdraw|].
  apply Hcreate; [vm_compute; discriminate|simpl; lia].
Defined.

Lemma patch_collateral_effect_witness :
  let out := patch_warehouse_collateral 100 1 10 1000 s0 in
  let back := patch_warehouse_collateral 100 1 10 (-400) out.2 in
  out.1 = Success 200
  /\ (exists w' h',
        wallets out.2 !! 1%N = Some w' /\ warehouses out.2 !! 10%N = Some h'
        /\ balance (w_assets w') "stelo" = 4000
        /\ collateral h' = 1000 /\ collateralAvailable h' = 1000)
  /\ back.1 = Success 200
  /\ (exists w' h',
        wallets back.2 !! 1%N = Some w' /\ warehouses back.2 !! 10%N = Some h'
        /\ balance (w_assets w') "stelo" = 4400
        /\ collateral h' = 600 /\ collateralAvailable h' = 600)
  /\ (patch_warehouse_collateral 100 1 10 6000 s0).2 = s0.
Proof.
  intros out back.
  assert (Hok : out.1 = Success 200) by (vm_compute; reflexivity).
  assert (Hback : back.1 = Success 200) by (vm_compute; reflexivity).
  split; [exact Hok|]. split; [|split; [exact Hback|split]].
  - destruct (proj1 (patch_collateral_effect 100 1 10 1000 s0) Hok)
      as (w & h & w' & h' & Hw & Hh & Hw' & Hh' & Hb & _ & Hc & Ha & _).
    exists w', h'. split; [exact Hw'|]. split; [exact Hh'|].
    vm_compute in Hw. vm_compute in Hh.
    injection Hw as <-. injection Hh as <-.
    split; [rewrite Hb; reflexivity|]. split; [rewrite Hc|rewrite Ha]; reflexivity.
  - destruct (proj1 (patch_collateral_effect 100 1 10 (-400) out.2) Hback)
      as (w & h & w' & h' & Hw & Hh & Hw' & Hh' & Hb & _ & Hc & Ha & _).
    exists w', h'. split; [exact Hw'|]. split; [exact Hh'|].
    vm_compute in Hw. vm_compute in Hh.
    injection Hw as <-. injection Hh as <-.
    split; [rewrite Hb; reflexivity|]. split; [rewrite Hc|rewrite Ha]; reflexivity.
  - apply (proj2 (patch_collateral_effect 100 1 10 6000 s0)).
    vm_compute. discriminate.
Defined.

Lemma deposit_effect_witness :
  let out := post_warehouse_assets 100 11 "alice" [("wood", JInt 50)] 100 redis0
               pledged_state in
  out.1 = Success 200
  /\ warehouses out.2 !! 10%N = warehouses pledged_state !! 10%N
  /\ transfers out.2 = transfers pledged_state
  /\ warehouse_view 11 out.2 = Some (1000, 0, 50).
Proof.
  intros out.
  assert (Hok : out.1 = Success 200) by (vm_compute; reflexivity).
  destruct (proj1 (deposit_effect 100 11 "alice" [("wood", JInt 50)] 100 redis0
                     pledged_state) Hok)
    as (h & h' & _ & _ & _ & _ & _ & _ & Hothers & Htransfers).
  split; [exact Hok|]. split; [apply Hothers; discriminate|].
  split; [exact Htransfers|]. vm_compute. reflexivity.
Defined.

Lemma withdrawal_effect_witness :
  let out := delete_warehouse_assets 100 11 "alice" [("wood", JInt 10)] 100 redis0
               deposited_state in
  let poor := delete_warehouse_assets 100 11 "nobody" [("wood", JInt 10)] 100 redis0
                deposited_state in
  out.1 = Success 200
  /\ warehouse_view 11 out.2 = Some (1000, 200, 40)
  /\ poor.1 = Failure 400 "W0002"
  /\ warehouses poor.2 = warehouses deposited_state.
Proof.
  intros out poor.
  destruct (withdrawal_effect 100 11 "nobody" [("wood", JInt 10)] 100 redis0
              deposited_state) as (_ & Hfail & Hpoor).
  split; [vm_compute; reflexivity|]. split; [vm_compute; reflexivity|].
  assert (Hw : poor.1 = Failure 400 "W0002").
  { apply (Hpoor warehouseB_full); [vm_compute; reflexivity|simpl; lia|
                                    vm_compute; discriminate|vm_compute; reflexivity..]. }
  split; [exact Hw|]. apply Hfail. fold poor. rewrite Hw. discriminate.
Defined.

Lemma worker_assignment_witness :
  let hired := post_warehouse_workers 100 10 101 hiring_state in
  let fired := delete_warehouse_worker 100 10 101 hired.2 in
  hired.1 = Success 200
  /\ requester_assigned 101 [10%N] hired.2 = true
  /\ post_warehouse_workers 100 10 101 hired.2 = (Failure 400 "U0006", hired.2)
  /\ fired.1 = Success 200
  /\ requester_assigned 101 [10%N] fired.2 = false.
Proof.
  intros hired fired.
  assert (Hhired : hired.1 = Success 200) by (vm_compute; reflexivity).
  assert (Hfired : fired.1 = Success 200) by (vm_compute; reflexivity).
  destruct (proj1 (worker_assignment 100 10 101 hiring_state) Hhired)
    as (_ & Hassigned & Hagain).
  destruct (proj2 (worker_assignment 100 10 101 hired.2) Hfired) as (_ & Hnot);
    [discriminate|].
  split; [exact Hhired|]. split; [exact Hassigned|]. split; [exact Hagain|].
  split; [exact Hfired|exact Hnot].
Defined.

Lemma post_wallet_transactions_effect_witness :
  let out := post_wallet_transactions 1 "#shop" [("stelo", JInt 5)] true 100 redis0 s0 in
  out.1 = Success 201
  /\ (exists w', wallets out.2 !! 1%N = Some w'
                 /\ balance (w_assets w') "stelo" = 4995)
  /\ (exists w', wallets out.2 !! 2%N = Some w'
                 /\ balance (w_assets w') "stelo" = 5)
  /\ wallets (post_wallet_transactions 1 "#shop" [("stelo", JInt 5)] false 100
                redis0 s0).2
     = wallets s0.
Proof.
  intros out.
  assert (Hok : out.1 = Success 201) by (vm_compute; reflexivity).
  assert (Hexact : exact_increments (quantities [("stelo", JInt 5)]) (wallets s0)).
  { intros id w Hw key Hkey. simpl in Hkey.
    apply list_elem_of_singleton in Hkey. subst key.
    assert (Hall : map_Forall
                     (fun _ w0 => Z.abs (balance (w_assets w0) "stelo") <= 2 ^ 52)
                     (wallets s0)) by by_computation.
    pose proof (Hall id w Hw) as Hb. simpl in Hb.
    unfold safe_integer, MAX_SAFE_INTEGER. simpl. lia. }
  destruct (post_wallet_transactions_effect 1 "#shop" [("stelo", JInt 5)] true 100
              redis0 s0) as (Hdone & _); [reflexivity|exact Hexact|].
  destruct (Hdone Hok) as (recipientId & r & Hfind & Hall).
  vm_compute in Hfind. injection Hfind as <- <-.
  split; [exact Hok|]. split; [|split].
  - destruct (Hall 1%N alice) as (w' & Hw' & Hb); [vm_compute; reflexivity|].
    exists w'. split; [exact Hw'|]. rewrite Hb. reflexivity.
  - destruct (Hall 2%N shop) as (w' & Hw' & Hb); [vm_compute; reflexivity|].
    exists w'. split; [exact Hw'|]. rewrite Hb. reflexivity.
  - destruct (post_wallet_transactions_effect 1 "#shop" [("stelo", JInt 5)] false
                100 redis0 s0) as (_ & Hfail & _); [reflexivity|exact Hexact|].
    apply Hfail. vm_compute. discriminate.
Defined.

Lemma post_wallet_transactions_conserves_witness :
  let out := post_wallet_transactions 1 "#shop" [("stelo", JInt 5)] true 100 redis0 s0 in
  out.1 = Success 201
  /\ total_balance (wallets out.2) "stelo" = 6000
  /\ total_balance (wallets s0) "stelo" = 6000.
Proof.
  intros out. split; [vm_compute; reflexivity|].
  assert (Htotal : total_balance (wallets s0) "stelo" = 6000)
    by (vm_compute; reflexivity).
  split; [|exact Htotal]. rewrite <- Htotal.
  apply (post_wallet_transactions_conserves 1 "#shop" [("stelo", JInt 5)] true 100
           redis0 s0 "stelo").
  intros id w Hw key Hkey. simpl in Hkey.
  apply list_elem_of_singleton in Hkey. subst key.
  assert (Hall : map_Forall
                   (fun _ w0 => Z.abs (balance (w_assets w0) "stelo") <= 2 ^ 52)
                   (wallets s0)) by by_computation.
  pose proof (Hall id w Hw) as Hb. simpl in Hb.
  unfold safe_integer, MAX_SAFE_INTEGER. simpl. lia.
Defined.

Lemma key_route_is_session_route_witness :
  post_wallets_address_transactions "genesisdistribution" "alice" [("stelo", JInt 5)]
    true 100 redis0 s0
  = post_wallet_transactions 3 "alice" [("stelo", JInt 5)] true 100 redis0 s0
  /\ (post_wallets_address_transactions "genesisdistribution" "alice"
        [("stelo", JInt 5)] true 100 redis0 s0).1
     = Success 201.
Proof.
  split; [|vm_compute; reflexivity].
  apply (key_route_is_session_route 3 genesis).
  - vm_compute. reflexivity.
  - reflexivity.
  - assert (Hall : map_Forall
                     (fun id' w' => address w' = Some "genesisdistribution" -> id' = 3%N)
                     (wallets s0)) by by_computation.
    intros id' w' Hl. exact (Hall id' w' Hl).
Defined.

Lemma post_wallet_transactions_lists_effect_witness :
  let lists' := post_wallet_transactions_lists 1 "alice" "#shop" (Some "rent")
                  [("stelo", JInt 5)] true 100 redis0 s0 ∅ in
  head (default [] (lists' !! 2%N))
  = Some (mkActivity "receive" "alice" [("stelo", JInt 5)] (Some "rent"))
  /\ head (default [] (lists' !! 1%N))
     = Some (mkActivity "send" "#shop" [("stelo", JInt 5)] (Some "rent"))
  /\ post_wallet_transactions_lists 1 "alice" "#shop" (Some "rent")
       [("stelo", JInt 5)] false 100 redis0 s0 ∅
     = ∅.
Proof.
  intros lists'.
  destruct (post_wallet_transactions_lists_effect 1 "alice" "#shop" (Some "rent")
              [("stelo", JInt 5)] true 100 redis0 s0 ∅) as (_ & Hdone & _).
  destruct Hdone as (recipientId & r & Hfind & Hreceive & Hsend & _);
    [vm_compute; reflexivity|].
  vm_compute in Hfind. injection Hfind as <- <-.
  split; [exact Hreceive|]. split; [apply Hsend; discriminate|].
  destruct (post_wallet_transactions_lists_effect 1 "alice" "#shop" (Some "rent")
              [("stelo", JInt 5)] false 100 redis0 s0 ∅) as (Hfail & _).
  apply Hfail. vm_compute. discriminate.
Defined.

Lemma distribution_effect_witness :
  exists s' userId user distribution',
    put_users_username "bob" true true s0 = Some (Success 201, s')
    /\ wallets s' !! userId = Some user
    /\ w_assets user = {[ "stelo" := 250000001 ]}
    /\ wallets s' !! 3%N = Some distribution'
    /\ w_assets distribution' !! "stelo" = Some (-249999001)
    /\ total_balance (wallets s') "stelo" = total_balance (wallets s0) "stelo".
Proof.
  destruct (distribution_effect "bob" s0 3 genesis 1000) as (_ & Hgive);
    [vm_compute; reflexivity|reflexivity|].
  destruct Hgive as (s' & userId & user & distribution' & Hput & _ & Huser & _
                     & Hassets & Hd & Hleft & _ & Htotal & _);
    [lia|vm_compute; reflexivity|].
  exists s', userId, user, distribution'. split; [exact Hput|]. split; [exact Huser|].
  split; [exact Hassets|]. split; [exact Hd|]. split; [exact Hleft|exact Htotal].
Defined.

Lemma delete_wallet_effect_witness :
  let out := delete_wallet 5 1 1 bank_state in
  out.1 = Success 200
  /\ wallets out.2 !! 5%N = None
  /\ (forall key, total_balance (wallets out.2) key
                  = total_balance (wallets bank_state) key)
  /\ delete_wallet 5 1 2 bank_state = (Failure 403 "W0006", bank_state).
Proof.
  intros out.
  destruct (delete_wallet_effect 5 1 1 bank_state bot) as (_ & _ & Hdone);
    [vm_compute; reflexivity|].
  destruct (Hdone eq_refl) with (owner := alice) as (Hok & Hgone & _ & _ & Htotal);
    [discriminate|vm_compute; reflexivity|].
  split; [exact Hok|]. split; [exact Hgone|]. split; [exact Htotal|].
  destruct (delete_wallet_effect 5 1 2 bank_state bot) as (Hstranger & _);
    [vm_compute; reflexivity|].
  apply Hstranger. discriminate.
Defined.

Lemma delete_user_effect_witness :
  let out := delete_user 1 false true bank_state in
  out.1 = Success 200
  /\ wallets out.2 !! 1%N = None
  /\ (forall key, total_balance (wallets out.2) key
                  = total_balance (wallets bank_state) key)
  /\ delete_user 1 false true s0 = (Failure 404 "S0000", s0).
Proof.
  intros out.
  destruct (delete_user_effect 1 bank_state alice) as (_ & Hdone);
    [vm_compute; reflexivity|].
  destruct (Hdone 4%N treasury) as (Hok & Hgone & _ & Htotal);
    [vm_compute; reflexivity|].
  split; [exact Hok|]. split; [exact Hgone|]. split; [exact Htotal|].
  destruct (delete_user_effect 1 s0 alice) as (Hmissing & _);
    [vm_compute; reflexivity|].
  apply Hmissing. vm_compute. reflexivity.
Defined.

Lemma session_absolute_timeout_witness :
  let now := Auth.SESSION_ABSOLUTE_TIMEOUT + 1 in
  Auth.isLoggedIn None false now user_session
  = (Auth.Refused 400 "A0001", Auth.destroyed)
  /\ Auth.isGuest (Auth.isLoggedIn None false now user_session).2 = Auth.Next
  /\ Auth.isLoggedIn None false Auth.SESSION_ABSOLUTE_TIMEOUT user_session
     = (Auth.Next, user_session).
Proof.
  intros now.
  destruct (session_absolute_timeout None false now user_session) as (Hold & _);
    [by eexists|].
  destruct (session_absolute_timeout None false Auth.SESSION_ABSOLUTE_TIMEOUT
              user_session) as (_ & Hyoung); [by eexists|].
  destruct Hold as (Hrefused & Hguest); [unfold now; simpl; lia|].
  destruct Hyoung as (_ & _ & Hnext); [simpl; lia|].
  split; [exact Hrefused|]. split; [exact Hguest|exact Hnext].
Defined.

Lemma session_levels_witness :
  (Auth.isLoggedIn (Some true) false 5 user_session).1 = Auth.Next
  /\ (Auth.isLoggedIn None false 5 user_session).1 = Auth.Next
  /\ (Auth.isLoggedIn (Some false) false 5 user_session).1 <> Auth.Next.
Proof.
  destruct (session_levels 5 user_session) as (Hwarehouse & Huser & Hexclusive & _).
  assert (H1 : (Auth.isLoggedIn (Some true) false 5 user_session).1 = Auth.Next)
    by (apply Hwarehouse; vm_compute; reflexivity).
  split; [exact H1|]. split; [exact (Huser H1)|].
  intros H2. apply Hexclusive. split; [exact H1|exact H2].
Defined.

End MoreInstances.
